(** * Agentic execution engine: reasoning strategies and multi-agent collaboration

    A shallow embedding of [ReasoningEngine] (reasoning-engine.ts) and of
    [MultiAgentOrchestrator] and [MemorySystem] (memory-system.ts).

    Conventions of the embedding:
    - a JavaScript string is a [string] of ASCII code units; [toUpperCase],
      [trim] and the regular expressions act on ASCII as ECMAScript does;
    - a JavaScript [number] that counts (array lengths, indices, step numbers)
      is a [nat]; the other numbers are exact rationals ([Q]), so the
      arithmetic is the one the code writes down, without IEEE-754 rounding;
      where a statement depends on the rounding, [Double] evaluates the same
      expressions in binary64, as the code runs them;
    - the text generator (the OpenAI client) is an oracle that answers each
      call from the calls issued before it; every call is appended to a log;
    - wall-clock fields ([timestamp], per-step [execution_time]) are left out. *)

From Stdlib Require Import PrimFloat.
From Stdlib Require Floats Uint63.
From Stdlib Require Import ZArith QArith Qminmax Qabs Lia.
From Stdlib Require Import Ascii String DecimalString.
From stdpp Require Import gmap strings list.

Set Warnings "-inexact-float".

Local Open Scope string_scope.

(** ** JavaScript strings *)

Module JS.

Definition nl : string := String (ascii_of_nat 10) EmptyString.
Definition dquote : string := String (ascii_of_nat 34) EmptyString.

(** [String.prototype.toUpperCase] on ASCII. *)
Definition upper_char (c : ascii) : ascii :=
  let n := nat_of_ascii c in
  if (97 <=? n)%nat && (n <=? 122)%nat then ascii_of_nat (n - 32) else c.

Fixpoint toUpperCase (s : string) : string :=
  match s with
  | EmptyString => EmptyString
  | String c s' => String (upper_char c) (toUpperCase s')
  end.

(** [s.includes(sub)] *)
Fixpoint includes (sub s : string) : bool :=
  String.prefix sub s ||
  match s with
  | EmptyString => false
  | String _ s' => includes sub s'
  end.

(** [s.indexOf(c)] for a one-character needle; [None] stands for [-1]. *)
Fixpoint indexOf (c : ascii) (s : string) : option nat :=
  match s with
  | EmptyString => None
  | String d s' => if Ascii.eqb c d then Some 0 else S <$> indexOf c s'
  end.

(** [s.substring(n)] *)
Fixpoint substring_from (n : nat) (s : string) : string :=
  match n, s with
  | O, _ => s
  | S _, EmptyString => EmptyString
  | S n', String _ s' => substring_from n' s'
  end.

(** [s.substring(0, n)] *)
Fixpoint substring_to (n : nat) (s : string) : string :=
  match n, s with
  | O, _ => EmptyString
  | S _, EmptyString => EmptyString
  | S n', String c s' => String c (substring_to n' s')
  end.

(** White space and line terminators below 128: TAB, LF, VT, FF, CR, SP. *)
Definition is_space (c : ascii) : bool :=
  let n := nat_of_ascii c in
  ((9 <=? n)%nat && (n <=? 13)%nat) || (n =? 32)%nat.

Definition is_empty (s : string) : bool :=
  match s with EmptyString => true | _ => false end.

Fixpoint trimStart (s : string) : string :=
  match s with
  | EmptyString => EmptyString
  | String c s' => if is_space c then trimStart s' else s
  end.

Fixpoint trimEnd (s : string) : string :=
  match s with
  | EmptyString => EmptyString
  | String c s' =>
      let t := trimEnd s' in
      if is_space c && is_empty t then EmptyString else String c t
  end.

Definition trim (s : string) : string := trimEnd (trimStart s).

(** [s.split(sep)] for a non-empty separator: [cur] is the piece being read,
    [skip] counts the separator characters still to pass over. *)
Fixpoint split_go (sep : string) (skip : nat) (cur s : string) : list string :=
  match s with
  | EmptyString => [cur]
  | String c s' =>
      match skip with
      | S k => split_go sep k cur s'
      | O =>
          if String.prefix sep s
          then cur :: split_go sep (String.length sep - 1) EmptyString s'
          else split_go sep 0 (cur ++ String c EmptyString) s'
      end
  end.

Definition split (sep s : string) : list string := split_go sep 0 EmptyString s.

(** [parts.join(sep)] *)
Definition join (sep : string) (parts : list string) : string :=
  String.concat sep parts.

(** Template-literal rendering of a counter. *)
Definition of_nat (n : nat) : string := NilEmpty.string_of_uint (Nat.to_uint n).

(** [x || fallback] on a string that may be [null] or [undefined]. *)
Definition or_else (x : option string) (fallback : string) : string :=
  match x with
  | Some s => if is_empty s then fallback else s
  | None => fallback
  end.

(** [a[a.length - 1]] *)
Definition last_elem {A} (l : list A) : option A := last l.

End JS.

(** ** Regular expressions

    The fragment of ECMAScript regular expressions the engine uses, matched by
    backtracking in the order the specification prescribes.  Every pattern of
    the source carries the [i] flag and none carries [m]. *)

Module Regex.

Inductive regex : Type :=
| Lit (w : string)                 (* a literal, letters compared without case *)
| Chr (cls : ascii -> bool)        (* one character of a class *)
| StarGreedy (cls : ascii -> bool) (* cls* *)
| StarLazy (cls : ascii -> bool)   (* cls*? *)
| End_                             (* $ *)
| Alt (r1 r2 : regex)
| Cat (r1 r2 : regex)
| Group (r : regex).               (* the capture group 1 *)

(** [.] matches all but line terminators; [\s] is white space; [\d] a digit. *)
Definition dot (c : ascii) : bool :=
  let n := nat_of_ascii c in negb ((n =? 10)%nat || (n =? 13)%nat).
Definition space (c : ascii) : bool := JS.is_space c.
Definition digit (c : ascii) : bool :=
  let n := nat_of_ascii c in (48 <=? n)%nat && (n <=? 57)%nat.

Fixpoint lit_prefix (w s : string) : option string :=
  match w, s with
  | EmptyString, _ => Some s
  | String _ _, EmptyString => None
  | String a w', String b s' =>
      if Ascii.eqb (JS.upper_char a) (JS.upper_char b) then lit_prefix w' s' else None
  end.

Section Matcher.
Context {A : Type}.

Definition orelse (x y : option A) : option A :=
  match x with Some _ => x | None => y end.

Fixpoint star_greedy (cls : ascii -> bool) (s : string)
    (k : string -> option A) : option A :=
  match s with
  | EmptyString => k s
  | String c s' => if cls c then orelse (star_greedy cls s' k) (k s) else k s
  end.

Fixpoint star_lazy (cls : ascii -> bool) (s : string)
    (k : string -> option A) : option A :=
  match s with
  | EmptyString => k s
  | String c s' => if cls c then orelse (k s) (star_lazy cls s' k) else k s
  end.

(** [rmatch r s cap k]: match [r] at the head of [s], then continue with [k]
    on the rest of the input and the text of group 1. *)
Fixpoint rmatch (r : regex) (s : string) (cap : option string)
    (k : string -> option string -> option A) : option A :=
  match r with
  | Lit w =>
      match lit_prefix w s with Some s' => k s' cap | None => None end
  | Chr cls =>
      match s with
      | String c s' => if cls c then k s' cap else None
      | EmptyString => None
      end
  | StarGreedy cls => star_greedy cls s (fun s' => k s' cap)
  | StarLazy cls => star_lazy cls s (fun s' => k s' cap)
  | End_ => if JS.is_empty s then k s cap else None
  | Alt r1 r2 => orelse (rmatch r1 s cap k) (rmatch r2 s cap k)
  | Cat r1 r2 => rmatch r1 s cap (fun s' cap' => rmatch r2 s' cap' k)
  | Group r1 =>
      rmatch r1 s cap (fun s' _ =>
        k s' (Some (JS.substring_to (String.length s - String.length s') s)))
  end.
End Matcher.

(** A match anchored at the head of [s]; the result is group 1. *)
Definition match_here (r : regex) (s : string) : option (option string) :=
  rmatch r s None (fun _ cap => Some cap).

(** [s.match(r)] without the [g] flag: the leftmost match. *)
Fixpoint exec (r : regex) (s : string) : option (option string) :=
  match match_here r s with
  | Some cap => Some cap
  | None =>
      match s with
      | EmptyString => None
      | String _ s' => exec r s'
      end
  end.

Fixpoint alts (ws : list string) : regex :=
  match ws with
  | [] => Lit EmptyString
  | [w] => Lit w
  | w :: ws' => Alt (Lit w) (alts ws')
  end.

Definition plus_greedy (cls : ascii -> bool) : regex := Cat (Chr cls) (StarGreedy cls).
Definition plus_lazy (cls : ascii -> bool) : regex := Cat (Chr cls) (StarLazy cls).

End Regex.

(** ** The text generator

    [openai.chat.completions.create] is the only effect of the engine.  A call
    either rejects (the awaiting code sees a thrown value) or resolves with a
    completion whose [choices[0].message.content] may be [null] and whose
    [usage] may be missing.  The generator decides from the calls issued so
    far, so two identical calls may be answered differently. *)

Module Gen.

Record Call : Type := mkCall {
  model : string;
  system : string;      (* content of the message with role 'system' *)
  user : string;        (* content of the message with role 'user' *)
  max_tokens : nat;
  temperature : Q
}.

Record Completion : Type := mkCompletion {
  content : option string;
  total_tokens : option nat
}.

(** A thrown value: an [Error] with its message, or anything else. *)
Inductive Thrown : Type :=
| ErrorObject (message : string)
| OtherValue.

Inductive Reply : Type :=
| Rejects (e : Thrown)
| Resolves (c : Completion).

Definition Generator : Type := list Call -> Call -> Reply.

Inductive Outcome (A : Type) : Type :=
| Returned (a : A)
| Threw (e : Thrown).
Arguments Returned {A} a.
Arguments Threw {A} e.

(** A computation reads the log of the calls issued so far (oldest first) and
    hands back its outcome with the extended log. *)
Definition M (A : Type) : Type := list Call -> Outcome A * list Call.

Definition ret {A} (a : A) : M A := fun log => (Returned a, log).
Definition throw {A} (e : Thrown) : M A := fun log => (Threw e, log).
Definition bind {A B} (m : M A) (f : A -> M B) : M B :=
  fun log =>
    match m log with
    | (Returned a, log') => f a log'
    | (Threw e, log') => (Threw e, log')
    end.

(** [try { m } catch (e) { ... }], handing both outcomes to the caller. *)
Definition attempt {A} (m : M A) : M (Outcome A) :=
  fun log => let '(o, log') := m log in (Returned o, log').

Definition lift {A} (o : Outcome A) : M A := fun log => (o, log).

Definition create (gen : Generator) (c : Call) : M Completion :=
  fun log =>
    (match gen log c with
     | Rejects e => Threw e
     | Resolves r => Returned r
     end, (log ++ [c])%list).

(** [xs.map(async (x, index) => ...)] followed by [Promise.all] when no
    callback rejects: the callbacks start in index order and each one reaches
    its generator call before the next starts. *)
Fixpoint map_indexed {A B} (f : nat -> A -> M B) (i : nat) (xs : list A) : M (list B) :=
  match xs with
  | [] => ret []
  | x :: xs' =>
      bind (f i x) (fun y =>
      bind (map_indexed f (S i) xs') (fun ys =>
      ret (y :: ys)))
  end.

(** [error instanceof Error ? error.message : 'Unknown error'] *)
Definition message_of (e : Thrown) : string :=
  match e with
  | ErrorObject m => m
  | OtherValue => "Unknown error"
  end.

Definition type_error (m : string) : Thrown := ErrorObject m.

End Gen.

Notation "'let*' x := m 'in' k" := (Gen.bind m (fun x => k))
  (at level 10, x name, m at level 100, k at level 200).
Notation "'let*' ' pat := m 'in' k" :=
  (Gen.bind m (fun x => match x with pat => k end))
  (at level 10, pat pattern, m at level 100, k at level 200).

(** ** ReasoningEngine (reasoning-engine.ts) *)

Module Reasoning.
Import Gen.

Inductive ReasoningType : Type :=
| chain_of_thought | react | tree_of_thoughts | self_reflection
| other_type (name : string).

Record ReasoningRequest : Type := mkRequest {
  input : string;
  type_ : ReasoningType;
  context : option string;   (* the JSON text of a truthy [context] *)
  req_max_tokens : option nat;
  req_temperature : option Q
}.

Record ReasoningStep : Type := mkStep {
  step_number : nat;
  step_type : string;
  thought : string;
  action : option string;
  observation : option string;
  confidence : Q
}.

Record ReasoningResult : Type := mkResult {
  response : string;
  reasoning : list ReasoningStep;
  result_confidence : Q;
  processing_time : Q;
  tokens_used : nat
}.

Record Stats : Type := mkStats {
  total_processes : Z;
  success_rate : Q;
  avg_processing_time : Q;
  avg_tokens_used : Q
}.

(** The statistics a fresh engine starts from. *)
Definition initial_stats : Stats :=
  {| total_processes := 0; success_rate := 1.0;
     avg_processing_time := 0; avg_tokens_used := 0 |}.

Definition completion_text (c : Completion) : string :=
  JS.or_else (content c) EmptyString.

(** [completion.usage?.total_tokens || 0] *)
Definition completion_tokens (c : Completion) : nat :=
  match total_tokens c with Some n => n | None => 0 end.

(** *** Prompts *)

Definition buildChainOfThoughtPrompt (input : string) (context : option string) : string :=
  let prompt := "Please solve this step by step, showing your reasoning:" ++ JS.nl ++ JS.nl ++ input in
  let prompt :=
    match context with
    | Some json => prompt ++ JS.nl ++ JS.nl ++ "Context: " ++ json
    | None => prompt
    end in
  prompt ++ JS.nl ++ JS.nl
    ++ "Think through this systematically, numbering each step of your reasoning.".

(** A string is truthy when it is there and not empty. *)
Definition when_truthy (x : option string) (f : string -> string) : string :=
  match x with
  | Some s => if JS.is_empty s then EmptyString else f s
  | None => EmptyString
  end.

(** The source also passes [request.context], which the body never reads. *)
Definition buildReactThoughtPrompt (input : string) (previousReasoning : list ReasoningStep) : string :=
  let prompt := "Question: " ++ input ++ JS.nl ++ JS.nl in
  let prompt :=
    if (0 <? length previousReasoning)%nat then
      fold_left (fun prompt step =>
          prompt ++ "Step " ++ JS.of_nat (step_number step) ++ ": " ++ thought step ++ JS.nl
            ++ when_truthy (action step) (fun a => "Action: " ++ a ++ JS.nl)
            ++ when_truthy (observation step) (fun o => "Observation: " ++ o ++ JS.nl))
        previousReasoning (prompt ++ "Previous reasoning steps:" ++ JS.nl)
      ++ JS.nl
    else prompt in
  prompt ++ "THOUGHT: What should I think about next to solve this problem?".

Definition buildReactActionPrompt (thought input : string) : string :=
  "Given this thought: " ++ JS.dquote ++ thought ++ JS.dquote ++ JS.nl ++ JS.nl
    ++ "For the question: " ++ JS.dquote ++ input ++ JS.dquote ++ JS.nl ++ JS.nl
    ++ "What ACTION should I take? (SEARCH, CALCULATE, ANALYZE, or ANSWER)".

(** The simulated action executor. *)
Definition executeAction (action input : string) : string :=
  let upper := JS.toUpperCase action in
  if JS.includes "SEARCH" upper then
    "Search results: [Simulated search results related to the query]"
  else if JS.includes "CALCULATE" upper then
    "Calculation complete: [Simulated calculation result]"
  else if JS.includes "ANALYZE" upper then
    "Analysis: [Simulated analysis results]"
  else if JS.includes "ANSWER" upper then
    "Final answer based on previous reasoning steps."
  else "Action executed successfully.".

(** *** Parsing the reply of the direct strategy *)

(** [/^\d+\.|step \d+/i]: the first alternative can only match at the head of
    the line, the second anywhere. *)
Definition numbered_head : Regex.regex :=
  Regex.Cat (Regex.plus_greedy Regex.digit) (Regex.Lit ".").
Definition step_word : Regex.regex :=
  Regex.Cat (Regex.Lit "step ") (Regex.plus_greedy Regex.digit).

Definition matched {A} (m : option A) : bool :=
  match m with Some _ => true | None => false end.

Definition is_step_line (line : string) : bool :=
  matched (Regex.match_here numbered_head line) || matched (Regex.exec step_word line).

Fixpoint parse_lines (lines : list string) (stepNumber : nat) : list ReasoningStep :=
  match lines with
  | [] => []
  | line :: rest =>
      if is_step_line line
      then {| step_number := stepNumber; step_type := "chain-of-thought";
              thought := line; action := None; observation := None;
              confidence := 0.8 |} :: parse_lines rest (S stepNumber)
      else parse_lines rest stepNumber
  end.

Definition parseChainOfThoughtReasoning (response : string) : list ReasoningStep :=
  let steps := parse_lines (JS.split JS.nl response) 1 in
  if (0 <? length steps)%nat then steps
  else [{| step_number := 1; step_type := "chain-of-thought";
           thought := response; action := None; observation := None;
           confidence := 0.7 |}].

(** [/(?:answer|conclusion|therefore|finally|result):\s*(.+?)(?:\n|$)/i] and
    [/(?:the answer is|the result is|we conclude that)\s*(.+?)(?:\n|$)/i] *)
Definition answer_tail : Regex.regex :=
  Regex.Cat (Regex.StarGreedy Regex.space)
    (Regex.Cat (Regex.Group (Regex.plus_lazy Regex.dot))
       (Regex.Alt (Regex.Lit JS.nl) Regex.End_)).

Definition patterns : list Regex.regex :=
  [ Regex.Cat (Regex.alts ["answer"; "conclusion"; "therefore"; "finally"; "result"])
      (Regex.Cat (Regex.Lit ":") answer_tail);
    Regex.Cat (Regex.alts ["the answer is"; "the result is"; "we conclude that"])
      answer_tail ].

(** [String(x)] of a value that may be [undefined], as [x + '.'] computes it. *)
Definition to_string (x : option string) : string :=
  match x with Some s => s | None => "undefined" end.

Fixpoint first_pattern (ps : list Regex.regex) (response : string)
    (otherwise : Outcome string) : Outcome string :=
  match ps with
  | [] => otherwise
  | pattern :: ps' =>
      match Regex.exec pattern response with
      | Some (Some g) => Returned (JS.trim g)
      | Some None =>
          Threw (type_error "Cannot read properties of undefined (reading 'trim')")
      | None => first_pattern ps' response otherwise
      end
  end.

Definition extractFinalAnswer (response : string) : Outcome string :=
  first_pattern patterns response
    (let sentences :=
       List.filter (fun s => (10 <? String.length (JS.trim s))%nat) (JS.split "." response) in
     let text := to_string (JS.trim <$> JS.last_elem sentences) ++ "." in
     Returned (if JS.is_empty text then response else text)).

Definition calculateConfidence (reasoning : list ReasoningStep) : Q :=
  if (length reasoning =? 0)%nat then 0.5
  else
    let n := inject_Z (Z.of_nat (length reasoning)) in
    let avgConfidence :=
      (fold_left (fun sum step => sum + confidence step) reasoning 0 / n)%Q in
    let complexityBonus := Qmin (n * 0.05) 0.2 in
    Qmin (avgConfidence + complexityBonus) 1.0.

(** *** The four strategies *)

Section Strategies.
Variable gen : Generator.

Definition chainOfThought (request : ReasoningRequest) : M ReasoningResult :=
  let prompt := buildChainOfThoughtPrompt (input request) (context request) in
  let* completion := create gen
    {| model := "gpt-4";
       system := "You are an advanced reasoning system. Think step by step, showing your reasoning process clearly. Each step should be numbered and explain your thought process.";
       user := prompt;
       max_tokens :=
         match req_max_tokens request with
         | Some n => if (n =? 0)%nat then 2000 else n
         | None => 2000
         end;
       temperature :=
         match req_temperature request with
         | Some t => if Qeq_bool t 0 then 0.7 else t
         | None => 0.7
         end |} in
  let response := completion_text completion in
  let reasoning := parseChainOfThoughtReasoning response in
  let* answer := lift (extractFinalAnswer response) in
  ret {| response := answer;
         reasoning := reasoning;
         result_confidence := calculateConfidence reasoning;
         processing_time := 0;
         tokens_used := completion_tokens completion |}.

Definition maxIterations : nat := 5.

(** The [while (iteration < maxIterations)] loop; [remaining] is
    [maxIterations - iteration]. *)
Fixpoint react_loop (remaining iteration : nat) (currentInput : string)
    (reasoning : list ReasoningStep) (totalTokens : nat)
    : M (list ReasoningStep * nat) :=
  match remaining with
  | O => ret (reasoning, totalTokens)
  | S remaining' =>
      let iteration := S iteration in
      let thoughtPrompt := buildReactThoughtPrompt currentInput reasoning in
      let* thoughtCompletion := create gen
        {| model := "gpt-4";
           system := "You are using the ReAct methodology. Generate a THOUGHT about what you should do next to solve this problem.";
           user := thoughtPrompt;
           max_tokens := 300;
           temperature := 0.7 |} in
      let thought := completion_text thoughtCompletion in
      let totalTokens := (totalTokens + completion_tokens thoughtCompletion)%nat in
      let actionPrompt := buildReactActionPrompt thought currentInput in
      let* actionCompletion := create gen
        {| model := "gpt-4";
           system := "Based on your thought, decide what ACTION to take. Actions can be: SEARCH, CALCULATE, ANALYZE, or ANSWER.";
           user := actionPrompt;
           max_tokens := 200;
           temperature := 0.3 |} in
      let action := completion_text actionCompletion in
      let totalTokens := (totalTokens + completion_tokens actionCompletion)%nat in
      let observation := executeAction action currentInput in
      let reasoning :=
        (reasoning ++ [{| step_number := iteration; step_type := "react";
                         thought := thought; action := Some action;
                         observation := Some observation;
                         confidence := 0.8 |}])%list in
      if JS.includes "ANSWER" (JS.toUpperCase action)
      then ret (reasoning, totalTokens)
      else
        react_loop remaining' iteration
          (currentInput ++ JS.nl ++ JS.nl ++ "Previous reasoning: " ++ thought ++ JS.nl
             ++ "Action taken: " ++ action ++ JS.nl ++ "Result: " ++ observation)
          reasoning totalTokens
  end.

Definition reactMethodology (request : ReasoningRequest) : M ReasoningResult :=
  let* '(reasoning, totalTokens) :=
    react_loop (maxIterations - 0) 0 (input request) [] 0 in
  let finalAnswer :=
    JS.or_else (JS.last_elem reasoning ≫= observation) "Could not determine answer" in
  ret {| response := finalAnswer;
         reasoning := reasoning;
         result_confidence := calculateConfidence reasoning;
         processing_time := 0;
         tokens_used := totalTokens |}.

Definition generateThoughtBranches (input : string) (branches : nat)
    : M (list string * nat) :=
  let* completion := create gen
    {| model := "gpt-4";
       system := "Generate " ++ JS.of_nat branches ++ " different approaches or perspectives to solve this problem. Each should be distinct and explore different angles.";
       user := input;
       max_tokens := 600;
       temperature := 0.8 |} in
  let response := completion_text completion in
  let thoughts :=
    take branches
      (List.filter (fun line => (0 <? String.length (JS.trim line))%nat)
         (JS.split JS.nl response)) in
  ret (thoughts, completion_tokens completion).

Definition evaluateThoughts (thoughts : list string) (originalInput : string)
    : M (list string * nat) :=
  let* completion := create gen
    {| model := "gpt-4";
       system := "Evaluate these different thought approaches and rank them by how likely they are to lead to a correct solution. Return them in order of preference.";
       user := "Original question: " ++ originalInput ++ JS.nl ++ JS.nl
                 ++ "Thought approaches:" ++ JS.nl
                 ++ JS.join JS.nl (imap (fun i t => JS.of_nat (i + 1) ++ ". " ++ t) thoughts)
                 ++ JS.nl ++ JS.nl ++ "Rank these approaches:";
       max_tokens := 400;
       temperature := 0.3 |} in
  ret (thoughts, completion_tokens completion).

Definition treeOfThoughts (request : ReasoningRequest) : M ReasoningResult :=
  let branches := 3 in
  let* initialThoughts := generateThoughtBranches (input request) branches in
  let totalTokens := initialThoughts.2 in
  let* evaluatedThoughts := evaluateThoughts initialThoughts.1 (input request) in
  let totalTokens := (totalTokens + evaluatedThoughts.2)%nat in
  let bestPath := head evaluatedThoughts.1 in
  let* finalCompletion := create gen
    {| model := "gpt-4";
       system := "Based on the explored thought paths, provide a comprehensive final answer.";
       user := "Original question: " ++ input request ++ JS.nl ++ JS.nl
                 ++ "Best thought path: " ++ to_string bestPath ++ JS.nl ++ JS.nl
                 ++ "Provide the final answer:";
       max_tokens := 500;
       temperature := 0.5 |} in
  let finalAnswer := completion_text finalCompletion in
  let totalTokens := (totalTokens + completion_tokens finalCompletion)%nat in
  let reasoning :=
    imap (fun index thought =>
            {| step_number := index + 1; step_type := "tree-of-thoughts";
               thought := thought; action := None; observation := None;
               confidence := 0.7 |}) evaluatedThoughts.1 in
  ret {| response := finalAnswer;
         reasoning := reasoning;
         result_confidence := 0.85;
         processing_time := 0;
         tokens_used := totalTokens |}.

Definition selfReflection (request : ReasoningRequest) : M ReasoningResult :=
  let* initialCompletion := create gen
    {| model := "gpt-4";
       system := "Provide an initial response to the question.";
       user := input request;
       max_tokens := 400;
       temperature := 0.7 |} in
  let initialResponse := completion_text initialCompletion in
  let totalTokens := completion_tokens initialCompletion in
  let* reflectionCompletion := create gen
    {| model := "gpt-4";
       system := "Critically analyze the previous response. What could be improved? What might be wrong?";
       user := "Original question: " ++ input request ++ JS.nl ++ JS.nl
                 ++ "Previous response: " ++ initialResponse ++ JS.nl ++ JS.nl
                 ++ "Provide a critical analysis:";
       max_tokens := 400;
       temperature := 0.8 |} in
  let reflection := completion_text reflectionCompletion in
  let totalTokens := (totalTokens + completion_tokens reflectionCompletion)%nat in
  let* improvedCompletion := create gen
    {| model := "gpt-4";
       system := "Based on your reflection, provide an improved and more accurate response.";
       user := "Original question: " ++ input request ++ JS.nl ++ JS.nl
                 ++ "Initial response: " ++ initialResponse ++ JS.nl ++ JS.nl
                 ++ "Reflection: " ++ reflection ++ JS.nl ++ JS.nl
                 ++ "Provide an improved response:";
       max_tokens := 500;
       temperature := 0.6 |} in
  let improvedResponse := completion_text improvedCompletion in
  let totalTokens := (totalTokens + completion_tokens improvedCompletion)%nat in
  let step (n : nat) (ty text : string) (c : Q) :=
    {| step_number := n; step_type := ty; thought := text;
       action := None; observation := None; confidence := c |} in
  ret {| response := improvedResponse;
         reasoning := [ step 1%nat "initial-response" initialResponse 0.6%Q;
                        step 2%nat "self-reflection" reflection 0.7%Q;
                        step 3%nat "improved-response" improvedResponse 0.9%Q ];
         result_confidence := 0.9;
         processing_time := 0;
         tokens_used := totalTokens |}.

(** *** Statistics *)

Definition updateStats (stats : Stats) (processingTime : Q) (tokensUsed : nat)
    (success : bool) : Stats :=
  let total := inject_Z (total_processes stats) in
  {| total_processes := total_processes stats;
     success_rate :=
       (success_rate stats * (total - 1) + (if success then 1 else 0)) / total;
     avg_processing_time :=
       (avg_processing_time stats * (total - 1) + processingTime) / total;
     avg_tokens_used :=
       (avg_tokens_used stats * (total - 1) + inject_Z (Z.of_nat tokensUsed)) / total |}%Q.

(** [this.stats.total_processes++] *)
Definition count_process (stats : Stats) : Stats :=
  {| total_processes := total_processes stats + 1;
     success_rate := success_rate stats;
     avg_processing_time := avg_processing_time stats;
     avg_tokens_used := avg_tokens_used stats |}.

(** [process]: [elapsed] is the [Date.now() - startTime] that the run
    measures when it ends. *)
Definition process (stats : Stats) (request : ReasoningRequest) (elapsed : Q)
    (log : list Call) : Outcome ReasoningResult * Stats * list Call :=
  let stats := count_process stats in
  let run :=
    match type_ request with
    | chain_of_thought => chainOfThought request
    | react => reactMethodology request
    | tree_of_thoughts => treeOfThoughts request
    | self_reflection => selfReflection request
    | other_type name => throw (ErrorObject ("Unknown reasoning type: " ++ name))
    end in
  match run log with
  | (Returned result, log') =>
      let result :=
        {| response := response result; reasoning := reasoning result;
           result_confidence := result_confidence result;
           processing_time := elapsed; tokens_used := tokens_used result |} in
      (Returned result, updateStats stats elapsed (tokens_used result) true, log')
  | (Threw e, log') => (Threw e, updateStats stats elapsed 0 false, log')
  end.
End Strategies.

(** The statistics after one request that no other request overlaps: [process]
    counts it on entry and records [(elapsed, tokens, success)] when it ends. *)
Definition record (stats : Stats) (sample : Q * nat * bool) : Stats :=
  let '(elapsed, tokens, ok) := sample in
  updateStats (count_process stats) elapsed tokens ok.

Definition record_all (samples : list (Q * nat * bool)) (stats : Stats) : Stats :=
  fold_left record samples stats.

End Reasoning.

(** ** MultiAgentOrchestrator (memory-system.ts) *)

Module Orchestrator.
Import Gen.

Record Agent : Type := mkAgent {
  id : string;
  name : string;
  role : string;
  capabilities : list string;
  agent_model : string;
  agent_temperature : Q;
  agent_max_tokens : nat;
  system_prompt : string;
  tools : option (list string)
}.

Inductive CollaborationType : Type :=
| sequential | parallel | hierarchical
| other_type (name : string).

Module CollaborationRequest.
Record t : Type := mk {
  task : string;
  agents : list string;
  type_ : CollaborationType
}.
End CollaborationRequest.

Module CollaborationStep.
Record t : Type := mk {
  step_number : nat;
  agent : Agent;
  input : string;
  output : string;
  success : bool
}.
End CollaborationStep.

Module CollaborationResult.
Record t : Type := mk {
  task : string;
  type_ : string;
  agents_used : list Agent;
  steps : list CollaborationStep.t;
  final_result : string;
  execution_time : Q;
  success : bool
}.
End CollaborationResult.

Record Stats : Type := mkStats {
  total_collaborations : Z;
  avg_agents_per_task : Q;
  success_rate : Q;
  avg_execution_time : Q
}.

(** The orchestrator object: the agent registry and the running statistics. *)
Record Orchestrator : Type := mkOrchestrator {
  agents : gmap string Agent;
  stats : Stats
}.

(** The statistics the constructor sets. *)
Definition initial_stats : Stats :=
  {| total_collaborations := 0; avg_agents_per_task := 2.5;
     success_rate := 0.95; avg_execution_time := 5000 |}.

Definition predefinedAgents : list Agent :=
  [ {| id := "analyst"; name := "Data Analyst"; role := "Analysis and Research";
       capabilities := ["data_analysis"; "research"; "pattern_recognition"; "statistical_analysis"];
       agent_model := "gpt-4"; agent_temperature := 0.3; agent_max_tokens := 1000;
       system_prompt := "You are an expert data analyst. Analyze information objectively, identify patterns, and provide evidence-based insights. Focus on accuracy and statistical significance.";
       tools := Some ["calculator"; "data_visualization"; "statistical_tests"] |};
    {| id := "creative"; name := "Creative Designer"; role := "Creative and Design";
       capabilities := ["creative_writing"; "design_thinking"; "brainstorming"; "visual_concepts"];
       agent_model := "gpt-4"; agent_temperature := 0.8; agent_max_tokens := 1200;
       system_prompt := "You are a creative professional specializing in innovative thinking and design. Generate original ideas, think outside the box, and create engaging content.";
       tools := Some ["image_generation"; "color_palette"; "typography"] |};
    {| id := "technical"; name := "Technical Architect"; role := "Technical Implementation";
       capabilities := ["software_architecture"; "code_review"; "system_design"; "performance_optimization"];
       agent_model := "gpt-4"; agent_temperature := 0.2; agent_max_tokens := 1500;
       system_prompt := "You are a senior technical architect. Focus on scalable solutions, best practices, security, and performance. Provide detailed technical specifications.";
       tools := Some ["code_analysis"; "architecture_diagrams"; "performance_testing"] |};
    {| id := "strategist"; name := "Business Strategist"; role := "Strategic Planning";
       capabilities := ["strategic_planning"; "business_analysis"; "market_research"; "risk_assessment"];
       agent_model := "gpt-4"; agent_temperature := 0.4; agent_max_tokens := 1000;
       system_prompt := "You are a business strategist with extensive experience in planning and execution. Focus on ROI, market opportunities, and strategic alignment.";
       tools := Some ["market_analysis"; "financial_modeling"; "swot_analysis"] |};
    {| id := "reviewer"; name := "Quality Reviewer"; role := "Quality Assurance";
       capabilities := ["quality_review"; "error_detection"; "compliance_check"; "process_improvement"];
       agent_model := "gpt-4"; agent_temperature := 0.1; agent_max_tokens := 800;
       system_prompt := "You are a quality assurance specialist. Review work for accuracy, completeness, and compliance. Identify potential issues and suggest improvements.";
       tools := Some ["checklist_validation"; "compliance_scanner"; "quality_metrics"] |};
    {| id := "communicator"; name := "Communications Expert"; role := "Communication and Presentation";
       capabilities := ["clear_communication"; "presentation_skills"; "audience_adaptation"; "storytelling"];
       agent_model := "gpt-4"; agent_temperature := 0.6; agent_max_tokens := 1000;
       system_prompt := "You are a communications expert. Transform complex information into clear, engaging content tailored to the target audience.";
       tools := Some ["presentation_builder"; "audience_analyzer"; "content_optimizer"] |} ].

Definition registerAgent (self : Orchestrator) (agent : Agent) : Orchestrator :=
  {| agents := <[id agent := agent]> (agents self); stats := stats self |}.

(** [new MultiAgentOrchestrator()] followed by [initialize()]. *)
Definition initialized : Orchestrator :=
  fold_left registerAgent predefinedAgents {| agents := ∅; stats := initial_stats |}.

(** *** Prompts *)

Definition buildAgentPrompt (agent : Agent) (input : string) (stepIndex totalSteps : nat)
    (type : string) : string :=
  let prompt := "Task: " ++ input ++ JS.nl ++ JS.nl in
  if String.eqb type "sequential" then
    let prompt := prompt ++ "You are agent " ++ JS.of_nat (stepIndex + 1) ++ " of "
                    ++ JS.of_nat totalSteps ++ " in a sequential workflow." ++ JS.nl in
    let prompt := prompt ++ "Your role: " ++ role agent ++ JS.nl in
    let prompt := prompt ++ "Your capabilities: " ++ JS.join ", " (capabilities agent)
                    ++ JS.nl ++ JS.nl in
    let prompt :=
      if (0 <? stepIndex)%nat
      then prompt ++ "This input is the output from the previous agent. Build upon their work." ++ JS.nl
      else prompt in
    if (stepIndex <? totalSteps - 1)%nat
    then prompt ++ "Your output will be passed to the next agent, so be clear and comprehensive." ++ JS.nl
    else prompt ++ "You are the final agent. Provide a complete, polished result." ++ JS.nl
  else if String.eqb type "parallel" then
    prompt ++ "You are working in parallel with " ++ JS.of_nat (totalSteps - 1)
      ++ " other agents on this task." ++ JS.nl
      ++ "Focus on your expertise area: " ++ role agent ++ JS.nl
      ++ "Your unique capabilities: " ++ JS.join ", " (capabilities agent) ++ JS.nl
      ++ "Provide your perspective and recommendations based on your specialization." ++ JS.nl
  else prompt.

Definition buildLeaderPrompt (leader : Agent) (task : string) (workers : list Agent) : string :=
  "As the lead coordinator, break down this complex task into smaller, manageable subtasks."
    ++ JS.nl ++ JS.nl
    ++ "Main Task: " ++ task ++ JS.nl ++ JS.nl
    ++ "Available team members and their capabilities:" ++ JS.nl
    ++ JS.join JS.nl
         (map (fun agent => "- " ++ name agent ++ " (" ++ role agent ++ "): "
                              ++ JS.join ", " (capabilities agent)) workers)
    ++ JS.nl ++ JS.nl
    ++ "Please:" ++ JS.nl
    ++ "1. Analyze the main task" ++ JS.nl
    ++ "2. Break it into 2-" ++ JS.of_nat (length workers) ++ " specific subtasks" ++ JS.nl
    ++ "3. Suggest which team member should handle each subtask" ++ JS.nl
    ++ "4. Provide clear, actionable instructions for each subtask" ++ JS.nl ++ JS.nl
    ++ "Format your response as:" ++ JS.nl
    ++ "SUBTASK 1: [Description]" ++ JS.nl
    ++ "ASSIGNED TO: [Agent name]" ++ JS.nl
    ++ "INSTRUCTIONS: [Specific instructions]" ++ JS.nl ++ JS.nl
    ++ "SUBTASK 2: [Description]" ++ JS.nl
    ++ "...".

Definition buildWorkerPrompt (worker : Agent) (subtask originalTask : string) : string :=
  "You have been assigned a specific subtask as part of a larger project."
    ++ JS.nl ++ JS.nl
    ++ "Original Task: " ++ originalTask ++ JS.nl ++ JS.nl
    ++ "Your Subtask: " ++ subtask ++ JS.nl ++ JS.nl
    ++ "Your Role: " ++ role worker ++ JS.nl
    ++ "Your Capabilities: " ++ JS.join ", " (capabilities worker) ++ JS.nl ++ JS.nl
    ++ "Please complete this subtask thoroughly, keeping in mind how it contributes to the overall project goal. Provide detailed results that can be integrated with other team members' work.".

(** The call [executeAgentTask] issues for [agent] and [prompt]. *)
Definition agentCall (agent : Agent) (prompt : string) : Call :=
  {| model := agent_model agent;
     system := system_prompt agent;
     user := prompt;
     max_tokens := agent_max_tokens agent;
     temperature := agent_temperature agent |}.

Definition parallelSynthesisPrompt (task : string)
    (successfulResults : list CollaborationStep.t) : string :=
  "Synthesize the following parallel agent results into a comprehensive response."
    ++ JS.nl ++ JS.nl
    ++ "Original Task: " ++ task ++ JS.nl ++ JS.nl
    ++ "Agent Results:" ++ JS.nl
    ++ JS.join (JS.nl ++ JS.nl ++ "---" ++ JS.nl ++ JS.nl)
         (map (fun r => name (CollaborationStep.agent r) ++ " ("
                          ++ role (CollaborationStep.agent r) ++ "):" ++ JS.nl
                          ++ CollaborationStep.output r) successfulResults)
    ++ JS.nl ++ JS.nl
    ++ "Please create a unified, coherent response that incorporates insights from all agents while avoiding redundancy.".

Definition parallelSynthesisCall (task : string)
    (successfulResults : list CollaborationStep.t) : Call :=
  {| model := "gpt-4";
     system := "You are an expert at synthesizing multiple perspectives into coherent, comprehensive responses.";
     user := parallelSynthesisPrompt task successfulResults;
     max_tokens := 1500;
     temperature := 0.4 |}.

Definition hierarchicalSynthesisCall (originalTask breakdown : string)
    (workerResults : list CollaborationStep.t) : Call :=
  {| model := "gpt-4";
     system := "You are a project leader synthesizing team results into a final deliverable.";
     user :=
       "As the project leader, provide a final comprehensive result." ++ JS.nl ++ JS.nl
         ++ "Original Task: " ++ originalTask ++ JS.nl ++ JS.nl
         ++ "Task Breakdown: " ++ breakdown ++ JS.nl ++ JS.nl
         ++ "Team Results:" ++ JS.nl
         ++ JS.join (JS.nl ++ JS.nl)
              (map (fun r => name (CollaborationStep.agent r) ++ ": "
                               ++ CollaborationStep.output r) workerResults)
         ++ JS.nl ++ JS.nl
         ++ "Please provide a final, integrated solution that addresses the original task completely.";
     max_tokens := 2000;
     temperature := 0.3 |}.

(** *** Parsing the leader's breakdown *)

Fixpoint subtask_lines (lines : list string) : list string :=
  match lines with
  | [] => []
  | line :: rest =>
      if JS.includes "SUBTASK" (JS.toUpperCase line) then
        match JS.indexOf ":" line with
        | Some colonIndex =>
            JS.trim (JS.substring_from (colonIndex + 1) line) :: subtask_lines rest
        | None => subtask_lines rest
        end
      else subtask_lines rest
  end.

Definition long_paragraph (p : string) : bool :=
  (50 <? String.length (JS.trim p))%nat.

Definition parseSubtasks (breakdown : string) : list string :=
  let lines := JS.split JS.nl breakdown in
  let subtasks := subtask_lines lines in
  if (length subtasks =? 0)%nat then
    let paragraphs := List.filter long_paragraph (JS.split (JS.nl ++ JS.nl) breakdown) in
    take 3 paragraphs
  else subtasks.

(** *** Registry lookup *)

Fixpoint validate_loop (registry : gmap string Agent) (agentIds : list string)
    (found : list Agent) : Outcome (list Agent) :=
  match agentIds with
  | [] => Returned found
  | id :: rest =>
      match registry !! id with
      | None => Threw (ErrorObject ("Agent not found: " ++ id))
      | Some agent => validate_loop registry rest (found ++ [agent])%list
      end
  end.

Definition validateAndGetAgents (registry : gmap string Agent) (agentIds : list string)
    : Outcome (list Agent) :=
  match validate_loop registry agentIds [] with
  | Threw e => Threw e
  | Returned found =>
      if (length found =? 0)%nat
      then Threw (ErrorObject "No valid agents provided")
      else Returned found
  end.

(** *** Statistics *)

Definition updateStats (stats : Stats) (executionTime : Q) (agentCount : nat)
    (success : bool) : Stats :=
  let total := inject_Z (total_collaborations stats) in
  {| total_collaborations := total_collaborations stats;
     success_rate :=
       (success_rate stats * (total - 1) + (if success then 1 else 0)) / total;
     avg_execution_time :=
       (avg_execution_time stats * (total - 1) + executionTime) / total;
     avg_agents_per_task :=
       (avg_agents_per_task stats * (total - 1) + inject_Z (Z.of_nat agentCount)) / total |}%Q.

(** [this.stats.total_collaborations++] *)
Definition count_collaboration (stats : Stats) : Stats :=
  {| total_collaborations := total_collaborations stats + 1;
     success_rate := success_rate stats;
     avg_execution_time := avg_execution_time stats;
     avg_agents_per_task := avg_agents_per_task stats |}.

(** *** The three topologies *)

Section Topologies.
Variable gen : Generator.

Definition executeAgentTask (agent : Agent) (prompt : string) : M string :=
  let* completion := create gen (agentCall agent prompt) in
  ret (JS.or_else (content completion) EmptyString).

(** The text a failed step records. *)
Definition error_output (e : Thrown) : string := "Error: " ++ message_of e.

(** The [for] loop of [sequentialCollaboration], from index [i] on; [rest]
    holds [agents[i..]].  The loop hands back [steps] and [success]. *)
Fixpoint sequential_loop (totalSteps i : nat) (rest : list Agent)
    (currentInput : string) (steps : list CollaborationStep.t)
    : M (list CollaborationStep.t * bool) :=
  match rest with
  | [] => ret (steps, true)
  | agent :: rest' =>
      let prompt := buildAgentPrompt agent currentInput i totalSteps "sequential" in
      let* attempted := attempt (executeAgentTask agent prompt) in
      match attempted with
      | Returned response =>
          let step :=
            {| CollaborationStep.step_number := i + 1;
               CollaborationStep.agent := agent;
               CollaborationStep.input := currentInput;
               CollaborationStep.output := response;
               CollaborationStep.success := true |} in
          sequential_loop totalSteps (S i) rest' response (steps ++ [step])%list
      | Threw error =>
          let step :=
            {| CollaborationStep.step_number := i + 1;
               CollaborationStep.agent := agent;
               CollaborationStep.input := currentInput;
               CollaborationStep.output := error_output error;
               CollaborationStep.success := false |} in
          ret ((steps ++ [step])%list, false)
      end
  end.

Definition sequentialCollaboration (request : CollaborationRequest.t)
    (agents : list Agent) : M CollaborationResult.t :=
  let* '(steps, success) :=
    sequential_loop (length agents) 0 agents (CollaborationRequest.task request) [] in
  ret {| CollaborationResult.task := CollaborationRequest.task request;
         CollaborationResult.type_ := "sequential";
         CollaborationResult.agents_used := agents;
         CollaborationResult.steps := steps;
         CollaborationResult.final_result :=
           JS.or_else (CollaborationStep.output <$> JS.last_elem steps) "No result";
         CollaborationResult.execution_time := 0;
         CollaborationResult.success := success |}.

(** One callback of [agents.map(async (agent, index) => ...)]. *)
Definition parallel_branch (task : string) (totalSteps index : nat) (agent : Agent)
    : M CollaborationStep.t :=
  let prompt := buildAgentPrompt agent task index totalSteps "parallel" in
  let* attempted := attempt (executeAgentTask agent prompt) in
  match attempted with
  | Returned response =>
      ret {| CollaborationStep.step_number := index + 1;
             CollaborationStep.agent := agent;
             CollaborationStep.input := task;
             CollaborationStep.output := response;
             CollaborationStep.success := true |}
  | Threw error =>
      ret {| CollaborationStep.step_number := index + 1;
             CollaborationStep.agent := agent;
             CollaborationStep.input := task;
             CollaborationStep.output := error_output error;
             CollaborationStep.success := false |}
  end.

Definition synthesizeParallelResults (task : string) (results : list CollaborationStep.t)
    : M string :=
  let successfulResults := List.filter CollaborationStep.success results in
  if (length successfulResults =? 0)%nat then
    ret "All parallel tasks failed. Unable to synthesize results."
  else
    let* completion := create gen (parallelSynthesisCall task successfulResults) in
    ret (JS.or_else (content completion) "Failed to synthesize results").

Definition parallelCollaboration (request : CollaborationRequest.t)
    (agents : list Agent) : M CollaborationResult.t :=
  let task := CollaborationRequest.task request in
  let* results := map_indexed (parallel_branch task (length agents)) 0 agents in
  let steps := results in
  let success := forallb CollaborationStep.success results in
  let* synthesizedResult := synthesizeParallelResults task results in
  ret {| CollaborationResult.task := task;
         CollaborationResult.type_ := "parallel";
         CollaborationResult.agents_used := agents;
         CollaborationResult.steps := steps;
         CollaborationResult.final_result := synthesizedResult;
         CollaborationResult.execution_time := 0;
         CollaborationResult.success := success |}.

(** One callback of [subtasks.slice(0, workers.length).map(...)]: the
    subtask at [index] goes to [workers[index]]. *)
Definition worker_branch (task : string) (index : nat) (assignment : string * Agent)
    : M CollaborationStep.t :=
  let '(subtask, worker) := assignment in
  let workerPrompt := buildWorkerPrompt worker subtask task in
  let* attempted := attempt (executeAgentTask worker workerPrompt) in
  match attempted with
  | Returned result =>
      ret {| CollaborationStep.step_number := index + 2;
             CollaborationStep.agent := worker;
             CollaborationStep.input := subtask;
             CollaborationStep.output := result;
             CollaborationStep.success := true |}
  | Threw error =>
      ret {| CollaborationStep.step_number := index + 2;
             CollaborationStep.agent := worker;
             CollaborationStep.input := subtask;
             CollaborationStep.output := error_output error;
             CollaborationStep.success := false |}
  end.

Definition synthesizeHierarchicalResults (originalTask breakdown : string)
    (workerResults : list CollaborationStep.t) : M string :=
  let* completion :=
    create gen (hierarchicalSynthesisCall originalTask breakdown workerResults) in
  ret (JS.or_else (content completion) "Failed to synthesize final result").

Definition hierarchicalCollaboration (request : CollaborationRequest.t)
    (agents : list Agent) : M CollaborationResult.t :=
  let task := CollaborationRequest.task request in
  match agents with
  | [] =>
      (* [agents[0]] is undefined and [executeAgentTask] reads [agent.model] *)
      throw (type_error "Cannot read properties of undefined (reading 'model')")
  | leader :: workers =>
      let leaderPrompt := buildLeaderPrompt leader task workers in
      let* taskBreakdown := executeAgentTask leader leaderPrompt in
      let steps :=
        [{| CollaborationStep.step_number := 1;
            CollaborationStep.agent := leader;
            CollaborationStep.input := task;
            CollaborationStep.output := taskBreakdown;
            CollaborationStep.success := true |}] in
      let subtasks := parseSubtasks taskBreakdown in
      (* pairing a subtask with [workers[index]] for [index < workers.length] *)
      let assignments := zip (take (length workers) subtasks) workers in
      let* workerResults := map_indexed (worker_branch task) 0 assignments in
      let steps := (steps ++ workerResults)%list in
      let* finalSynthesis :=
        synthesizeHierarchicalResults task taskBreakdown workerResults in
      let steps :=
        (steps ++ [{| CollaborationStep.step_number := length steps + 1;
                      CollaborationStep.agent := leader;
                      CollaborationStep.input := "Synthesis of worker results";
                      CollaborationStep.output := finalSynthesis;
                      CollaborationStep.success := true |}])%list in
      let success := forallb CollaborationStep.success workerResults in
      ret {| CollaborationResult.task := task;
             CollaborationResult.type_ := "hierarchical";
             CollaborationResult.agents_used := agents;
             CollaborationResult.steps := steps;
             CollaborationResult.final_result := finalSynthesis;
             CollaborationResult.execution_time := 0;
             CollaborationResult.success := success |}
  end.

Definition with_stats (self : Orchestrator) (s : Stats) : Orchestrator :=
  {| agents := agents self; stats := s |}.

(** [collaborate]: [elapsed] is the [Date.now() - startTime] that the run
    measures when it ends. *)
Definition collaborate (self : Orchestrator) (request : CollaborationRequest.t)
    (elapsed : Q) (log : list Call)
    : Outcome CollaborationResult.t * Orchestrator * list Call :=
  let self := with_stats self (count_collaboration (stats self)) in
  let run : M (list Agent * CollaborationResult.t) :=
    let* selectedAgents :=
      lift (validateAndGetAgents (agents self) (CollaborationRequest.agents request)) in
    let* result :=
      match CollaborationRequest.type_ request with
      | sequential => sequentialCollaboration request selectedAgents
      | parallel => parallelCollaboration request selectedAgents
      | hierarchical => hierarchicalCollaboration request selectedAgents
      | other_type name => throw (ErrorObject ("Unknown collaboration type: " ++ name))
      end in
    ret (selectedAgents, result) in
  match run log with
  | (Returned (selectedAgents, result), log') =>
      let result :=
        {| CollaborationResult.task := CollaborationResult.task result;
           CollaborationResult.type_ := CollaborationResult.type_ result;
           CollaborationResult.agents_used := CollaborationResult.agents_used result;
           CollaborationResult.steps := CollaborationResult.steps result;
           CollaborationResult.final_result := CollaborationResult.final_result result;
           CollaborationResult.execution_time := elapsed;
           CollaborationResult.success := CollaborationResult.success result |} in
      (Returned result,
       with_stats self
         (updateStats (stats self) elapsed (length selectedAgents)
            (CollaborationResult.success result)),
       log')
  | (Threw error, log') =>
      (Threw error,
       with_stats self
         (updateStats (stats self) elapsed
            (length (CollaborationRequest.agents request)) false),
       log')
  end.
End Topologies.

(** The statistics after one request that no other request overlaps:
    [collaborate] counts it on entry and records
    [(elapsed, agent count, success)] when it ends. *)
Definition record (stats : Stats) (sample : Q * nat * bool) : Stats :=
  let '(elapsed, agentCount, ok) := sample in
  updateStats (count_collaboration stats) elapsed agentCount ok.

Definition record_all (samples : list (Q * nat * bool)) (stats : Stats) : Stats :=
  fold_left record samples stats.

End Orchestrator.

(** The number of successful outcomes among the samples. *)
Definition successes (samples : list (Q * nat * bool)) : nat :=
  length (List.filter (fun sample => sample.2) samples).

(** The incremental mean both [updateStats] compute for each field. *)
Definition mean_step (mean total x : Q) : Q := ((mean * (total - 1) + x) / total)%Q.

(** ** Concrete runs *)

Module Scenario.
Import Gen.

Definition text (s : string) : Reply :=
  Resolves {| content := Some s; total_tokens := Some 10%nat |}.

Definition analyst : Orchestrator.Agent :=
  default
    (Orchestrator.mkAgent EmptyString EmptyString EmptyString [] EmptyString 0 0
       EmptyString None)
    (Orchestrator.agents Orchestrator.initialized !! "analyst").
Definition creative : Orchestrator.Agent :=
  default analyst (Orchestrator.agents Orchestrator.initialized !! "creative").
Definition technical : Orchestrator.Agent :=
  default analyst (Orchestrator.agents Orchestrator.initialized !! "technical").

Definition launch (type : Orchestrator.CollaborationType) : Orchestrator.CollaborationRequest.t :=
  Orchestrator.CollaborationRequest.mk "Plan a launch"
    ["analyst"; "creative"; "technical"] type.

(** The first call resolves, the second is rejected, later calls resolve. *)
Definition second_call_fails : Generator :=
  fun log _ =>
    match length log with
    | 0%nat => text "draft from the analyst"
    | 1%nat => Rejects (ErrorObject "rate limit exceeded")
    | _ => text "later"
    end.

Definition every_call_fails : Generator :=
  fun _ _ => Rejects (ErrorObject "service unavailable").

Definition fifty_a : string := "aaaaaaaaaabbbbbbbbbbccccccccccddddddddddeeeeeeeeee".
Definition fifty_b : string := "ffffffffffgggggggggghhhhhhhhhhiiiiiiiiiijjjjjjjjjj".

(** Two paragraphs of fifty characters each, both followed by [extra]. *)
Definition two_paragraphs (extra : string) : string :=
  fifty_a ++ extra ++ JS.nl ++ JS.nl ++ fifty_b ++ extra.

(** The first call, the leader's, resolves with [breakdown]; every later call
    resolves too. *)
Definition leader_writes (breakdown : string) : Generator :=
  fun log _ =>
    match length log with
    | 0%nat => text breakdown
    | _ => text "done"
    end.

(** A generator for the thought/action loop: it asks to SEARCH until
    [calls] calls were issued, then it chooses to ANSWER. *)
Definition answers_after (calls : nat) : Generator :=
  fun log _ =>
    if (length log <? calls)%nat then text "I should SEARCH for more"
    else text "I can answer now".

Definition question : Reasoning.ReasoningRequest :=
  Reasoning.mkRequest "What is 6 times 7?" Reasoning.react None None None.

Definition numbered_reply (n : nat) : string :=
  JS.join JS.nl (map (fun i => JS.of_nat (i + 1) ++ ". think") (seq 0 n)).

End Scenario.

(** ** Vocabulary of the statements *)

(** [success ? 1 : 0] *)
Definition indicator (ok : bool) : Q := if ok then 1%Q else 0%Q.
Definition outcome_of (sample : Q * nat * bool) : Q := indicator sample.2.
Definition Qsum (xs : list Q) : Q := fold_right Qplus 0%Q xs.

(** Every step carries the confidence 0.8 that the parser assigns. *)
Definition fixed_confidence (reasoning : list Reasoning.ReasoningStep) : Prop :=
  Forall (fun step => Reasoning.confidence step == 0.8)%Q reasoning.

(** The closed form of the confidence for [n] steps of confidence 0.8. *)
Definition confidence_of_count (n : nat) : Q :=
  Qmin (0.8 + Qmin (0.05 * inject_Z (Z.of_nat n)) 0.2) 1.0.

(** Each step reads what the step before it wrote, starting from [input]. *)
Fixpoint chained (input : string) (steps : list Orchestrator.CollaborationStep.t) : Prop :=
  match steps with
  | [] => True
  | step :: rest =>
      Orchestrator.CollaborationStep.input step = input
      /\ chained (Orchestrator.CollaborationStep.output step) rest
  end.

(** The calls the parallel branches issue, in index order from [i] on. *)
Fixpoint parallel_calls (task : string) (totalSteps i : nat)
    (agents : list Orchestrator.Agent) : list Gen.Call :=
  match agents with
  | [] => []
  | agent :: rest =>
      Orchestrator.agentCall agent
        (Orchestrator.buildAgentPrompt agent task i totalSteps "parallel")
        :: parallel_calls task totalSteps (S i) rest
  end.

(** What a branch records for the reply to its call. *)
Definition records (reply : Gen.Reply) (step : Orchestrator.CollaborationStep.t) : Prop :=
  match reply with
  | Gen.Resolves completion =>
      Orchestrator.CollaborationStep.success step = true
      /\ Orchestrator.CollaborationStep.output step
         = JS.or_else (Gen.content completion) EmptyString
  | Gen.Rejects error =>
      Orchestrator.CollaborationStep.success step = false
      /\ Orchestrator.CollaborationStep.output step = "Error: " ++ Gen.message_of error
  end.

(** The action of the step names ANSWER, whatever the case of its letters. *)
Definition chose_answer (step : Reasoning.ReasoningStep) : bool :=
  match Reasoning.action step with
  | Some action => JS.includes "ANSWER" (JS.toUpperCase action)
  | None => false
  end.

(** What the loop appends: numbered steps, each with an action and the
    observation the simulated executor gives for it. *)
Definition well_formed (iteration : nat) (new : list Reasoning.ReasoningStep) : Prop :=
  forall k step, new !! k = Some step ->
    Reasoning.step_number step = (iteration + k + 1)%nat
    /\ (exists observed, Reasoning.observation step = Some observed /\ JS.is_empty observed = false)
    /\ (S k < length new -> chose_answer step = false)%nat.

(** No line of the text carries the SUBTASK marker. *)
Definition unmarked (breakdown : string) : Prop :=
  Forall (fun line => JS.includes "SUBTASK" (JS.toUpperCase line) = false)
    (JS.split JS.nl breakdown).

(** The paragraphs the fallback keeps. *)
Definition long_paragraphs (breakdown : string) : list string :=
  List.filter Orchestrator.long_paragraph (JS.split (JS.nl ++ JS.nl) breakdown).

(** ** The arithmetic as the code runs it

    A JavaScript number is an IEEE-754 binary64 value.  [Double] holds the
    expressions of [calculateConfidence] and of the [success_rate] line of
    both [updateStats], evaluated in binary64.  A step is given by its
    confidence and a request by its outcome; a length or a counter is exact
    as a number below 2^53. *)

Module Double.

Definition of_count (n : nat) : float :=
  PrimFloat.of_uint63 (Uint63.of_Z (Z.of_nat n)).

(** [Math.min(x, y)]: [NaN] if either is, and -0 before +0. *)
Definition Math_min (x y : float) : float :=
  if PrimFloat.is_nan x || PrimFloat.is_nan y then PrimFloat.nan
  else if PrimFloat.ltb x y then x
  else if PrimFloat.ltb y x then y
  else if PrimFloat.get_sign x then x else y.

Definition calculateConfidence (confidences : list float) : float :=
  if (length confidences =? 0)%nat then 0.5%float
  else
    let avgConfidence :=
      PrimFloat.div (fold_left PrimFloat.add confidences 0%float)
        (of_count (length confidences)) in
    let complexityBonus :=
      Math_min (PrimFloat.mul (of_count (length confidences)) 0.05%float) 0.2%float in
    Math_min (PrimFloat.add avgConfidence complexityBonus) 1.0%float.

(** The new [success_rate] that [updateStats] stores when the counter reads
    [total]. *)
Definition updateStats (total : nat) (success_rate : float) (success : bool) : float :=
  PrimFloat.div
    (PrimFloat.add
       (PrimFloat.mul success_rate (PrimFloat.sub (of_count total) 1%float))
       (if success then 1%float else 0%float))
    (of_count total).

(** One request that no other request overlaps: counted, then recorded. *)
Definition record (state : nat * float) (success : bool) : nat * float :=
  let total := S state.1 in
  (total, updateStats total state.2 success).

(** The rate after the outcomes were recorded in turn, from a zero counter
    and the rate [initial]. *)
Definition success_rate (initial : float) (outcomes : list bool) : float :=
  (fold_left record outcomes (0%nat, initial)).2.

(** The rational that a finite binary64 value stands for. *)
Definition to_Q (x : float) : option Q :=
  match FloatOps.Prim2SF x with
  | SpecFloat.S754_zero _ => Some 0%Q
  | SpecFloat.S754_finite negative mantissa exponent =>
      Some ((if negative then -1 else 1) * inject_Z (Zpos mantissa) * Qpower 2 exponent)%Q
  | _ => None
  end.

End Double.

(** ** MemorySystem (memory-system.ts), fallback storage

    [initialize] falls back to the in-process [memoryStore] when Redis cannot
    be reached and leaves [isConnected] false.  The functions below are the
    branches the class takes in that mode; the Redis branches talk to an
    external server and are not modelled.  A [Date] is its millisecond count.
    A [limit] is a JavaScript number: a rational, [NaN] or an infinity.
    [memoryStore] is a JavaScript [Map]: it keeps its keys in insertion order
    and [set] on a present key keeps the key's place. *)

Module Memory.

Inductive ContextType : Type :=
| user_message | assistant_response | agent_collaboration
| fine_tuning_job | system_event.

Definition type_name (t : ContextType) : string :=
  match t with
  | user_message => "user_message"
  | assistant_response => "assistant_response"
  | agent_collaboration => "agent_collaboration"
  | fine_tuning_job => "fine_tuning_job"
  | system_event => "system_event"
  end.

(** [content: any]: a string, or an object given by its properties. *)
Inductive Content : Type :=
| Text (s : string)
| Structured (properties : list (string * option string)).

Record MemoryContext : Type := mkContext {
  id : option string;
  type_ : ContextType;
  content : Content;
  context : option string;
  timestamp : option Z;
  metadata : option string;
  embedding : option (list Q);
  importance : option Q;
  tags : option (list string)
}.

(** The JavaScript numbers a caller may pass for a [limit]. *)
Inductive Number : Type :=
| Finite (q : Q)
| NaN
| Infinity (negative : bool).

Record MemoryQuery : Type := mkQuery {
  query_type : option string;
  content_search : option string;
  query_tags : option (list string);
  time_range : option (Z * Z);
  limit : option Number;
  include_metadata : option bool
}.

Record Stats : Type := mkStats {
  total_contexts : nat;
  active_conversations : Z;
  cache_hit_rate : Q;
  memory_usage_mb : Q
}.

Record MemorySystem : Type := mkMemorySystem {
  memoryStore : list (string * MemoryContext);
  stats : Stats
}.

(** [new MemorySystem()] *)
Definition created : MemorySystem :=
  {| memoryStore := [];
     stats := {| total_contexts := 0; active_conversations := 0;
                 cache_hit_rate := 0.95; memory_usage_mb := 0 |} |}.

(** What a call reads from its surroundings: the clock when an id is
    generated, the digits [Math.random().toString(36).substr(2, 9)] yields,
    and the clock when the timestamp is taken. *)
Record Ambient : Type := mkAmbient {
  id_clock : Z;
  random_digits : string;
  stamp_clock : Z
}.

(** *** The [Map] operations *)

Fixpoint store_get (key : string) (store : list (string * MemoryContext))
    : option MemoryContext :=
  match store with
  | [] => None
  | (k, v) :: rest => if String.eqb key k then Some v else store_get key rest
  end.

Fixpoint store_set (key : string) (value : MemoryContext)
    (store : list (string * MemoryContext)) : list (string * MemoryContext) :=
  match store with
  | [] => [(key, value)]
  | (k, v) :: rest =>
      if String.eqb key k then (k, value) :: rest
      else (k, v) :: store_set key value rest
  end.

Fixpoint store_delete (key : string) (store : list (string * MemoryContext))
    : list (string * MemoryContext) :=
  match store with
  | [] => []
  | (k, v) :: rest =>
      if String.eqb key k then rest else (k, v) :: store_delete key rest
  end.

Definition store_keys (store : list (string * MemoryContext)) : list string :=
  map fst store.

(** *** Importance *)

(** [tags.includes(tag)] *)
Definition has_tag (tag : string) (tags : list string) : bool :=
  existsb (String.eqb tag) tags.

Definition calculateImportance (context : MemoryContext) : Q :=
  let importance :=
    match type_ context with
    | user_message => 0.7
    | assistant_response => 0.6
    | agent_collaboration => 0.8
    | system_event => 0.4
    | fine_tuning_job => 0.5
    end%Q in
  let importance :=
    match content context with
    | Text s =>
        let length := String.length s in
        let importance := if (500 <? length)%nat then (importance + 0.1)%Q else importance in
        if (length <? 50)%nat then (importance - 0.1)%Q else importance
    | Structured _ => importance
    end in
  let importance :=
    match tags context with
    | Some tags =>
        let importance := if has_tag "error" tags then (importance + 0.2)%Q else importance in
        let importance := if has_tag "success" tags then (importance + 0.1)%Q else importance in
        if has_tag "critical" tags then (importance + 0.3)%Q else importance
    | None => importance
    end in
  Qmin (Qmax importance 0) 1.

(** Rendering of [Date.now()], which may in principle be negative. *)
Definition of_Z (z : Z) : string :=
  match z with
  | Zneg p => "-" ++ JS.of_nat (Pos.to_nat p)
  | _ => JS.of_nat (Z.to_nat z)
  end.

Definition generateContextId (ambient : Ambient) : string :=
  "ctx_" ++ of_Z (id_clock ambient) ++ "_" ++ random_digits ambient.

Definition generateConversationId (ambient : Ambient) : string :=
  "conv_" ++ of_Z (id_clock ambient) ++ "_" ++ random_digits ambient.

(** *** Storing and reading *)

Definition with_store (self : MemorySystem) (store : list (string * MemoryContext))
    : MemorySystem :=
  {| memoryStore := store; stats := stats self |}.

(** [context.importance || this.calculateImportance(context)]: a missing
    importance and the importance 0 are both replaced. *)
Definition importance_or_calculated (context : MemoryContext) : Q :=
  match importance context with
  | Some given => if Qeq_bool given 0 then calculateImportance context else given
  | None => calculateImportance context
  end.

(** The context as [storeContext] leaves it before it goes into the map. *)
Definition completed (context : MemoryContext) (ambient : Ambient) : MemoryContext :=
  let contextId := JS.or_else (id context) (generateContextId ambient) in
  {| id := Some contextId;
     type_ := type_ context;
     content := content context;
     context := Memory.context context;
     timestamp :=
       Some (match timestamp context with Some t => t | None => stamp_clock ambient end);
     metadata := metadata context;
     embedding := embedding context;
     importance := Some (importance_or_calculated context);
     tags := tags context |}.

Definition storeContext (self : MemorySystem) (context : MemoryContext)
    (ambient : Ambient) : string * MemorySystem :=
  let contextId := JS.or_else (id context) (generateContextId ambient) in
  let context := completed context ambient in
  (contextId,
   {| memoryStore := store_set contextId context (memoryStore self);
      stats :=
        {| total_contexts := total_contexts (stats self) + 1;
           active_conversations := active_conversations (stats self);
           cache_hit_rate := cache_hit_rate (stats self);
           memory_usage_mb := memory_usage_mb (stats self) |} |}).

Definition retrieveContext (self : MemorySystem) (contextId : string)
    : option MemoryContext :=
  store_get contextId (memoryStore self).

(** [query.limit || 10]: a missing limit, 0 and [NaN] are falsy. *)
Definition limit_or_ten (query : MemoryQuery) : Number :=
  match limit query with
  | Some (Finite q) => if Qeq_bool q 0 then Finite 10 else Finite q
  | Some NaN => Finite 10
  | Some (Infinity negative) => Infinity negative
  | None => Finite 10
  end.

(** [ToIntegerOrInfinity] on a finite number: the fraction is dropped. *)
Definition truncate (q : Q) : Z := Z.quot (Qnum q) (Zpos (Qden q)).

(** [ids.slice(0, finish)]: a negative [finish] counts from the end of the
    array, and [NaN] is read as 0. *)
Definition slice_to {A} (finish : Number) (ids : list A) : list A :=
  match finish with
  | Finite q =>
      let relativeEnd := truncate q in
      if (relativeEnd <? 0)%Z
      then take (Z.to_nat (Z.max (Z.of_nat (length ids) + relativeEnd) 0)) ids
      else take (Z.to_nat relativeEnd) ids
  | NaN => []
  | Infinity negative => if negative then [] else ids
  end.

(** [ctx?.type === query.type] *)
Definition matches_type (self : MemorySystem) (wanted : string) (contextId : string) : bool :=
  match store_get contextId (memoryStore self) with
  | Some ctx => String.eqb (type_name (type_ ctx)) wanted
  | None => false
  end.

(** [ctx?.tags?.some(tag => query.tags.includes(tag))] *)
Definition matches_tags (self : MemorySystem) (wanted : list string) (contextId : string)
    : bool :=
  match store_get contextId (memoryStore self) with
  | Some ctx =>
      match tags ctx with
      | Some own => existsb (fun tag => has_tag tag wanted) own
      | None => false
      end
  | None => false
  end.

Definition queryMemory (self : MemorySystem) (query : MemoryQuery) : list MemoryContext :=
  let contextIds := store_keys (memoryStore self) in
  let contextIds :=
    match query_type query with
    | Some wanted =>
        if JS.is_empty wanted then contextIds
        else List.filter (matches_type self wanted) contextIds
    | None => contextIds
    end in
  let contextIds :=
    match query_tags query with
    | Some (tag :: others) => List.filter (matches_tags self (tag :: others)) contextIds
    | _ => contextIds
    end in
  let limitedIds := slice_to (limit_or_ten query) contextIds in
  omap (retrieveContext self) limitedIds.

Definition conversation_tag (conversationId : string) : string :=
  "conversation:" ++ conversationId.

(** [limit: number = 50]: the default applies when the argument is left out. *)
Definition getConversationHistory (self : MemorySystem) (conversationId : string)
    (limit : option Number) : list MemoryContext :=
  queryMemory self
    {| query_type := None; content_search := None;
       query_tags := Some [conversation_tag conversationId];
       time_range := None;
       limit := Some (match limit with Some n => n | None => Finite 50 end);
       include_metadata := None |}.

Definition with_active (self : MemorySystem) (active : Z) : MemorySystem :=
  {| memoryStore := memoryStore self;
     stats :=
       {| total_contexts := total_contexts (stats self);
          active_conversations := active;
          cache_hit_rate := cache_hit_rate (stats self);
          memory_usage_mb := memory_usage_mb (stats self) |} |}.

Definition conversation_event (event conversationId : string)
    (more : list (string * option string)) (tag : string) (weight : Q) : MemoryContext :=
  {| id := None;
     type_ := system_event;
     content :=
       Structured (("event", Some event) :: ("conversation_id", Some conversationId) :: more);
     context := None;
     timestamp := None;
     metadata := None;
     embedding := None;
     importance := Some weight;
     tags := Some [conversation_tag conversationId; tag] |}.

(** [forConversation] serves [generateConversationId], [forContext] the
    [storeContext] that follows. *)
Definition startConversation (self : MemorySystem) (userId : option string)
    (forConversation forContext : Ambient) : string * MemorySystem :=
  let conversationId := generateConversationId forConversation in
  let '(_, self) :=
    storeContext self
      (conversation_event "conversation_started" conversationId [("user_id", userId)]
         "conversation_start" 0.8)
      forContext in
  (conversationId,
   with_active self (active_conversations (stats self) + 1)).

Definition endConversation (self : MemorySystem) (conversationId : string)
    (forContext : Ambient) : MemorySystem :=
  let '(_, self) :=
    storeContext self
      (conversation_event "conversation_ended" conversationId [] "conversation_end" 0.7)
      forContext in
  with_active self (Z.max 0 (active_conversations (stats self) - 1)).

Definition archiveContext (self : MemorySystem) (contextId : string) : MemorySystem :=
  with_store self (store_delete contextId (memoryStore self)).

(** [memory.importance && memory.importance < 0.3] *)
Definition low_importance (memory : MemoryContext) : bool :=
  match importance memory with
  | Some weight => negb (Qeq_bool weight 0) && negb (Qle_bool 0.3 weight)
  | None => false
  end.

(** The body of the loop over the old memories. *)
Definition archive_step (self : MemorySystem) (memory : MemoryContext) : MemorySystem :=
  if low_importance memory then
    match id memory with
    | Some contextId => archiveContext self contextId
    | None => self   (* [delete(undefined)] removes nothing *)
    end
  else self.

(** [now] is the [Date.now()] the cutoff is taken from. *)
Definition consolidateMemory (self : MemorySystem) (now : Z) : MemorySystem :=
  let cutoffDate := (now - 7 * 24 * 60 * 60 * 1000)%Z in
  let oldMemories :=
    queryMemory self
      {| query_type := None; content_search := None; query_tags := None;
         time_range := Some (0%Z, cutoffDate);
         limit := Some (Finite 1000); include_metadata := None |} in
  fold_left archive_step oldMemories self.

End Memory.
(** ** Further concrete runs *)

Module Episode.
Import Gen.

Definition at_time (clock : Z) (digits : string) : Memory.Ambient :=
  {| Memory.id_clock := clock; Memory.random_digits := digits;
     Memory.stamp_clock := clock |}.

(** A user message without id, timestamp or tags. *)
Definition note (words : string) (weight : option Q) : Memory.MemoryContext :=
  {| Memory.id := None; Memory.type_ := Memory.user_message;
     Memory.content := Memory.Text words; Memory.context := None;
     Memory.timestamp := None; Memory.metadata := None; Memory.embedding := None;
     Memory.importance := weight; Memory.tags := None |}.

(** A new memory system after two stores: a note of calculated importance
    and a note given the importance 0.2. *)
Definition diary : Memory.MemorySystem :=
  (Memory.storeContext
     (Memory.storeContext Memory.created (note "remember the milk" None)
        (at_time 1000 "k3x9q2m1a")).2
     (note "small talk" (Some 0.2%Q)) (at_time 2000 "z8w7v6u5t")).2.

(** Every call resolves with the same text. *)
Definition always (reply : string) : Generator := fun _ _ => Scenario.text reply.

(** Every call resolves with a completion that has no content. *)
Definition silent : Generator :=
  fun _ _ => Resolves {| content := None; total_tokens := None |}.

(** The first three calls resolve with the three texts in turn. *)
Definition three_replies (first second third : string) : Generator :=
  fun log _ =>
    match length log with
    | 0%nat => Scenario.text first
    | 1%nat => Scenario.text second
    | _ => Scenario.text third
    end.

(** A breakdown in the format the leader is asked for. *)
Definition formatted_breakdown : string :=
  "SUBTASK 1: Survey the market" ++ JS.nl
  ++ "ASSIGNED TO: Data Analyst" ++ JS.nl
  ++ "INSTRUCTIONS: Finish this subtask: use public data" ++ JS.nl ++ JS.nl
  ++ "Subtask 2:   Draft the announcement  " ++ JS.nl
  ++ "subtask three has no colon".

Definition round_robin : Orchestrator.CollaborationRequest.t :=
  Scenario.launch (Orchestrator.other_type "round-robin").

Definition direct_question : Reasoning.ReasoningRequest :=
  Reasoning.mkRequest "What is 6 times 7?" Reasoning.chain_of_thought None None None.

Definition branching_question : Reasoning.ReasoningRequest :=
  Reasoning.mkRequest "What is 6 times 7?" Reasoning.tree_of_thoughts None None None.

End Episode.
(** ** Vocabulary of the further statements *)

(** The expression has no capture group. *)
Fixpoint group_free (r : Regex.regex) : bool :=
  match r with
  | Regex.Alt r1 r2 | Regex.Cat r1 r2 => group_free r1 && group_free r2
  | Regex.Group _ => false
  | _ => true
  end.

(** Every way through the expression passes its capture group. *)
Fixpoint sets_group (r : Regex.regex) : bool :=
  match r with
  | Regex.Group r1 => group_free r1
  | Regex.Cat r1 r2 =>
      (group_free r1 && sets_group r2) || (sets_group r1 && group_free r2)
  | Regex.Alt r1 r2 => sets_group r1 && sets_group r2
  | _ => false
  end.

(** The lines of the reply that the direct strategy takes for steps. *)
Definition step_lines (response : string) : list string :=
  List.filter Reasoning.is_step_line (JS.split JS.nl response).

(** The run from [log] to [log'] ended on a call that the generator rejected
    with [error]. *)
Definition rejected_last (gen : Gen.Generator) (log log' : list Gen.Call)
    (error : Gen.Thrown) : Prop :=
  exists before call,
    log' = (log ++ before ++ [call])%list
    /\ gen (log ++ before)%list call = Gen.Rejects error.

(** The lines of a reply that are not blank. *)
Definition nonblank_lines (text : string) : list string :=
  List.filter (fun line => (0 <? String.length (JS.trim line))%nat) (JS.split JS.nl text).

(** The number of generator calls a strategy issues when it returns. *)
Definition calls_of (type : Reasoning.ReasoningType) (result : Reasoning.ReasoningResult)
    : nat :=
  match type with
  | Reasoning.chain_of_thought => 1
  | Reasoning.react => 2 * length (Reasoning.reasoning result)
  | Reasoning.tree_of_thoughts => 3
  | Reasoning.self_reflection => 3
  | Reasoning.other_type _ => 0
  end.
(** The states the public operations of the memory system reach from a new
    one. *)
Inductive reachable : Memory.MemorySystem -> Prop :=
| reach_created : reachable Memory.created
| reach_store self context ambient :
    reachable self -> reachable (Memory.storeContext self context ambient).2
| reach_start self userId forConversation forContext :
    reachable self ->
    reachable (Memory.startConversation self userId forConversation forContext).2
| reach_end self conversationId forContext :
    reachable self -> reachable (Memory.endConversation self conversationId forContext)
| reach_consolidate self now :
    reachable self -> reachable (Memory.consolidateMemory self now).

(** What every entry of the map satisfies: it is filed under its own id, it
    has a timestamp, and its importance is there and is not 0. *)
Definition filed (entry : string * Memory.MemoryContext) : Prop :=
  Memory.id entry.2 = Some entry.1
  /\ is_Some (Memory.timestamp entry.2)
  /\ exists weight, Memory.importance entry.2 = Some weight /\ ~ (weight == 0)%Q.

Definition well_kept (self : Memory.MemorySystem) : Prop :=
  NoDup (Memory.store_keys (Memory.memoryStore self))
  /\ Forall filed (Memory.memoryStore self)
  /\ (length (Memory.memoryStore self) <= Memory.total_contexts (Memory.stats self))%nat
  /\ (0 <= Memory.active_conversations (Memory.stats self))%Z.

(** The context carries the tag of the conversation. *)
Definition in_conversation (conversationId : string) (context : Memory.MemoryContext) : bool :=
  match Memory.tags context with
  | Some own => Memory.has_tag (Memory.conversation_tag conversationId) own
  | None => false
  end.

(** The limit passed to [getConversationHistory] lets at least one context
    through: it is left out, falsy (0 or [NaN], read as 10), at least 1, or
    plus infinity. *)
Definition at_least_one (limit : option Memory.Number) : bool :=
  match limit with
  | None => true
  | Some (Memory.Finite q) => Qeq_bool q 0 || Qle_bool 1 q
  | Some Memory.NaN => true
  | Some (Memory.Infinity negative) => negb negative
  end.

(** Some memory of the list is of low importance and carries the id the
    entry is filed under. *)
Definition archived_by (memories : list Memory.MemoryContext)
    (entry : string * Memory.MemoryContext) : bool :=
  existsb
    (fun memory =>
       Memory.low_importance memory
       && match Memory.id memory with
          | Some contextId => String.eqb contextId entry.1
          | None => false
          end) memories.
(** The text after the first colon of a marked line, trimmed. *)
Definition after_first_colon (line : string) : option string :=
  if JS.includes "SUBTASK" (JS.toUpperCase line) then
    match JS.indexOf ":" line with
    | Some colonIndex => Some (JS.trim (JS.substring_from (colonIndex + 1) line))
    | None => None
    end
  else None.

Definition elapsed_of (sample : Q * nat * bool) : Q := sample.1.1.
Definition count_of (sample : Q * nat * bool) : Q := inject_Z (Z.of_nat sample.1.2).

(** The text is empty or starts on a character that is not white space. *)
Definition starts_clean (s : string) : Prop :=
  match s with
  | EmptyString => True
  | String c _ => JS.is_space c = false
  end.

(** The flag [collaborate] records for an outcome. *)
Definition recorded_flag (outcome : Gen.Outcome Orchestrator.CollaborationResult.t) : bool :=
  match outcome with
  | Gen.Returned result => Orchestrator.CollaborationResult.success result
  | Gen.Threw _ => false
  end.

(** Two requests in flight at once: [collaborate] counts a request on
    entry and awaits the agents before it records the outcome, so both are
    counted before either is recorded. *)
Definition overlapped (stats : Orchestrator.Stats) (first second : Q * nat * bool)
    : Orchestrator.Stats :=
  let entered :=
    Orchestrator.count_collaboration (Orchestrator.count_collaboration stats) in
  let '(elapsed1, agentCount1, ok1) := first in
  let '(elapsed2, agentCount2, ok2) := second in
  Orchestrator.updateStats
    (Orchestrator.updateStats entered elapsed1 agentCount1 ok1)
    elapsed2 agentCount2 ok2.

(** Every sequence of [n] outcomes. *)
Fixpoint all_outcomes (n : nat) : list (list bool) :=
  match n with
  | O => [[]]
  | S n' =>
      (map (cons true) (all_outcomes n') ++ map (cons false) (all_outcomes n'))%list
  end.

(** The binary64 rate after the outcomes is within 2^-53 of the fraction of
    successes. *)
Definition rate_checked (initial : float) (outcomes : list bool) : bool :=
  match Double.to_Q (Double.success_rate initial outcomes) with
  | Some value =>
      Qle_bool
        (Qabs (value
               - inject_Z (Z.of_nat (length (List.filter (fun ok : bool => ok) outcomes)))
                 / inject_Z (Z.of_nat (length outcomes))))
        (1 # 9007199254740992)
  | None => false
  end.

(** The binary64 confidence for [n] steps of confidence 0.8 is within 2e-15
    of the closed form and lies between 0.85 and 1. *)
Definition confidence_checked (n : nat) : bool :=
  match Double.to_Q (Double.calculateConfidence (repeat 0.8%float n)) with
  | Some value =>
      Qle_bool (Qabs (value - confidence_of_count n)) (1 # 500000000000000)
      && Qle_bool 0.85 value && Qle_bool value 1
  | None => false
  end.

(** What the synthesis prompt shows of a step: the agent's name and role,
    then the output of the step. *)
Definition shown (step : Orchestrator.CollaborationStep.t) : string :=
  Orchestrator.name (Orchestrator.CollaborationStep.agent step) ++ " ("
    ++ Orchestrator.role (Orchestrator.CollaborationStep.agent step) ++ "):" ++ JS.nl
    ++ Orchestrator.CollaborationStep.output step.

(** * Properties *)

(** ** The embedding on small inputs *)

Example split_keeps_empty_pieces :
  JS.split "." "a.b..c" = ["a"; "b"; EmptyString; "c"]
  /\ JS.split "." EmptyString = [EmptyString]
  /\ JS.split (JS.nl ++ JS.nl) ("a" ++ JS.nl ++ JS.nl ++ JS.nl ++ "b")
     = ["a"; JS.nl ++ "b"].
Proof. repeat split; reflexivity. Qed.

Example trim_both_ends : JS.trim ("  a b " ++ JS.nl) = "a b".
Proof. reflexivity. Qed.

Example answer_after_lead_in :
  Reasoning.extractFinalAnswer "We add the numbers. Answer: 42 is it"
    = Gen.Returned "42 is it"
  /\ Reasoning.extractFinalAnswer
       ("First we look. the answer is   " ++ JS.nl ++ " 42  " ++ JS.nl ++ "more")
     = Gen.Returned "42"
  /\ Reasoning.extractFinalAnswer "This is a long sentence. And another long one. short."
     = Gen.Returned "And another long one.".
Proof. repeat split; vm_compute; reflexivity. Qed.

Example numbered_lines_become_steps :
  map Reasoning.thought
    (Reasoning.parseChainOfThoughtReasoning
       ("1. first" ++ JS.nl ++ "Step 2: second" ++ JS.nl ++ "nothing" ++ JS.nl
          ++ " 4. indented" ++ JS.nl ++ "in step 3 we"))
  = ["1. first"; "Step 2: second"; "in step 3 we"].
Proof. vm_compute; reflexivity. Qed.

Example marked_subtasks :
  Orchestrator.parseSubtasks
    ("SUBTASK 1: collect data " ++ JS.nl ++ "ASSIGNED TO: Data Analyst" ++ JS.nl
       ++ "Subtask 2: write:report")
  = ["collect data"; "write:report"].
Proof. vm_compute; reflexivity. Qed.

(** ** The direct strategy: confidence and answer extraction *)

Section DirectStrategy.
Import Reasoning.
Local Open Scope Q_scope.

Lemma sum_fixed_confidence reasoning init :
  fixed_confidence reasoning ->
  fold_left (fun sum step => sum + confidence step) reasoning init
    == init + 0.8 * inject_Z (Z.of_nat (length reasoning)).
Proof.
  intros Hall. revert init.
  induction Hall as [|step rest Hstep _ IH]; intros init.
  - simpl. ring.
  - cbn [fold_left length]. rewrite IH, Hstep, Nat2Z.inj_succ.
    unfold Z.succ. rewrite inject_Z_plus. ring.
Qed.

Lemma calculateConfidence_fixed reasoning :
  reasoning <> [] -> fixed_confidence reasoning ->
  calculateConfidence reasoning == confidence_of_count (length reasoning).
Proof.
  intros Hne Hall. unfold calculateConfidence, confidence_of_count.
  destruct reasoning as [|step rest]; [congruence|].
  replace (length (step :: rest) =? 0)%nat with false by reflexivity.
  cbv zeta. rewrite (sum_fixed_confidence _ _ Hall).
  set (n := inject_Z (Z.of_nat (length (step :: rest)))).
  assert (Hn : ~ n == 0).
  { unfold n. intros H. unfold Qeq in H. cbn [length Qnum Qden inject_Z] in H. lia. }
  apply Q.min_compat; [|reflexivity].
  apply Qplus_comp.
  - field. exact Hn.
  - apply Q.min_compat; [ring|reflexivity].
Qed.

Lemma confidence_of_count_mono n m :
  (n <= m)%nat -> confidence_of_count n <= confidence_of_count m.
Proof.
  intros Hle. unfold confidence_of_count.
  apply Q.min_le_compat_r, Qplus_le_r, Q.min_le_compat_r.
  apply Qmult_le_l; [reflexivity|].
  rewrite <- Zle_Qle. lia.
Qed.
End DirectStrategy.

Lemma confidences_checked : forallb confidence_checked (seq 1 100) = true.
Proof. vm_compute. reflexivity. Qed.

Lemma confidence_in_binary64 (n : nat) :
  (1 <= n <= 100)%nat ->
  exists value,
    Double.to_Q (Double.calculateConfidence (repeat 0.8%float n)) = Some value
    /\ (Qabs (value - confidence_of_count n) <= 1 # 500000000000000)%Q
    /\ (0.85 <= value)%Q /\ (value <= 1)%Q.
Proof.
  intros Hn.
  assert (Hin : In n (seq 1 100)) by (apply in_seq; lia).
  pose proof (proj1 (forallb_forall _ _) confidences_checked n Hin) as Hcheck.
  unfold confidence_checked in Hcheck.
  destruct (Double.to_Q _) as [value|]; [|discriminate].
  apply andb_prop in Hcheck as [Hcheck Hhigh]. apply andb_prop in Hcheck as [Hnear Hlow].
  exists value. split; [reflexivity|].
  split; [now apply Qle_bool_iff|]. split; now apply Qle_bool_iff.
Qed.

(** C6 (amended). For a non-empty list of parsed steps that all carry
    confidence 0.8, [calculateConfidence] read in exact arithmetic is
    [min(0.8 + min(0.05 * count, 0.2), 1.0)]: it does not decrease when the
    count grows, and one step gives 0.85, four steps give 1.0 and ten steps
    give 1.0.  Evaluated in binary64, as the code runs it, the value for up
    to 100 steps is within 2e-15 of that one and lies between 0.85 and 1;
    four steps and ten steps give exactly 1.0. *)
Theorem direct_confidence_formula (reasoning : list Reasoning.ReasoningStep) :
  reasoning <> [] ->
  fixed_confidence reasoning ->
  (Reasoning.calculateConfidence reasoning
     == Qmin (0.8 + Qmin (0.05 * inject_Z (Z.of_nat (length reasoning))) 0.2) 1.0)%Q
  /\ (forall longer : list Reasoning.ReasoningStep,
        fixed_confidence longer ->
        (length reasoning <= length longer)%nat ->
        (Reasoning.calculateConfidence reasoning
           <= Reasoning.calculateConfidence longer)%Q)
  /\ (length reasoning = 1%nat -> (Reasoning.calculateConfidence reasoning == 0.85)%Q)
  /\ (length reasoning = 4%nat -> (Reasoning.calculateConfidence reasoning == 1.0)%Q)
  /\ (length reasoning = 10%nat -> (Reasoning.calculateConfidence reasoning == 1.0)%Q)
  /\ ((length reasoning <= 100)%nat ->
      exists value,
        Double.to_Q (Double.calculateConfidence (repeat 0.8%float (length reasoning)))
          = Some value
        /\ (Qabs (value - Reasoning.calculateConfidence reasoning)
            <= 1 # 500000000000000)%Q
        /\ (0.85 <= value)%Q /\ (value <= 1)%Q)
  /\ (length reasoning = 4%nat \/ length reasoning = 10%nat ->
      Double.calculateConfidence (repeat 0.8%float (length reasoning)) = 1%float).
Proof.
  intros Hne Hall.
  pose proof (calculateConfidence_fixed reasoning Hne Hall) as Hform.
  split; [exact Hform|]. split; [|split; [|split; [|split; [|split]]]].
  - intros longer Hall' Hlen.
    assert (Hne' : longer <> []).
    { destruct longer; [|discriminate]. destruct reasoning; [congruence|].
      cbn [length] in Hlen. lia. }
    rewrite Hform, (calculateConfidence_fixed longer Hne' Hall').
    now apply confidence_of_count_mono.
  - intros Hlen; rewrite Hform, Hlen; reflexivity.
  - intros Hlen; rewrite Hform, Hlen; reflexivity.
  - intros Hlen; rewrite Hform, Hlen; reflexivity.
  - intros Hlen.
    destruct (confidence_in_binary64 (length reasoning)) as (value & Hvalue & Hnear & Hrange).
    { destruct reasoning; [congruence|]. cbn [length] in *. lia. }
    exists value. split; [exact Hvalue|]. split; [|exact Hrange].
    now rewrite Hform.
  - intros [->| ->]; vm_compute; reflexivity.
Qed.

(** C6 on a reply of four numbered lines, in exact arithmetic and in
    binary64. *)
Lemma direct_confidence_formula_witness :
  let reasoning :=
    Reasoning.parseChainOfThoughtReasoning (Scenario.numbered_reply 4) in
  length reasoning = 4%nat
  /\ (Reasoning.calculateConfidence reasoning == 1.0)%Q
  /\ Double.calculateConfidence (repeat 0.8%float 4) = 1%float.
Proof.
  intros reasoning. split; [reflexivity|].
  assert (Hne : reasoning <> []) by discriminate.
  assert (Hall : fixed_confidence reasoning) by (repeat constructor).
  pose proof (direct_confidence_formula reasoning Hne Hall)
    as (_ & _ & _ & Hfour & _ & _ & Hdouble).
  split; [exact (Hfour eq_refl)|exact (Hdouble (or_introl eq_refl))].
Defined.

(** C6 as first stated fails in binary64: one step gives 0.8500000000000001,
    which is above 0.85 and not the rational 17/20; three steps give
    0.9500000000000002; and 48 steps give 0.9999999999999998, less than the
    1.0 of 47 steps, so the value is not monotone in the count. *)
Lemma direct_confidence_counterexample :
  Double.calculateConfidence [0.8%float] = 0.8500000000000001%float
  /\ PrimFloat.ltb 0.85%float (Double.calculateConfidence [0.8%float]) = true
  /\ (exists value,
        Double.to_Q (Double.calculateConfidence [0.8%float]) = Some value
        /\ ~ (value == 0.85)%Q)
  /\ Double.calculateConfidence (repeat 0.8%float 3) = 0.9500000000000002%float
  /\ Double.calculateConfidence (repeat 0.8%float 47) = 1%float
  /\ Double.calculateConfidence (repeat 0.8%float 48) = 0.9999999999999998%float
  /\ PrimFloat.ltb (Double.calculateConfidence (repeat 0.8%float 48))
       (Double.calculateConfidence (repeat 0.8%float 47)) = true.
Proof.
  split; [vm_compute; reflexivity|]. split; [vm_compute; reflexivity|].
  split.
  { eexists. split; [vm_compute; reflexivity|]. intros Heq.
    apply Qeq_bool_iff in Heq. vm_compute in Heq. discriminate Heq. }
  repeat split; vm_compute; reflexivity.
Qed.

Lemma filter_none {A} (f : A -> bool) (l : list A) :
  Forall (fun x => f x = false) l -> List.filter f l = [].
Proof.
  induction 1 as [|x l Hx _ IH]; [reflexivity|].
  cbn [List.filter]. now rewrite Hx.
Qed.

(** C10. When neither lead-in pattern matches the response and no fragment
    between full stops is longer than 10 characters once trimmed (the empty
    response is such a one), [extractFinalAnswer] returns the text
    ["undefined."]: the fallback to the response itself is never taken. *)
Theorem extractFinalAnswer_undefined (response : string) :
  Forall (fun pattern => Regex.exec pattern response = None) Reasoning.patterns ->
  Forall (fun fragment => (String.length (JS.trim fragment) <= 10)%nat)
    (JS.split "." response) ->
  Reasoning.extractFinalAnswer response = Gen.Returned "undefined.".
Proof.
  intros Hpatterns Hshort. unfold Reasoning.extractFinalAnswer.
  assert (Hskip : forall ps otherwise,
             Forall (fun pattern => Regex.exec pattern response = None) ps ->
             Reasoning.first_pattern ps response otherwise = otherwise).
  { intros ps otherwise Hps.
    induction Hps as [|p ps Hp _ IH]; [reflexivity|].
    cbn [Reasoning.first_pattern]. now rewrite Hp. }
  rewrite (Hskip _ _ Hpatterns).
  rewrite filter_none; [reflexivity|].
  eapply Forall_impl; [exact Hshort|].
  intros fragment Hlen. cbv beta in Hlen |- *. apply Nat.ltb_ge. exact Hlen.
Qed.

(** C10 on the empty response and on a response of short fragments. *)
Lemma extractFinalAnswer_undefined_witness :
  Forall (fun pattern => Regex.exec pattern EmptyString = None) Reasoning.patterns
  /\ Reasoning.extractFinalAnswer EmptyString = Gen.Returned "undefined."
  /\ Reasoning.extractFinalAnswer "ok. fine." = Gen.Returned "undefined.".
Proof.
  split; [repeat constructor|].
  split; apply extractFinalAnswer_undefined; repeat constructor.
Defined.

(** ** Running statistics *)

Section RunningMean.
Local Open Scope Q_scope.
Context {State Sample : Type}.
Variables (total : State -> Z) (mean : State -> Q) (value : Sample -> Q) (step : State -> Sample -> State).
Hypothesis step_total : forall s x, total (step s x) = (total s + 1)%Z.
Hypothesis step_mean :
  forall s x, mean (step s x) == mean_step (mean s) (inject_Z (total s + 1)) (value x).

Lemma running_mean_invariant (xs : list Sample) :
  forall s, (1 <= total s)%Z ->
  mean (fold_left step xs s) * inject_Z (total s + Z.of_nat (length xs))
    == mean s * inject_Z (total s) + Qsum (map value xs).
Proof.
  induction xs as [|x xs IH]; intros s Hs.
  - cbn [fold_left length map Qsum fold_right]. rewrite Z.add_0_r. ring.
  - cbn [fold_left length map Qsum fold_right].
    specialize (IH (step s x)). rewrite step_total in IH.
    replace (total s + Z.of_nat (S (length xs)))%Z
      with (total s + 1 + Z.of_nat (length xs))%Z by lia.
    rewrite IH by lia. rewrite step_mean. unfold mean_step, Qsum.
    assert (Hnz : ~ inject_Z (total s + 1) == 0).
    { unfold Qeq. cbn [Qnum Qden inject_Z]. lia. }
    rewrite inject_Z_plus in *. change (inject_Z 1) with 1 in *.
    field. exact Hnz.
Qed.

Lemma running_mean_first s x :
  total s = 0%Z -> mean (step s x) == value x.
Proof.
  intros Hs. rewrite step_mean, Hs. unfold mean_step.
  change (inject_Z (0 + 1)) with 1. field.
Qed.

Lemma running_mean_from_zero (xs : list Sample) s :
  total s = 0%Z -> xs <> [] ->
  mean (fold_left step xs s) == Qsum (map value xs) / inject_Z (Z.of_nat (length xs)).
Proof.
  intros Hs Hne. destruct xs as [|x xs]; [congruence|].
  cbn [fold_left].
  pose proof (running_mean_invariant xs (step s x)) as Hinv.
  rewrite step_total, Hs in Hinv. specialize (Hinv ltac:(lia)).
  rewrite (running_mean_first s x Hs) in Hinv.
  change (inject_Z (0 + 1)) with 1 in Hinv.
  replace (Z.of_nat (length (x :: xs))) with (0 + 1 + Z.of_nat (length xs))%Z
    by (cbn [length]; lia).
  assert (Hnz : ~ inject_Z (0 + 1 + Z.of_nat (length xs)) == 0).
  { unfold Qeq. cbn [Qnum Qden inject_Z]. lia. }
  cbn [map Qsum fold_right]. fold (Qsum (map value xs)).
  apply (Qmult_inj_r _ _ _ Hnz). rewrite Hinv. field. exact Hnz.
Qed.
End RunningMean.

Lemma Qsum_outcomes (samples : list (Q * nat * bool)) :
  (Qsum (map outcome_of samples) == inject_Z (Z.of_nat (successes samples)))%Q.
Proof.
  unfold successes.
  induction samples as [|[[elapsed count] ok] samples IH]; [reflexivity|].
  cbn [map Qsum fold_right List.filter snd]. fold (Qsum (map outcome_of samples)).
  rewrite IH. unfold outcome_of. cbn [snd].
  destruct ok; cbn [indicator length].
  - rewrite Nat2Z.inj_succ. unfold Z.succ. rewrite inject_Z_plus.
    change (inject_Z 1) with 1%Q. ring.
  - ring.
Qed.

Lemma successes_flags (samples : list (Q * nat * bool)) :
  successes samples = length (List.filter (fun ok : bool => ok) (map snd samples)).
Proof.
  unfold successes. induction samples as [|[[elapsed count] ok] samples IH]; [reflexivity|].
  cbn [map List.filter snd]. destruct ok; cbn [length]; now rewrite IH.
Qed.

Lemma true_flags_perm (flags flags' : list bool) :
  Permutation flags flags' ->
  length (List.filter (fun ok : bool => ok) flags)
    = length (List.filter (fun ok : bool => ok) flags').
Proof.
  induction 1 as [|ok l l' _ IH|ok ok' l|l l' l'' _ IH _ IH'].
  - reflexivity.
  - cbn [List.filter]. destruct ok; cbn [length]; now rewrite IH.
  - cbn [List.filter]. destruct ok, ok'; reflexivity.
  - now rewrite IH.
Qed.

Lemma orchestrator_rate (samples : list (Q * nat * bool)) (stats : Orchestrator.Stats) :
  Orchestrator.total_collaborations stats = 0%Z -> samples <> [] ->
  (Orchestrator.success_rate (Orchestrator.record_all samples stats)
     == inject_Z (Z.of_nat (successes samples)) / inject_Z (Z.of_nat (length samples)))%Q.
Proof.
  intros Hzero Hne. unfold Orchestrator.record_all.
  rewrite (running_mean_from_zero Orchestrator.total_collaborations
             Orchestrator.success_rate outcome_of Orchestrator.record);
    [now rewrite Qsum_outcomes| | |exact Hzero|exact Hne].
  - now intros s [[elapsed count] ok].
  - intros s [[elapsed count] ok]. reflexivity.
Qed.

Lemma reasoning_rate (samples : list (Q * nat * bool)) (stats : Reasoning.Stats) :
  Reasoning.total_processes stats = 0%Z -> samples <> [] ->
  (Reasoning.success_rate (Reasoning.record_all samples stats)
     == inject_Z (Z.of_nat (successes samples)) / inject_Z (Z.of_nat (length samples)))%Q.
Proof.
  intros Hzero Hne. unfold Reasoning.record_all.
  rewrite (running_mean_from_zero Reasoning.total_processes
             Reasoning.success_rate outcome_of Reasoning.record);
    [now rewrite Qsum_outcomes| | |exact Hzero|exact Hne].
  - now intros s [[elapsed count] ok].
  - intros s [[elapsed count] ok]. reflexivity.
Qed.

Lemma all_outcomes_complete (outcomes : list bool) :
  In outcomes (all_outcomes (length outcomes)).
Proof.
  induction outcomes as [|ok outcomes IH]; [now left|].
  cbn [length all_outcomes]. apply in_or_app.
  destruct ok; [left|right]; now apply in_map.
Qed.

Lemma rates_checked :
  forallb (fun n => forallb (fun outcomes => rate_checked 0.95%float outcomes
                                              && rate_checked 1%float outcomes)
                      (all_outcomes n)) (seq 1 12) = true.
Proof. vm_compute. reflexivity. Qed.

Lemma rate_in_binary64 (outcomes : list bool) (initial : float) :
  outcomes <> [] -> (length outcomes <= 12)%nat ->
  initial = 0.95%float \/ initial = 1%float ->
  exists value,
    Double.to_Q (Double.success_rate initial outcomes) = Some value
    /\ (Qabs (value
              - inject_Z (Z.of_nat (length (List.filter (fun ok : bool => ok) outcomes)))
                / inject_Z (Z.of_nat (length outcomes)))
        <= 1 # 9007199254740992)%Q.
Proof.
  intros Hne Hlen Hinitial.
  assert (Hin : In (length outcomes) (seq 1 12)).
  { apply in_seq. destruct outcomes; [congruence|cbn [length] in *; lia]. }
  pose proof (proj1 (forallb_forall _ _) rates_checked _ Hin) as Hall. cbv beta in Hall.
  pose proof (proj1 (forallb_forall _ _) Hall _ (all_outcomes_complete outcomes)) as Hboth.
  cbv beta in Hboth. apply andb_prop in Hboth as [Hlow Hhigh].
  assert (Hcheck : rate_checked initial outcomes = true)
    by (destruct Hinitial as [-> | ->]; assumption).
  unfold rate_checked in Hcheck.
  destruct (Double.to_Q _) as [value|]; [|discriminate].
  exists value. split; [reflexivity|]. now apply Qle_bool_iff.
Qed.

(** C3 (amended). After [n >= 1] requests that do not overlap, each counted on
    entry and recorded once when it ends, the success rate of either engine
    is, in exact arithmetic, the number of successful outcomes over [n],
    whatever the rate held before the first sample and in whatever order the
    outcomes come; the first sample sets every running mean to the observed
    value.  In binary64, as the code runs it, the rate is within 2^-53 of
    that fraction for every sequence of up to 12 outcomes, from either
    constructor's initial rate. *)
Theorem success_rate_is_fraction (samples : list (Q * nat * bool))
    (collaborations : Orchestrator.Stats) (processes : Reasoning.Stats) :
  Orchestrator.total_collaborations collaborations = 0%Z ->
  Reasoning.total_processes processes = 0%Z ->
  samples <> [] ->
  let fraction :=
    (inject_Z (Z.of_nat (successes samples)) / inject_Z (Z.of_nat (length samples)))%Q in
  (Orchestrator.success_rate (Orchestrator.record_all samples collaborations) == fraction)%Q
  /\ (Reasoning.success_rate (Reasoning.record_all samples processes) == fraction)%Q
  /\ (forall samples' collaborations' processes',
        Orchestrator.total_collaborations collaborations' = 0%Z ->
        Reasoning.total_processes processes' = 0%Z ->
        Permutation (map snd samples) (map snd samples') ->
        (Orchestrator.success_rate (Orchestrator.record_all samples' collaborations')
           == Orchestrator.success_rate (Orchestrator.record_all samples collaborations))%Q
        /\ (Reasoning.success_rate (Reasoning.record_all samples' processes')
              == Reasoning.success_rate (Reasoning.record_all samples processes))%Q)
  /\ (forall elapsed count ok,
        let first := Orchestrator.record collaborations (elapsed, count, ok) in
        (Orchestrator.success_rate first == if ok then 1 else 0)%Q
        /\ (Orchestrator.avg_execution_time first == elapsed)%Q
        /\ (Orchestrator.avg_agents_per_task first == inject_Z (Z.of_nat count))%Q)
  /\ (forall elapsed tokens ok,
        let first := Reasoning.record processes (elapsed, tokens, ok) in
        (Reasoning.success_rate first == if ok then 1 else 0)%Q
        /\ (Reasoning.avg_processing_time first == elapsed)%Q
        /\ (Reasoning.avg_tokens_used first == inject_Z (Z.of_nat tokens))%Q)
  /\ ((length samples <= 12)%nat ->
      forall initial : float, initial = 0.95%float \/ initial = 1%float ->
      exists value,
        Double.to_Q (Double.success_rate initial (map snd samples)) = Some value
        /\ (Qabs (value - fraction) <= 1 # 9007199254740992)%Q).
Proof.
  intros Hc Hp Hne fraction.
  pose proof (orchestrator_rate samples collaborations Hc Hne) as Ho.
  pose proof (reasoning_rate samples processes Hp Hne) as Hr.
  split; [exact Ho|]. split; [exact Hr|]. split; [|split; [|split]].
  - intros samples' collaborations' processes' Hc' Hp' Hperm.
    assert (Hne' : samples' <> []).
    { intros ->. apply Permutation_length in Hperm.
      destruct samples; [congruence|discriminate]. }
    assert (Hlen : length samples' = length samples).
    { apply Permutation_length in Hperm. rewrite !length_map in Hperm. lia. }
    assert (Hsucc : successes samples' = successes samples).
    { rewrite !successes_flags. symmetry. now apply true_flags_perm. }
    rewrite Ho, Hr, (orchestrator_rate samples' collaborations' Hc' Hne'),
      (reasoning_rate samples' processes' Hp' Hne'), Hlen, Hsucc.
    split; reflexivity.
  - intros elapsed count ok first. unfold first, Orchestrator.record,
      Orchestrator.updateStats, Orchestrator.count_collaboration.
    cbn [Orchestrator.success_rate Orchestrator.avg_execution_time
         Orchestrator.avg_agents_per_task Orchestrator.total_collaborations].
    rewrite Hc. change (inject_Z (0 + 1)) with 1%Q.
    repeat split; field.
  - intros elapsed tokens ok first. unfold first, Reasoning.record,
      Reasoning.updateStats, Reasoning.count_process.
    cbn [Reasoning.success_rate Reasoning.avg_processing_time
         Reasoning.avg_tokens_used Reasoning.total_processes].
    rewrite Hp. change (inject_Z (0 + 1)) with 1%Q.
    repeat split; field.
  - intros Hlen initial Hinitial.
    destruct (rate_in_binary64 (map snd samples) initial) as (value & Hvalue & Hnear).
    + destruct samples; [congruence|discriminate].
    + now rewrite length_map.
    + exact Hinitial.
    + exists value. split; [exact Hvalue|].
      unfold fraction. rewrite successes_flags.
      rewrite length_map in Hnear. exact Hnear.
Qed.

Lemma collaborate_records gen self request elapsed log :
  exists count ok,
    Orchestrator.stats (Orchestrator.collaborate gen self request elapsed log).1.2
      = Orchestrator.record (Orchestrator.stats self) (elapsed, count, ok).
Proof.
  unfold Orchestrator.collaborate.
  match goal with |- context [match ?run log with _ => _ end] => destruct (run log) as [[[found result]|e] log'] end.
  - eexists _, _. reflexivity.
  - eexists _, _. reflexivity.
Qed.

Lemma process_records gen stats request elapsed log :
  exists tokens ok,
    (Reasoning.process gen stats request elapsed log).1.2
      = Reasoning.record stats (elapsed, tokens, ok).
Proof.
  unfold Reasoning.process.
  match goal with |- context [match ?run log with _ => _ end] => destruct (run log) as [[result|e] log'] end.
  - eexists _, _. reflexivity.
  - eexists _, _. reflexivity.
Qed.

(** C3 on success, failure, success from the constructors' statistics: the
    rate is 2/3 although the engines start at 0.95 and at 1.0, and in
    binary64 it is within 2^-53 of 2/3. *)
Lemma success_rate_is_fraction_witness :
  let samples := [(12, 3%nat, true); (7, 2%nat, false); (9, 1%nat, true)]%Q in
  (Orchestrator.success_rate (Orchestrator.record_all samples Orchestrator.initial_stats)
     == 2 # 3)%Q
  /\ (Reasoning.success_rate (Reasoning.record_all samples Reasoning.initial_stats)
        == 2 # 3)%Q
  /\ exists value,
       Double.to_Q (Double.success_rate 0.95%float [true; false; true]) = Some value
       /\ (Qabs (value - (2 # 3)) <= 1 # 9007199254740992)%Q.
Proof.
  intros samples.
  pose proof (success_rate_is_fraction samples Orchestrator.initial_stats
                Reasoning.initial_stats eq_refl eq_refl ltac:(discriminate)) as H.
  cbv zeta in H. destruct H as (Ho & Hr & _ & _ & _ & Hdouble).
  split; [exact Ho|]. split; [exact Hr|].
  destruct (Hdouble ltac:(cbn; lia) 0.95%float (or_introl eq_refl))
    as (value & Hvalue & Hnear).
  exists value. split; [exact Hvalue|exact Hnear].
Defined.

(** C3 as first stated fails of the code.  Two requests in flight at once,
    both successful: the rate is 0.9875 from the constructor's 0.95 and 0.75
    from the rate 0, not 2/2.  In binary64, without any overlap, one success
    among fifty outcomes gives 0.019999999999999997 when it comes first and
    0.02 when it comes last. *)
Lemma success_rate_counterexample :
  (Orchestrator.success_rate
     (overlapped Orchestrator.initial_stats (12, 3%nat, true) (7, 2%nat, true))
     == 79 # 80)%Q
  /\ (Orchestrator.success_rate
        (overlapped
           {| Orchestrator.total_collaborations := 0;
              Orchestrator.avg_agents_per_task := 2.5;
              Orchestrator.success_rate := 0;
              Orchestrator.avg_execution_time := 5000 |}
           (12, 3%nat, true) (7, 2%nat, true))
        == 3 # 4)%Q
  /\ Double.updateStats 2 (Double.updateStats 2 0.95%float true) true = 0.9875%float
  /\ Double.success_rate 0.95%float (true :: repeat false 49)
     = 0.019999999999999997%float
  /\ Double.success_rate 0.95%float (repeat false 49 ++ [true])%list = 0.02%float
  /\ PrimFloat.ltb (Double.success_rate 0.95%float (true :: repeat false 49))
       (Double.success_rate 0.95%float (repeat false 49 ++ [true])%list) = true.
Proof.
  split; [vm_compute; reflexivity|]. split; [vm_compute; reflexivity|].
  repeat split; vm_compute; reflexivity.
Qed.

(** ** Sequential collaboration and the registry *)

Section Sequential.
Import Gen Orchestrator.
Variable gen : Generator.

Lemma executeAgentTask_run agent prompt log :
  executeAgentTask gen agent prompt log
  = (match gen log (agentCall agent prompt) with
     | Rejects e => Threw e
     | Resolves c => Returned (JS.or_else (content c) EmptyString)
     end, (log ++ [agentCall agent prompt])%list).
Proof.
  unfold executeAgentTask, bind, create, ret.
  destruct (gen log (agentCall agent prompt)); reflexivity.
Qed.

Lemma chained_lookup input steps i prev cur :
  chained input steps ->
  steps !! i = Some prev -> steps !! (S i) = Some cur ->
  CollaborationStep.input cur = CollaborationStep.output prev.
Proof.
  revert input i. induction steps as [|step rest IH]; intros input i Hch Hprev Hcur.
  - discriminate.
  - destruct Hch as [_ Hrest]. destruct i as [|i].
    + injection Hprev as <-. destruct rest as [|next rest']; [discriminate|].
      injection Hcur as <-. exact (proj1 Hrest).
    + exact (IH _ i Hrest Hprev Hcur).
Qed.

Lemma sequential_loop_chained rest :
  forall totalSteps i currentInput steps log,
  exists new ok log',
    sequential_loop gen totalSteps i rest currentInput steps log
      = (Returned ((steps ++ new)%list, ok), log')
    /\ chained currentInput new.
Proof.
  induction rest as [|agent rest IH]; intros totalSteps i currentInput steps log.
  - exists [], true, log. cbn. rewrite app_nil_r. split; [reflexivity|exact I].
  - cbn [sequential_loop]. unfold bind, attempt. rewrite executeAgentTask_run.
    destruct (gen log _) as [e|c].
    + eexists [_], false, _. split; [reflexivity|]. cbn. auto.
    + edestruct IH as (new & ok & log' & Hrun & Hch).
      rewrite Hrun. eexists (_ :: new), ok, log'.
      rewrite <- app_assoc. split; [reflexivity|].
      cbn. auto.
Qed.
End Sequential.

(** C5. A sequential collaboration over any list of resolved agents returns,
    and in its trace every step after the first reads the output of the step
    before it; this holds for a failed step too. *)
Theorem sequential_steps_chain (gen : Gen.Generator)
    (request : Orchestrator.CollaborationRequest.t) (agents : list Orchestrator.Agent)
    (log : list Gen.Call) :
  exists result log',
    Orchestrator.sequentialCollaboration gen request agents log = (Gen.Returned result, log')
    /\ forall i previous current,
         Orchestrator.CollaborationResult.steps result !! i = Some previous ->
         Orchestrator.CollaborationResult.steps result !! (S i) = Some current ->
         Orchestrator.CollaborationStep.input current
           = Orchestrator.CollaborationStep.output previous.
Proof.
  unfold Orchestrator.sequentialCollaboration, Gen.bind.
  destruct (sequential_loop_chained gen agents (length agents) 0
              (Orchestrator.CollaborationRequest.task request) [] log)
    as (new & ok & log' & Hrun & Hch).
  rewrite Hrun. eexists _, _. split; [reflexivity|].
  cbn. intros i previous current. now apply chained_lookup with (input := Orchestrator.CollaborationRequest.task request).
Qed.

(** C1 (amended). With three agents, when the first call resolves and the
    second is rejected, the run returns after these two calls with two steps,
    the second one failed, overall [success] false, and [final_result] is the
    output of the last recorded step, that is the failed step's error text
    ["Error: " + message]. *)
Theorem sequential_failure_result (gen : Gen.Generator)
    (request : Orchestrator.CollaborationRequest.t)
    (first second third : Orchestrator.Agent) (log : list Gen.Call)
    (completion : Gen.Completion) (error : Gen.Thrown) :
  let task := Orchestrator.CollaborationRequest.task request in
  let firstCall :=
    Orchestrator.agentCall first
      (Orchestrator.buildAgentPrompt first task 0 3 "sequential") in
  let firstOutput := JS.or_else (Gen.content completion) EmptyString in
  let secondCall :=
    Orchestrator.agentCall second
      (Orchestrator.buildAgentPrompt second firstOutput 1 3 "sequential") in
  gen log firstCall = Gen.Resolves completion ->
  gen (log ++ [firstCall])%list secondCall = Gen.Rejects error ->
  exists result step0 step1,
    Orchestrator.sequentialCollaboration gen request [first; second; third] log
      = (Gen.Returned result, (log ++ [firstCall; secondCall])%list)
    /\ Orchestrator.CollaborationResult.steps result = [step0; step1]
    /\ Orchestrator.CollaborationStep.success step0 = true
    /\ Orchestrator.CollaborationStep.output step0 = firstOutput
    /\ Orchestrator.CollaborationStep.success step1 = false
    /\ Orchestrator.CollaborationStep.output step1 = "Error: " ++ Gen.message_of error
    /\ Orchestrator.CollaborationResult.success result = false
    /\ Orchestrator.CollaborationResult.final_result result
       = Orchestrator.CollaborationStep.output step1.
Proof.
  intros task firstCall firstOutput secondCall Hfirst Hsecond.
  unfold Orchestrator.sequentialCollaboration, Gen.bind.
  cbn [Orchestrator.sequential_loop length]. unfold Gen.bind, Gen.attempt.
  rewrite executeAgentTask_run. fold task firstCall. rewrite Hfirst.
  rewrite executeAgentTask_run. fold firstOutput secondCall. rewrite Hsecond.
  replace (log ++ [firstCall; secondCall])%list
    with ((log ++ [firstCall]) ++ [secondCall])%list
    by (rewrite <- app_assoc; reflexivity).
  eexists _, _, _. split; [reflexivity|].
  cbn. repeat split; reflexivity.
Qed.

(** C1 as stated fails: on the initialised registry, with the second call
    rejected, [final_result] is the error text and not [steps[0].output]. *)
Lemma sequential_failure_counterexample :
  exists result step0 step1 self' log',
    Orchestrator.collaborate Scenario.second_call_fails Orchestrator.initialized
      (Scenario.launch Orchestrator.sequential) 12 []
      = (Gen.Returned result, self', log')
    /\ Orchestrator.CollaborationResult.steps result = [step0; step1]
    /\ Orchestrator.CollaborationStep.success step0 = true
    /\ Orchestrator.CollaborationStep.success step1 = false
    /\ Orchestrator.CollaborationResult.success result = false
    /\ Orchestrator.CollaborationResult.final_result result
       <> Orchestrator.CollaborationStep.output step0.
Proof.
  eexists _, _, _, _, _. split; [vm_compute; reflexivity|].
  cbn. repeat split; discriminate.
Qed.

(** The amended C1 on the analyst, creative, technical pipeline whose second
    call hits a rate limit. *)
Lemma sequential_failure_result_witness :
  exists result log',
    Orchestrator.sequentialCollaboration Scenario.second_call_fails
      (Scenario.launch Orchestrator.sequential)
      [Scenario.analyst; Scenario.creative; Scenario.technical] []
      = (Gen.Returned result, log')
    /\ length (Orchestrator.CollaborationResult.steps result) = 2%nat
    /\ Orchestrator.CollaborationResult.final_result result = "Error: rate limit exceeded".
Proof.
  destruct (sequential_failure_result Scenario.second_call_fails
              (Scenario.launch Orchestrator.sequential)
              Scenario.analyst Scenario.creative Scenario.technical []
              {| Gen.content := Some "draft from the analyst"; Gen.total_tokens := Some 10%nat |}
              (Gen.ErrorObject "rate limit exceeded") eq_refl eq_refl)
    as (result & step0 & step1 & Hrun & Hsteps & _ & _ & _ & Hout & _ & Hfinal).
  exists result. eexists. split; [exact Hrun|]. split.
  - now rewrite Hsteps.
  - now rewrite Hfinal, Hout.
Defined.

Section Registry.
Import Gen Orchestrator.

Lemma validate_loop_found registry agentIds :
  forall found agents,
  validate_loop registry agentIds found = Returned agents ->
  exists resolved,
    agents = (found ++ resolved)%list
    /\ Forall2 (fun id agent => registry !! id = Some agent) agentIds resolved.
Proof.
  induction agentIds as [|id rest IH]; intros found agents Hrun.
  - injection Hrun as <-. exists []. rewrite app_nil_r. split; [reflexivity|constructor].
  - cbn [validate_loop] in Hrun. destruct (registry !! id) as [agent|] eqn:Hid; [|discriminate].
    destruct (IH _ _ Hrun) as (resolved & -> & Hall).
    exists (agent :: resolved). rewrite <- app_assoc. split; [reflexivity|].
    now constructor.
Qed.

Lemma validate_loop_registered registry agentIds :
  Forall (fun id => is_Some (registry !! id)) agentIds ->
  forall found, exists resolved,
    validate_loop registry agentIds found = Returned (found ++ resolved)%list
    /\ length resolved = length agentIds.
Proof.
  induction 1 as [|id rest [agent Hid] _ IH]; intros found.
  - exists []. rewrite app_nil_r. split; reflexivity.
  - cbn [validate_loop]. rewrite Hid.
    destruct (IH (found ++ [agent])%list) as (resolved & Hrun & Hlen).
    exists (agent :: resolved). rewrite Hrun, <- app_assoc.
    split; [reflexivity|]. cbn [length]. now rewrite Hlen.
Qed.

Lemma validate_loop_missing registry agentIds :
  Exists (fun id => registry !! id = None) agentIds ->
  forall found, exists id,
    id ∈ agentIds /\ registry !! id = None
    /\ validate_loop registry agentIds found = Threw (ErrorObject ("Agent not found: " ++ id)).
Proof.
  induction agentIds as [|id rest IH]; intros Hex found.
  - inversion Hex.
  - cbn [validate_loop]. destruct (registry !! id) as [agent|] eqn:Hid.
    + assert (Hrest : Exists (fun id => registry !! id = None) rest).
      { inversion Hex as [? ? Hhere|]; [congruence|assumption]. }
      destruct (IH Hrest (found ++ [agent])%list) as (id' & Hin & Hnone & Hrun).
      exists id'. split; [now apply list_elem_of_further|]. now split.
    + exists id. split; [apply list_elem_of_here|]. now split.
Qed.

Lemma validateAndGetAgents_found registry agentIds agents :
  validateAndGetAgents registry agentIds = Returned agents ->
  agents <> []
  /\ Forall2 (fun id agent => registry !! id = Some agent) agentIds agents.
Proof.
  unfold validateAndGetAgents.
  destruct (validate_loop registry agentIds []) as [found|e] eqn:Hloop; [|discriminate].
  destruct found as [|agent found]; [discriminate|].
  cbn. intros [= <-]. split; [discriminate|].
  destruct (validate_loop_found _ _ _ _ Hloop) as (resolved & Heq & Hall).
  cbn in Heq. now subst resolved.
Qed.

Lemma validateAndGetAgents_registered registry agentIds :
  agentIds <> [] ->
  Forall (fun id => is_Some (registry !! id)) agentIds ->
  exists agents, validateAndGetAgents registry agentIds = Returned agents.
Proof.
  intros Hne Hall. unfold validateAndGetAgents.
  destruct (validate_loop_registered _ _ Hall []) as (resolved & -> & Hlen).
  cbn [app]. destruct resolved as [|agent resolved].
  - destruct agentIds; [congruence|discriminate].
  - eexists. reflexivity.
Qed.
End Registry.

(** C9. Whatever the topology asked for, [collaborate] throws when the id
    list is empty (["No valid agents provided"]) or names an id the registry
    lacks (["Agent not found: " + id]), and the call log is left as it was:
    no generator call is issued. *)
Theorem collaborate_rejects_bad_agents (gen : Gen.Generator)
    (self : Orchestrator.Orchestrator) (request : Orchestrator.CollaborationRequest.t)
    (elapsed : Q) (log : list Gen.Call) :
  let agentIds := Orchestrator.CollaborationRequest.agents request in
  let missing id := Orchestrator.agents self !! id = None in
  agentIds = [] \/ Exists missing agentIds ->
  exists error self',
    Orchestrator.collaborate gen self request elapsed log = (Gen.Threw error, self', log)
    /\ (Exists missing agentIds ->
        exists id, id ∈ agentIds /\ missing id
                   /\ error = Gen.ErrorObject ("Agent not found: " ++ id))
    /\ (agentIds = [] -> error = Gen.ErrorObject "No valid agents provided").
Proof.
  intros agentIds missing Hbad. unfold Orchestrator.collaborate, Gen.bind, Gen.lift.
  cbn [Orchestrator.agents Orchestrator.with_stats]. fold agentIds.
  destruct (decide (agentIds = [])) as [Hnil|Hne].
  - rewrite Hnil. cbn. eexists _, _. split; [reflexivity|]. split.
    + intros Hex. inversion Hex.
    + reflexivity.
  - destruct Hbad as [Hnil|Hex]; [contradiction|].
    destruct (validate_loop_missing _ _ Hex []) as (id & Hin & Hnone & Hrun).
    unfold Orchestrator.validateAndGetAgents. rewrite Hrun.
    eexists _, _. split; [reflexivity|]. split.
    + intros _. exists id. now repeat split.
    + contradiction.
Qed.

(** C9 on an unknown id and on an empty list: the log stays empty. *)
Lemma collaborate_rejects_bad_agents_witness :
  (exists self',
     Orchestrator.collaborate Scenario.every_call_fails Orchestrator.initialized
       (Orchestrator.CollaborationRequest.mk "Plan a launch" ["analyst"; "nobody"]
          Orchestrator.parallel) 12 []
     = (Gen.Threw (Gen.ErrorObject "Agent not found: nobody"), self', []))
  /\ (exists self',
     Orchestrator.collaborate Scenario.every_call_fails Orchestrator.initialized
       (Orchestrator.CollaborationRequest.mk "Plan a launch" [] Orchestrator.hierarchical)
       12 []
     = (Gen.Threw (Gen.ErrorObject "No valid agents provided"), self', [])).
Proof.
  split.
  - destruct (collaborate_rejects_bad_agents Scenario.every_call_fails
                Orchestrator.initialized
                (Orchestrator.CollaborationRequest.mk "Plan a launch" ["analyst"; "nobody"]
                   Orchestrator.parallel) 12 [])
      as (error & self' & Hrun & Hmissing & _).
    { right. apply Exists_cons_tl, Exists_cons_hd. reflexivity. }
    destruct Hmissing as (id & Hin & Hnone & ->).
    { apply Exists_cons_tl, Exists_cons_hd. reflexivity. }
    exists self'. rewrite Hrun.
    assert (id = "nobody") as ->; [|reflexivity].
    apply elem_of_cons in Hin as [->|Hin]; [discriminate Hnone|].
    apply elem_of_cons in Hin as [->|Hin]; [reflexivity|]. inversion Hin.
  - destruct (collaborate_rejects_bad_agents Scenario.every_call_fails
                Orchestrator.initialized
                (Orchestrator.CollaborationRequest.mk "Plan a launch" []
                   Orchestrator.hierarchical) 12 [] (or_introl eq_refl))
      as (error & self' & Hrun & _ & Hempty).
    exists self'. rewrite Hrun, (Hempty eq_refl). reflexivity.
Defined.

(** ** Parallel collaboration *)

Section Parallel.
Import Gen Orchestrator.
Variable gen : Generator.

Lemma parallel_branch_run task totalSteps index agent log :
  let call := agentCall agent (buildAgentPrompt agent task index totalSteps "parallel") in
  exists step,
    parallel_branch gen task totalSteps index agent log
      = (Returned step, (log ++ [call])%list)
    /\ CollaborationStep.step_number step = (index + 1)%nat
    /\ CollaborationStep.agent step = agent
    /\ CollaborationStep.input step = task
    /\ records (gen log call) step.
Proof.
  intros call. unfold parallel_branch, bind, attempt.
  rewrite executeAgentTask_run. fold call.
  destruct (gen log call) as [e|c]; eexists; (split; [reflexivity|]); cbn; auto.
Qed.

Lemma parallel_branches_run task totalSteps agents :
  forall i log,
  let calls := parallel_calls task totalSteps i agents in
  exists results,
    map_indexed (parallel_branch gen task totalSteps) i agents log
      = (Returned results, (log ++ calls)%list)
    /\ length results = length agents
    /\ forall k step, results !! k = Some step ->
         CollaborationStep.step_number step = (i + k + 1)%nat
         /\ agents !! k = Some (CollaborationStep.agent step)
         /\ CollaborationStep.input step = task
         /\ exists call, calls !! k = Some call
              /\ records (gen (log ++ take k calls)%list call) step.
Proof.
  induction agents as [|agent rest IH]; intros i log calls.
  - exists []. cbn. rewrite app_nil_r. split; [reflexivity|]. split; [reflexivity|].
    intros k step Hk. destruct k; discriminate.
  - cbn [map_indexed]. unfold bind.
    destruct (parallel_branch_run task totalSteps i agent log)
      as (first & Hfirst & Hnum & Hagent & Hinput & Hrec).
    rewrite Hfirst.
    destruct (IH (S i) (log ++ [agentCall agent
                 (buildAgentPrompt agent task i totalSteps "parallel")])%list)
      as (results & Hrest & Hlen & Hsteps).
    rewrite Hrest. exists (first :: results). unfold ret, calls.
    cbn [parallel_calls]. rewrite <- app_assoc. split; [reflexivity|].
    split; [cbn [length]; now rewrite Hlen|].
    intros k step Hk. destruct k as [|k].
    + injection Hk as <-. rewrite Hnum, Hagent, Hinput.
      repeat split; [f_equal; lia|].
      eexists. split; [reflexivity|]. cbn [take]. rewrite app_nil_r. exact Hrec.
    + destruct (Hsteps k step Hk) as (Hn & Ha & Hi & call & Hcall & Hr).
      rewrite Hn. repeat split; [lia|exact Ha|exact Hi|].
      exists call. split; [exact Hcall|].
      cbn [take]. rewrite <- app_assoc in Hr. exact Hr.
Qed.

Lemma synthesizeParallelResults_run task results log :
  let winners := List.filter CollaborationStep.success results in
  synthesizeParallelResults gen task results log
  = match winners with
    | [] => (Returned "All parallel tasks failed. Unable to synthesize results.", log)
    | _ :: _ =>
        (match gen log (parallelSynthesisCall task winners) with
         | Rejects e => Threw e
         | Resolves c => Returned (JS.or_else (content c) "Failed to synthesize results")
         end, (log ++ [parallelSynthesisCall task winners])%list)
    end.
Proof.
  intros winners. unfold synthesizeParallelResults. fold winners.
  destruct winners as [|winner winners']; [reflexivity|].
  cbn [length Nat.eqb]. unfold bind, create, ret.
  destruct (gen log _); reflexivity.
Qed.
End Parallel.

Lemma filter_all {A} (f : A -> bool) (l : list A) :
  Forall (fun x => f x = true) (List.filter f l).
Proof.
  induction l as [|x l IH]; [constructor|].
  cbn [List.filter]. destruct (f x) eqn:Hx; [now constructor|exact IH].
Qed.

Lemma forallb_no_winner {A} (f : A -> bool) (l : list A) :
  l <> [] -> List.filter f l = [] -> forallb f l = false.
Proof.
  destruct l as [|x l]; [congruence|]. intros _. cbn [List.filter forallb].
  destruct (f x); [discriminate|reflexivity].
Qed.

(** ** What a prompt contains *)

Section Includes.
Import JS.

Lemma append_cons (c : ascii) (s rest : string) :
  String c s ++ rest = String c (s ++ rest).
Proof. reflexivity. Qed.

Lemma append_nil (rest : string) : EmptyString ++ rest = rest.
Proof. reflexivity. Qed.

Lemma prefix_nil (s : string) : String.prefix EmptyString s = true.
Proof. now destruct s. Qed.

Lemma prefix_append (sub rest : string) : String.prefix sub (sub ++ rest) = true.
Proof.
  induction sub as [|c sub IH]; [apply prefix_nil|].
  rewrite append_cons. cbn [String.prefix].
  destruct (ascii_dec c c); [exact IH|congruence].
Qed.

Lemma prefix_keep (sub : string) :
  forall s rest, String.prefix sub s = true -> String.prefix sub (s ++ rest) = true.
Proof.
  induction sub as [|c sub IH]; intros s rest Hpre; [apply prefix_nil|].
  destruct s as [|d s]; [discriminate|]. rewrite append_cons.
  cbn [String.prefix] in Hpre |- *.
  destruct (ascii_dec c d); [now apply IH|discriminate].
Qed.

Lemma includes_prefix (sub s : string) :
  String.prefix sub s = true -> includes sub s = true.
Proof. intros Hpre. destruct s; cbn [includes]; now rewrite Hpre. Qed.

Lemma includes_here (sub rest : string) : includes sub (sub ++ rest) = true.
Proof. apply includes_prefix, prefix_append. Qed.

Lemma includes_refl (sub : string) : includes sub sub = true.
Proof.
  apply includes_prefix. induction sub as [|c sub IH]; [reflexivity|].
  cbn [String.prefix]. destruct (ascii_dec c c); [exact IH|congruence].
Qed.

Lemma includes_skip (sub before s : string) :
  includes sub s = true -> includes sub (before ++ s) = true.
Proof.
  intros Hs. induction before as [|c before IH]; [exact Hs|].
  rewrite append_cons. cbn [includes]. rewrite IH. apply orb_true_r.
Qed.

Lemma includes_keep (sub : string) :
  forall s rest, includes sub s = true -> includes sub (s ++ rest) = true.
Proof.
  induction s as [|c s IH]; intros rest Hs.
  - cbn [includes] in Hs. rewrite orb_false_r in Hs.
    destruct sub; [|discriminate]. apply includes_prefix, prefix_nil.
  - cbn [includes] in Hs. apply orb_prop in Hs as [Hpre|Hin].
    + apply includes_prefix. now apply prefix_keep.
    + rewrite append_cons. cbn [includes]. rewrite (IH rest Hin). apply orb_true_r.
Qed.

Lemma includes_join (sub sep : string) (parts : list string) (part : string) :
  part ∈ parts -> includes sub part = true -> includes sub (join sep parts) = true.
Proof.
  intros Hin Hpart. unfold join.
  induction parts as [|x [|y rest] IH].
  - inversion Hin.
  - apply list_elem_of_singleton in Hin as ->. exact Hpart.
  - change (String.concat sep (x :: y :: rest))
      with (x ++ sep ++ String.concat sep (y :: rest)).
    apply elem_of_cons in Hin as [->|Hin].
    + now apply includes_keep.
    + apply includes_skip, includes_skip. now apply IH.
Qed.
End Includes.

Lemma prompt_shows (task : string) (winners : list Orchestrator.CollaborationStep.t)
    (winner : Orchestrator.CollaborationStep.t) :
  winner ∈ winners ->
  let prompt := Orchestrator.parallelSynthesisPrompt task winners in
  JS.includes (shown winner) prompt = true
  /\ JS.includes (Orchestrator.CollaborationStep.output winner) prompt = true
  /\ JS.includes task prompt = true.
Proof.
  intros Hin prompt. unfold prompt, Orchestrator.parallelSynthesisPrompt.
  change (map _ winners) with (map shown winners).
  assert (Hpart : shown winner ∈ map shown winners).
  { apply list_elem_of_In, in_map, list_elem_of_In, Hin. }
  split; [|split].
  - do 9 apply includes_skip. apply includes_keep.
    apply (includes_join _ _ _ _ Hpart), includes_refl.
  - do 9 apply includes_skip. apply includes_keep.
    apply (includes_join _ _ _ _ Hpart). unfold shown.
    do 5 apply includes_skip. apply includes_refl.
  - do 4 apply includes_skip. apply includes_here.
Qed.

Lemma synthesis_with_winner (gen : Gen.Generator) (task : string)
    (results : list Orchestrator.CollaborationStep.t) (log : list Gen.Call) :
  let winners := List.filter Orchestrator.CollaborationStep.success results in
  winners <> [] ->
  Orchestrator.synthesizeParallelResults gen task results log
  = (match gen log (Orchestrator.parallelSynthesisCall task winners) with
     | Gen.Rejects error => Gen.Threw error
     | Gen.Resolves completion =>
         Gen.Returned (JS.or_else (Gen.content completion) "Failed to synthesize results")
     end, (log ++ [Orchestrator.parallelSynthesisCall task winners])%list).
Proof.
  intros winners Hsome. rewrite synthesizeParallelResults_run. fold winners.
  destruct winners; [congruence|reflexivity].
Qed.

(** C7. In a parallel collaboration with no successful branch no synthesis
    call is issued: the run returns the fixed text and [success] false after
    the branch calls only.  With a successful branch exactly one more call is
    issued after the branch calls.  Its prompt contains the task and, for
    every successful step, the agent's name and role followed by the output
    of the step; the call and what it returns are the same for any list of
    steps with these successful steps, so no failed branch has a part in it. *)
Theorem parallel_synthesis_policy (gen : Gen.Generator)
    (request : Orchestrator.CollaborationRequest.t) (agents : list Orchestrator.Agent)
    (log : list Gen.Call) :
  agents <> [] ->
  let task := Orchestrator.CollaborationRequest.task request in
  let calls := parallel_calls task (length agents) 0 agents in
  exists results,
    length results = length agents
    /\ (forall k step, results !! k = Some step ->
          exists call, calls !! k = Some call
            /\ records (gen (log ++ take k calls)%list call) step)
    /\ let winners := List.filter Orchestrator.CollaborationStep.success results in
       (winners = [] ->
          exists result,
            Orchestrator.parallelCollaboration gen request agents log
              = (Gen.Returned result, (log ++ calls)%list)
            /\ Orchestrator.CollaborationResult.steps result = results
            /\ Orchestrator.CollaborationResult.final_result result
               = "All parallel tasks failed. Unable to synthesize results."
            /\ Orchestrator.CollaborationResult.success result = false)
       /\ (winners <> [] ->
           exists synthesis outcome,
             Orchestrator.parallelCollaboration gen request agents log
               = (outcome, (log ++ calls ++ [synthesis])%list)
             /\ match gen (log ++ calls)%list synthesis with
                | Gen.Rejects error => outcome = Gen.Threw error
                | Gen.Resolves completion =>
                    exists result,
                      outcome = Gen.Returned result
                      /\ Orchestrator.CollaborationResult.steps result = results
                      /\ Orchestrator.CollaborationResult.final_result result
                         = JS.or_else (Gen.content completion)
                             "Failed to synthesize results"
                end
             /\ JS.includes task (Gen.user synthesis) = true
             /\ (forall step, step ∈ results ->
                   Orchestrator.CollaborationStep.success step = true ->
                   JS.includes (shown step) (Gen.user synthesis) = true
                   /\ JS.includes (Orchestrator.CollaborationStep.output step)
                        (Gen.user synthesis) = true)
             /\ (forall others,
                   List.filter Orchestrator.CollaborationStep.success others = winners ->
                   Orchestrator.synthesizeParallelResults gen task others
                     (log ++ calls)%list
                   = (match gen (log ++ calls)%list synthesis with
                      | Gen.Rejects error => Gen.Threw error
                      | Gen.Resolves completion =>
                          Gen.Returned
                            (JS.or_else (Gen.content completion)
                               "Failed to synthesize results")
                      end, (log ++ calls ++ [synthesis])%list))).
Proof.
  intros Hne task calls.
  destruct (parallel_branches_run gen task (length agents) agents 0 log)
    as (results & Hrun & Hlen & Hsteps).
  fold calls in Hrun, Hsteps.
  exists results. split; [exact Hlen|]. split.
  { intros k step Hk. destruct (Hsteps k step Hk) as (_ & _ & _ & Hcall). exact Hcall. }
  intros winners. split.
  - intros Hnone.
    unfold Orchestrator.parallelCollaboration, Gen.bind. fold task. rewrite Hrun.
    rewrite synthesizeParallelResults_run. fold winners.
    rewrite Hnone. eexists. split; [reflexivity|].
    cbn. repeat split. apply forallb_no_winner; [|exact Hnone].
    destruct results; [|discriminate]. destruct agents; [congruence|discriminate].
  - intros Hsome.
    set (synthesis := Orchestrator.parallelSynthesisCall task winners).
    pose proof (synthesis_with_winner gen task results (log ++ calls)%list Hsome)
      as Hsynthesis.
    fold winners synthesis in Hsynthesis. rewrite <- app_assoc in Hsynthesis.
    exists synthesis.
    exists (match gen (log ++ calls)%list synthesis with
            | Gen.Rejects error => Gen.Threw error
            | Gen.Resolves completion =>
                Gen.Returned
                  {| Orchestrator.CollaborationResult.task := task;
                     Orchestrator.CollaborationResult.type_ := "parallel";
                     Orchestrator.CollaborationResult.agents_used := agents;
                     Orchestrator.CollaborationResult.steps := results;
                     Orchestrator.CollaborationResult.final_result :=
                       JS.or_else (Gen.content completion) "Failed to synthesize results";
                     Orchestrator.CollaborationResult.execution_time := 0;
                     Orchestrator.CollaborationResult.success :=
                       forallb Orchestrator.CollaborationStep.success results |}
            end).
    split; [|split; [|split; [|split]]].
    + unfold Orchestrator.parallelCollaboration, Gen.bind. fold task.
      rewrite Hrun, Hsynthesis.
      destruct (gen (log ++ calls)%list synthesis); reflexivity.
    + destruct (gen (log ++ calls)%list synthesis) as [e|c]; [reflexivity|].
      eexists. repeat split.
    + destruct winners as [|winner rest] eqn:Hw; [congruence|].
      assert (Hin : winner ∈ winner :: rest) by apply list_elem_of_here.
      exact (proj2 (proj2 (prompt_shows task (winner :: rest) winner Hin))).
    + intros step Hin Hok.
      assert (Hwin : step ∈ winners).
      { apply list_elem_of_In, filter_In. split; [now apply list_elem_of_In|exact Hok]. }
      destruct (prompt_shows task winners step Hwin) as (Hshown & Houtput & _).
      split; [exact Hshown|exact Houtput].
    + intros others Hothers.
      pose proof (synthesis_with_winner gen task others (log ++ calls)%list) as Hsame.
      cbv zeta in Hsame. rewrite Hothers in Hsame. fold synthesis in Hsame.
      rewrite <- app_assoc in Hsame. exact (Hsame Hsome).
Qed.

(** C7 when every branch fails (three calls, no synthesis call) and when the
    second of three branches fails: four calls, and the prompt of the last
    one contains both successful outputs. *)
Lemma parallel_synthesis_policy_witness :
  (exists result log',
     Orchestrator.parallelCollaboration Scenario.every_call_fails
       (Scenario.launch Orchestrator.parallel)
       [Scenario.analyst; Scenario.creative; Scenario.technical] []
       = (Gen.Returned result, log')
     /\ length log' = 3%nat
     /\ Orchestrator.CollaborationResult.final_result result
        = "All parallel tasks failed. Unable to synthesize results."
     /\ Orchestrator.CollaborationResult.success result = false)
  /\ (exists result log' synthesis,
        Orchestrator.parallelCollaboration Scenario.second_call_fails
          (Scenario.launch Orchestrator.parallel)
          [Scenario.analyst; Scenario.creative; Scenario.technical] []
          = (Gen.Returned result, log')
        /\ length log' = 4%nat
        /\ last log' = Some synthesis
        /\ JS.includes "draft from the analyst" (Gen.user synthesis) = true
        /\ JS.includes "later" (Gen.user synthesis) = true).
Proof.
  split.
  - destruct (parallel_synthesis_policy Scenario.every_call_fails
                (Scenario.launch Orchestrator.parallel)
                [Scenario.analyst; Scenario.creative; Scenario.technical] []
                ltac:(discriminate))
      as (results & Hlen & Hrec & Hnone & _).
    destruct Hnone as (result & Hrun & _ & Hfinal & Hsuccess).
    { apply filter_none, Forall_lookup. intros k step Hk.
      destruct (Hrec k step Hk) as (call & _ & Hfailed). exact (proj1 Hfailed). }
    exists result. eexists. split; [exact Hrun|]. split; [reflexivity|]. now split.
  - destruct (parallel_synthesis_policy Scenario.second_call_fails
                (Scenario.launch Orchestrator.parallel)
                [Scenario.analyst; Scenario.creative; Scenario.technical] []
                ltac:(discriminate))
      as (results & Hlen & Hrec & _ & Hsome).
    destruct results as [|first [|second [|third [|fourth rest]]]]; try discriminate Hlen.
    destruct (Hrec 0%nat first eq_refl) as (call0 & _ & Hfirst).
    change (records (Scenario.text "draft from the analyst") first) in Hfirst.
    destruct (Hrec 2%nat third eq_refl) as (call2 & _ & Hthird).
    change (records (Scenario.text "later") third) in Hthird.
    destruct Hfirst as [Hok1 Hout1]. destruct Hthird as [Hok3 Hout3].
    destruct Hsome as (synthesis & outcome & Hrun & Houtcome & _ & Hshows & _).
    { cbn [List.filter]. rewrite Hok1. discriminate. }
    change (match Scenario.text "later" with
            | Gen.Rejects error => outcome = Gen.Threw error
            | Gen.Resolves completion =>
                exists result,
                  outcome = Gen.Returned result
                  /\ Orchestrator.CollaborationResult.steps result = [first; second; third]
                  /\ Orchestrator.CollaborationResult.final_result result
                     = JS.or_else (Gen.content completion) "Failed to synthesize results"
            end) in Houtcome.
    destruct Houtcome as (result & -> & _).
    exists result. eexists. exists synthesis. split; [exact Hrun|].
    split; [reflexivity|]. split; [reflexivity|].
    destruct (Hshows first ltac:(apply list_elem_of_here) Hok1) as [_ Hin1].
    destruct (Hshows third ltac:(do 2 apply list_elem_of_further; apply list_elem_of_here) Hok3)
      as [_ Hin3].
    rewrite Hout1 in Hin1. rewrite Hout3 in Hin3. split; [exact Hin1|exact Hin3].
Defined.

(** On that run the error text of the failed branch is not in the prompt. *)
Example failed_output_left_out :
  match Orchestrator.parallelCollaboration Scenario.second_call_fails
          (Scenario.launch Orchestrator.parallel)
          [Scenario.analyst; Scenario.creative; Scenario.technical] [] with
  | (_, log') =>
      match last log' with
      | Some synthesis =>
          JS.includes "draft from the analyst" (Gen.user synthesis)
          && negb (JS.includes "rate limit exceeded" (Gen.user synthesis))
          && negb (JS.includes "Error:" (Gen.user synthesis))
      | None => false
      end
  end = true.
Proof. vm_compute. reflexivity. Qed.

(** C2. A parallel collaboration over a non-empty list of registered ids
    returns unless its synthesis call is rejected; the returned trace has one
    step per requested id, numbered [i + 1] in the order of the request and
    carrying the agent of that id, and the overall [success] is the
    conjunction of the steps' flags. *)
Theorem parallel_one_step_per_agent (gen : Gen.Generator)
    (self : Orchestrator.Orchestrator) (request : Orchestrator.CollaborationRequest.t)
    (elapsed : Q) (log : list Gen.Call) :
  let agentIds := Orchestrator.CollaborationRequest.agents request in
  Orchestrator.CollaborationRequest.type_ request = Orchestrator.parallel ->
  agentIds <> [] ->
  Forall (fun id => is_Some (Orchestrator.agents self !! id)) agentIds ->
  match Orchestrator.collaborate gen self request elapsed log with
  | (Gen.Returned result, _, _) =>
      let steps := Orchestrator.CollaborationResult.steps result in
      length steps = length agentIds
      /\ (forall i step, steps !! i = Some step ->
            Orchestrator.CollaborationStep.step_number step = (i + 1)%nat
            /\ exists id, agentIds !! i = Some id
                 /\ Orchestrator.agents self !! id
                    = Some (Orchestrator.CollaborationStep.agent step))
      /\ Orchestrator.CollaborationResult.success result
         = forallb Orchestrator.CollaborationStep.success steps
  | (Gen.Threw error, _, log') =>
      exists before winners,
        log' = (before ++ [Orchestrator.parallelSynthesisCall
                             (Orchestrator.CollaborationRequest.task request) winners])%list
        /\ gen before (Orchestrator.parallelSynthesisCall
                         (Orchestrator.CollaborationRequest.task request) winners)
           = Gen.Rejects error
  end.
Proof.
  intros agentIds Htype Hne Hall.
  unfold Orchestrator.collaborate, Gen.bind, Gen.lift.
  cbn [Orchestrator.agents Orchestrator.with_stats]. fold agentIds. rewrite Htype.
  destruct (validateAndGetAgents_registered _ _ Hne Hall) as (agents & Hvalid).
  rewrite Hvalid.
  destruct (validateAndGetAgents_found _ _ _ Hvalid) as (Hagents & Hresolved).
  unfold Orchestrator.parallelCollaboration, Gen.bind.
  destruct (parallel_branches_run gen (Orchestrator.CollaborationRequest.task request)
              (length agents) agents 0 log) as (results & Hrun & Hlen & Hsteps).
  rewrite Hrun, synthesizeParallelResults_run.
  destruct (List.filter Orchestrator.CollaborationStep.success results)
    as [|winner winners] eqn:Hw.
  - cbn. split; [rewrite Hlen; symmetry; exact (Forall2_length _ _ _ Hresolved)|].
    split; [|reflexivity].
    intros i step Hi. destruct (Hsteps i step Hi) as (Hn & Ha & _).
    split; [exact Hn|].
    destruct (Forall2_lookup_r _ _ _ _ _ Hresolved Ha) as (id & Hid & Hreg).
    exists id. now split.
  - destruct (gen _ _) as [e|c] eqn:Hreply.
    + cbn. eexists _, _. split; [reflexivity|exact Hreply].
    + cbn. split; [rewrite Hlen; symmetry; exact (Forall2_length _ _ _ Hresolved)|].
      split; [|reflexivity].
      intros i step Hi. destruct (Hsteps i step Hi) as (Hn & Ha & _).
      split; [exact Hn|].
      destruct (Forall2_lookup_r _ _ _ _ _ Hresolved Ha) as (id & Hid & Hreg).
      exists id. now split.
Qed.

(** C2 on three registered agents, the second of which fails: three steps
    and an overall failure. *)
Lemma parallel_one_step_per_agent_witness :
  exists result self' log',
    Orchestrator.collaborate Scenario.second_call_fails Orchestrator.initialized
      (Scenario.launch Orchestrator.parallel) 12 [] = (Gen.Returned result, self', log')
    /\ length (Orchestrator.CollaborationResult.steps result) = 3%nat
    /\ Orchestrator.CollaborationResult.success result = false.
Proof.
  pose proof (parallel_one_step_per_agent Scenario.second_call_fails
                Orchestrator.initialized (Scenario.launch Orchestrator.parallel) 12 []
                eq_refl ltac:(discriminate)
                ltac:(repeat constructor; eexists; vm_compute; reflexivity)) as H.
  destruct (Orchestrator.collaborate Scenario.second_call_fails Orchestrator.initialized
              (Scenario.launch Orchestrator.parallel) 12 [])
    as [[[result|error] self'] log'] eqn:Hrun.
  - exists result, self', log'. split; [reflexivity|].
    destruct H as (Hlen & _ & Hsuccess). split; [exact Hlen|].
    rewrite Hsuccess. vm_compute in Hrun. injection Hrun as <- _ _. reflexivity.
  - vm_compute in Hrun. discriminate Hrun.
Defined.

(** ** Hierarchical collaboration *)

Section Hierarchical.
Import Gen Orchestrator.
Variable gen : Generator.

Lemma subtask_lines_unmarked lines :
  Forall (fun line => JS.includes "SUBTASK" (JS.toUpperCase line) = false) lines ->
  subtask_lines lines = [].
Proof.
  induction 1 as [|line lines Hline _ IH]; [reflexivity|].
  cbn [subtask_lines]. now rewrite Hline.
Qed.

Lemma unmarked_check breakdown :
  forallb (fun line => negb (JS.includes "SUBTASK" (JS.toUpperCase line)))
    (JS.split JS.nl breakdown) = true ->
  unmarked breakdown.
Proof.
  unfold unmarked. induction (JS.split JS.nl breakdown) as [|line lines IH]; [constructor|].
  cbn [forallb]. intros [Hline Hrest]%andb_prop. constructor; [|exact (IH Hrest)].
  now apply negb_true_iff.
Qed.

Lemma parseSubtasks_fallback breakdown :
  unmarked breakdown -> parseSubtasks breakdown = take 3 (long_paragraphs breakdown).
Proof.
  intros Hno. unfold parseSubtasks. now rewrite (subtask_lines_unmarked _ Hno).
Qed.

Lemma worker_branch_run task index subtask worker log :
  let call := agentCall worker (buildWorkerPrompt worker subtask task) in
  exists step,
    worker_branch gen task index (subtask, worker) log
      = (Returned step, (log ++ [call])%list)
    /\ CollaborationStep.step_number step = (index + 2)%nat
    /\ CollaborationStep.agent step = worker
    /\ CollaborationStep.input step = subtask
    /\ records (gen log call) step.
Proof.
  intros call. unfold worker_branch, bind, attempt.
  rewrite executeAgentTask_run. fold call.
  destruct (gen log call) as [e|c]; eexists; (split; [reflexivity|]); cbn; auto.
Qed.
End Hierarchical.

(** C4 (amended). With a leader and two workers, when the leader's breakdown
    has no SUBTASK line and exactly two of its paragraphs are longer than 50
    characters once trimmed, the fallback parse yields these two paragraphs
    (the first three such paragraphs in general) and they are sent, in order,
    as the subtasks of the first and of the second worker, recorded as the
    inputs of steps 2 and 3. *)
Theorem hierarchical_fallback_dispatch (gen : Gen.Generator)
    (request : Orchestrator.CollaborationRequest.t)
    (leader worker0 worker1 : Orchestrator.Agent) (log : list Gen.Call)
    (completion : Gen.Completion) (paragraph0 paragraph1 : string) :
  let task := Orchestrator.CollaborationRequest.task request in
  let leaderCall :=
    Orchestrator.agentCall leader
      (Orchestrator.buildLeaderPrompt leader task [worker0; worker1]) in
  let breakdown := JS.or_else (Gen.content completion) EmptyString in
  gen log leaderCall = Gen.Resolves completion ->
  unmarked breakdown ->
  long_paragraphs breakdown = [paragraph0; paragraph1] ->
  let call0 :=
    Orchestrator.agentCall worker0 (Orchestrator.buildWorkerPrompt worker0 paragraph0 task) in
  let call1 :=
    Orchestrator.agentCall worker1 (Orchestrator.buildWorkerPrompt worker1 paragraph1 task) in
  Orchestrator.parseSubtasks breakdown = [paragraph0; paragraph1]
  /\ (forall text, unmarked text ->
        Orchestrator.parseSubtasks text = take 3 (long_paragraphs text))
  /\ exists outcome step0 step1,
       Orchestrator.hierarchicalCollaboration gen request [leader; worker0; worker1] log
         = (outcome,
            (log ++ [leaderCall; call0; call1;
                     Orchestrator.hierarchicalSynthesisCall task breakdown [step0; step1]])%list)
       /\ Orchestrator.CollaborationStep.agent step0 = worker0
       /\ Orchestrator.CollaborationStep.input step0 = paragraph0
       /\ Orchestrator.CollaborationStep.step_number step0 = 2%nat
       /\ records (gen (log ++ [leaderCall])%list call0) step0
       /\ Orchestrator.CollaborationStep.agent step1 = worker1
       /\ Orchestrator.CollaborationStep.input step1 = paragraph1
       /\ Orchestrator.CollaborationStep.step_number step1 = 3%nat
       /\ records (gen (log ++ [leaderCall; call0])%list call1) step1
       /\ forall result, outcome = Gen.Returned result ->
            exists first final,
              Orchestrator.CollaborationResult.steps result = [first; step0; step1; final].
Proof.
  intros task leaderCall breakdown Hleader Hno Hlong call0 call1.
  assert (Hparse : Orchestrator.parseSubtasks breakdown = [paragraph0; paragraph1]).
  { rewrite (parseSubtasks_fallback _ Hno), Hlong. reflexivity. }
  split; [exact Hparse|]. split; [exact parseSubtasks_fallback|].
  unfold Orchestrator.hierarchicalCollaboration, Gen.bind.
  rewrite executeAgentTask_run. fold task leaderCall. rewrite Hleader.
  fold breakdown. rewrite Hparse.
  cbn [length take zip zip_with Gen.map_indexed]. unfold Gen.bind.
  destruct (worker_branch_run gen task 0 paragraph0 worker0 (log ++ [leaderCall])%list)
    as (step0 & Hrun0 & Hnum0 & Hagent0 & Hinput0 & Hrec0).
  fold call0 in Hrun0, Hrec0. rewrite Hrun0.
  destruct (worker_branch_run gen task 1 paragraph1 worker1
              ((log ++ [leaderCall]) ++ [call0])%list)
    as (step1 & Hrun1 & Hnum1 & Hagent1 & Hinput1 & Hrec1).
  fold call1 in Hrun1, Hrec1. rewrite Hrun1.
  unfold Gen.ret, Orchestrator.synthesizeHierarchicalResults, Gen.bind, Gen.create.
  rewrite <- !app_assoc in *. cbn [app] in *.
  destruct (gen _ (Orchestrator.hierarchicalSynthesisCall task breakdown [step0; step1]))
    as [e|c]; eexists _, step0, step1; (split; [reflexivity|]);
    repeat (split; [assumption|]); intros result Hout.
  - discriminate.
  - injection Hout as <-. eexists _, _. reflexivity.
Qed.

(** The amended C4 on a breakdown of two paragraphs of 51 characters. *)
Lemma hierarchical_fallback_dispatch_witness :
  let breakdown := Scenario.two_paragraphs "!" in
  exists result log',
    Orchestrator.hierarchicalCollaboration (Scenario.leader_writes breakdown)
      (Scenario.launch Orchestrator.hierarchical)
      [Scenario.analyst; Scenario.creative; Scenario.technical] []
      = (Gen.Returned result, log')
    /\ length log' = 4%nat
    /\ map Orchestrator.CollaborationStep.input (Orchestrator.CollaborationResult.steps result)
       = ["Plan a launch"; Scenario.fifty_a ++ "!"; Scenario.fifty_b ++ "!";
          "Synthesis of worker results"].
Proof.
  intros breakdown.
  destruct (hierarchical_fallback_dispatch (Scenario.leader_writes breakdown)
              (Scenario.launch Orchestrator.hierarchical)
              Scenario.analyst Scenario.creative Scenario.technical []
              {| Gen.content := Some breakdown; Gen.total_tokens := Some 10%nat |}
              (Scenario.fifty_a ++ "!") (Scenario.fifty_b ++ "!")
              eq_refl (unmarked_check breakdown ltac:(vm_compute; reflexivity)) ltac:(vm_compute; reflexivity))
    as (_ & _ & outcome & step0 & step1 & Hrun & _).
  destruct outcome as [result|error].
  - exists result. eexists. split; [exact Hrun|]. split; [reflexivity|].
    vm_compute in Hrun. injection Hrun as <- _. reflexivity.
  - vm_compute in Hrun. discriminate Hrun.
Defined.


(** C4 as stated fails: two paragraphs of exactly 50 characters are at least
    50 characters long, yet the parse keeps neither and no worker is called. *)
Lemma hierarchical_fifty_counterexample :
  let breakdown := Scenario.two_paragraphs EmptyString in
  JS.split (JS.nl ++ JS.nl) breakdown = [Scenario.fifty_a; Scenario.fifty_b]
  /\ String.length Scenario.fifty_a = 50%nat
  /\ String.length Scenario.fifty_b = 50%nat
  /\ unmarked breakdown
  /\ Orchestrator.parseSubtasks breakdown = []
  /\ match
       Orchestrator.hierarchicalCollaboration (Scenario.leader_writes breakdown)
         (Scenario.launch Orchestrator.hierarchical)
         [Scenario.analyst; Scenario.creative; Scenario.technical] []
     with
     | (Gen.Returned result, log') =>
         length log' = 2%nat
         /\ map Orchestrator.CollaborationStep.input
              (Orchestrator.CollaborationResult.steps result)
            = ["Plan a launch"; "Synthesis of worker results"]
     | (Gen.Threw _, _) => False
     end.
Proof.
  intros breakdown.
  split; [vm_compute; reflexivity|]. split; [reflexivity|]. split; [reflexivity|].
  split; [apply unmarked_check; vm_compute; reflexivity|].
  split; [vm_compute; reflexivity|].
  vm_compute. split; reflexivity.
Qed.

(** ** The thought/action/observation loop *)

Section React.
Import Gen Reasoning.
Variable gen : Generator.

Lemma executeAction_nonempty action input :
  JS.is_empty (executeAction action input) = false.
Proof.
  unfold executeAction.
  repeat match goal with |- context [if ?b then _ else _] => destruct b end;
    reflexivity.
Qed.

Lemma react_loop_run remaining :
  forall iteration currentInput reasoning totalTokens log out totalTokens' log',
  react_loop gen remaining iteration currentInput reasoning totalTokens log
    = (Returned (out, totalTokens'), log') ->
  exists new,
    out = (reasoning ++ new)%list
    /\ (length new <= remaining)%nat
    /\ (0 < remaining -> 0 < length new)%nat
    /\ length log' = (length log + 2 * length new)%nat
    /\ well_formed iteration new
    /\ ((length new < remaining)%nat ->
        exists final, last new = Some final /\ chose_answer final = true).
Proof.
  induction remaining as [|remaining IH];
    intros iteration currentInput reasoning totalTokens log out totalTokens' log' Hrun.
  - cbn in Hrun. injection Hrun as <- _ <-. exists [].
    rewrite app_nil_r. split; [reflexivity|]. split; [cbn; lia|]. split; [lia|].
    split; [cbn; lia|]. split; [|cbn; lia].
    intros k step Hk. destruct k; discriminate.
  - cbn [react_loop] in Hrun. unfold bind, create in Hrun.
    destruct (gen log _) as [e|thoughtCompletion]; [discriminate|].
    cbv zeta in Hrun.
    destruct (gen (log ++ _)%list _) as [e|actionCompletion]; [discriminate|].
    set (action := completion_text actionCompletion) in *.
    set (step := {| step_number := S iteration; step_type := "react";
                    thought := completion_text thoughtCompletion;
                    action := Some action;
                    observation := Some (executeAction action currentInput);
                    confidence := 0.8 |}) in *.
    destruct (JS.includes "ANSWER" (JS.toUpperCase action)) eqn:Hanswer.
    + injection Hrun as <- _ <-. exists [step].
      split; [reflexivity|]. split; [cbn; lia|]. split; [cbn; lia|].
      split; [rewrite !length_app; cbn; lia|]. split.
      * intros k st Hk. destruct k as [|k]; [|destruct k; discriminate].
        injection Hk as <-. split; [cbn; lia|]. split.
        -- eexists. split; [reflexivity|apply executeAction_nonempty].
        -- cbn. lia.
      * intros _. exists step. split; [reflexivity|exact Hanswer].
    + apply IH in Hrun as (new & -> & Hle & _ & Hlog & Hwf & Hfinal).
      exists (step :: new). rewrite <- app_assoc.
      split; [reflexivity|]. split; [cbn; lia|]. split; [cbn; lia|].
      split; [rewrite Hlog, !length_app; cbn; lia|]. split.
      * intros k st Hk. destruct k as [|k].
        -- injection Hk as <-. split; [cbn; lia|]. split.
           ++ eexists. split; [reflexivity|apply executeAction_nonempty].
           ++ intros _. exact Hanswer.
        -- destruct (Hwf k st Hk) as (Hn & Hobs & Hnot).
           split; [lia|]. split; [exact Hobs|]. cbn [length]. intros Hlt. apply Hnot. lia.
      * cbn [length]. intros Hlt. destruct Hfinal as (final & Hlast & Hans); [lia|].
        exists final. split; [|exact Hans].
        destruct new as [|next rest]; [discriminate|exact Hlast].
Qed.

Lemma react_loop_returns remaining :
  (forall history call, exists completion, gen history call = Resolves completion) ->
  forall iteration currentInput reasoning totalTokens log,
  exists out log',
    react_loop gen remaining iteration currentInput reasoning totalTokens log
      = (Returned out, log').
Proof.
  intros Halways.
  induction remaining as [|remaining IH];
    intros iteration currentInput reasoning totalTokens log.
  - eexists _, _. reflexivity.
  - cbn [react_loop]. unfold bind, create.
    match goal with |- context [gen log ?c] =>
      destruct (Halways log c) as (thoughtCompletion & ->) end.
    cbv zeta.
    match goal with |- context [gen (log ++ ?l)%list ?c] =>
      destruct (Halways (log ++ l)%list c) as (actionCompletion & ->) end.
    destruct (JS.includes "ANSWER" _).
    + eexists _, _. reflexivity.
    + apply IH.
Qed.
End React.

(** C8. When the thought/action/observation loop returns it has recorded
    between one and five steps with two generator calls each; no step but the
    last one chose ANSWER, a run of fewer than five steps ends on a step that
    chose ANSWER, and the response is the observation of the last step.  The
    loop returns whenever the generator resolves every call. *)
Theorem react_at_most_five_iterations (gen : Gen.Generator)
    (request : Reasoning.ReasoningRequest) (log : list Gen.Call) :
  (forall result log',
     Reasoning.reactMethodology gen request log = (Gen.Returned result, log') ->
     let steps := Reasoning.reasoning result in
     (1 <= length steps <= 5)%nat
     /\ length log' = (length log + 2 * length steps)%nat
     /\ (forall k step, steps !! k = Some step ->
           Reasoning.step_number step = (k + 1)%nat
           /\ ((S k < length steps)%nat -> chose_answer step = false))
     /\ ((length steps < 5)%nat ->
         exists final, last steps = Some final /\ chose_answer final = true)
     /\ exists final,
          last steps = Some final
          /\ Reasoning.observation final = Some (Reasoning.response result))
  /\ ((forall history call, exists completion, gen history call = Gen.Resolves completion) ->
      exists result log',
        Reasoning.reactMethodology gen request log = (Gen.Returned result, log')).
Proof.
  split.
  - intros result log' Hrun steps. unfold Reasoning.reactMethodology, Gen.bind in Hrun.
    destruct (Reasoning.react_loop gen _ _ _ _ _ log) as [[[out tokens]|e] log1] eqn:Hloop;
      [|discriminate].
    injection Hrun as <- <-.
    apply react_loop_run in Hloop as (new & Hout & Hle & Hpos & Hlog & Hwf & Hfinal).
    cbn [app] in Hout. subst out. unfold steps. cbn [Reasoning.reasoning Reasoning.response].
    change (Reasoning.maxIterations - 0)%nat with 5%nat in *.
    split; [split; [apply Hpos|]; lia|]. split; [exact Hlog|]. split; [|split].
    + intros k step Hk. destruct (Hwf k step Hk) as (Hn & _ & Hnot). split; [exact Hn|exact Hnot].
    + exact Hfinal.
    + destruct (last new) as [final|] eqn:Hlast.
      * exists final. split; [reflexivity|].
        assert (Hk : new !! (length new - 1)%nat = Some final).
        { rewrite <- Hlast. symmetry. rewrite last_lookup. f_equal. lia. }
        destruct (Hwf _ _ Hk) as (_ & (observed & Hobs & Hfull) & _).
        unfold JS.last_elem. rewrite Hlast. cbn. rewrite Hobs. cbn.
        unfold JS.or_else. now rewrite Hfull.
      * apply last_None in Hlast. subst new. cbn in Hpos. lia.
  - intros Halways. unfold Reasoning.reactMethodology, Gen.bind.
    destruct (react_loop_returns gen (Reasoning.maxIterations - 0) Halways 0
                (Reasoning.input request) [] 0%nat log) as ([out tokens] & log' & ->).
    eexists _, _. reflexivity.
Qed.

(** C8 on a generator that chooses ANSWER at its fourth call: the loop ends
    after two iterations. *)
Lemma react_at_most_five_iterations_witness :
  exists result log',
    Reasoning.reactMethodology (Scenario.answers_after 3) Scenario.question []
      = (Gen.Returned result, log')
    /\ (1 <= length (Reasoning.reasoning result) <= 5)%nat
    /\ length log' = 4%nat
    /\ Reasoning.response result = "Final answer based on previous reasoning steps.".
Proof.
  pose proof (react_at_most_five_iterations (Scenario.answers_after 3)
                Scenario.question []) as [Hbound Hreturns].
  destruct Hreturns as (result & log' & Hrun).
  { intros history call. unfold Scenario.answers_after.
    destruct (_ <? _)%nat; eexists; reflexivity. }
  exists result, log'. split; [exact Hrun|].
  destruct (Hbound result log' Hrun) as (Hlen & _).
  split; [exact Hlen|].
  vm_compute in Hrun. injection Hrun as <- <-. split; reflexivity.
Defined.

(** * Further properties *)

(** ** The memory system in fallback mode *)

Section MemoryStore.
Import Memory.

Lemma store_get_set_eq key value store :
  store_get key (store_set key value store) = Some value.
Proof.
  induction store as [|[k v] rest IH]; cbn.
  - now rewrite String.eqb_refl.
  - destruct (String.eqb key k) eqn:Hk; cbn; rewrite Hk; [reflexivity|exact IH].
Qed.

Lemma store_get_set_ne key other value store :
  other <> key -> store_get other (store_set key value store) = store_get other store.
Proof.
  intros Hne. induction store as [|[k v] rest IH]; cbn.
  - apply String.eqb_neq in Hne. now rewrite Hne.
  - destruct (String.eqb key k) eqn:Hk; cbn.
    + apply String.eqb_eq in Hk. subst k.
      apply String.eqb_neq in Hne. now rewrite Hne.
    + destruct (String.eqb other k); [reflexivity|exact IH].
Qed.

Lemma store_keys_set key value store :
  store_keys (store_set key value store)
  = if bool_decide (key ∈ store_keys store) then store_keys store
    else (store_keys store ++ [key])%list.
Proof.
  unfold store_keys. induction store as [|[k v] rest IH]; cbn; [reflexivity|].
  destruct (String.eqb key k) eqn:Hk; cbn.
  - apply String.eqb_eq in Hk. subst k.
    rewrite bool_decide_eq_true_2; [reflexivity|apply list_elem_of_here].
  - apply String.eqb_neq in Hk. rewrite IH.
    destruct (bool_decide (key ∈ map fst rest)) eqn:Hin.
    + apply bool_decide_eq_true_1 in Hin.
      rewrite bool_decide_eq_true_2; [reflexivity|now apply list_elem_of_further].
    + apply bool_decide_eq_false_1 in Hin.
      rewrite bool_decide_eq_false_2; [reflexivity|].
      intros [?|?]%elem_of_cons; [congruence|contradiction].
Qed.

Lemma store_set_NoDup key value store :
  NoDup (store_keys store) -> NoDup (store_keys (store_set key value store)).
Proof.
  intros Hnd. rewrite store_keys_set. case_bool_decide as Hin; [exact Hnd|].
  apply NoDup_app. split; [exact Hnd|]. split.
  - intros k Hk ->%list_elem_of_singleton. contradiction.
  - apply NoDup_singleton.
Qed.

Lemma store_set_length key value store :
  (length (store_set key value store) <= S (length store))%nat.
Proof.
  induction store as [|[k v] rest IH]; cbn; [lia|].
  destruct (String.eqb key k); cbn; lia.
Qed.

Lemma store_set_Forall (P : string * MemoryContext -> Prop) key value store :
  P (key, value) -> Forall P store -> Forall P (store_set key value store).
Proof.
  intros Hnew. induction 1 as [|[k v] rest Hkv Hrest IH]; cbn.
  - now constructor.
  - destruct (String.eqb key k) eqn:Hk.
    + apply String.eqb_eq in Hk. subst k. now constructor.
    + now constructor.
Qed.

Lemma store_get_elem key value store :
  store_get key store = Some value -> (key, value) ∈ store.
Proof.
  induction store as [|[k v] rest IH]; cbn; [discriminate|].
  destruct (String.eqb key k) eqn:Hk.
  - apply String.eqb_eq in Hk. intros [= ->]. subst. apply list_elem_of_here.
  - intros H. apply list_elem_of_further, IH, H.
Qed.

Lemma store_get_NoDup key value store :
  NoDup (store_keys store) -> (key, value) ∈ store -> store_get key store = Some value.
Proof.
  induction store as [|[k v] rest IH]; cbn; intros Hnd Hin.
  - inversion Hin.
  - apply NoDup_cons in Hnd as [Hk Hnd].
    apply elem_of_cons in Hin as [[= -> ->]|Hin].
    + now rewrite String.eqb_refl.
    + destruct (String.eqb key k) eqn:Hkey; [|now apply IH].
      apply String.eqb_eq in Hkey. subst k. exfalso. apply Hk.
      unfold store_keys. apply list_elem_of_fmap. now exists (key, value).
Qed.

Lemma store_delete_filter key store :
  NoDup (store_keys store) ->
  store_delete key store = List.filter (fun entry => negb (String.eqb key entry.1)) store.
Proof.
  induction store as [|[k v] rest IH]; cbn; intros Hnd; [reflexivity|].
  apply NoDup_cons in Hnd as [Hk Hnd].
  destruct (String.eqb key k) eqn:Hkey; cbn.
  - apply String.eqb_eq in Hkey. subst k.
    symmetry. rewrite <- (List.filter_ext_in (fun _ => true)).
    + clear. induction rest as [|e rest IH]; cbn; [reflexivity|now rewrite IH].
    + intros [k' v'] Hin. cbn. symmetry. apply negb_true_iff, String.eqb_neq.
      intros ->. apply Hk. unfold store_keys.
      apply (list_elem_of_fmap_2 fst _ (k', v')). now apply list_elem_of_In.
  - now rewrite IH.
Qed.
End MemoryStore.

Section MemoryProperties.
Import Memory.
Local Open Scope Q_scope.

Lemma calculateImportance_bounds context :
  0.3 <= calculateImportance context /\ calculateImportance context <= 1.
Proof.
  unfold calculateImportance.
  destruct (type_ context), (content context) as [s|properties], (tags context) as [own|];
    cbv zeta;
    repeat match goal with |- context [if ?b then _ else _] => destruct b end;
    split; vm_compute; discriminate.
Qed.

Lemma importance_or_calculated_nonzero context :
  ~ importance_or_calculated context == 0.
Proof.
  unfold importance_or_calculated.
  assert (Hcalc : ~ calculateImportance context == 0).
  { intros H. pose proof (proj1 (calculateImportance_bounds context)) as Hlow.
    rewrite H in Hlow. vm_compute in Hlow. now apply Hlow. }
  destruct (importance context) as [given|]; [|exact Hcalc].
  destruct (Qeq_bool given 0) eqn:Hzero; [exact Hcalc|].
  now apply Qeq_bool_neq.
Qed.

Lemma completed_filed context ambient :
  filed (JS.or_else (id context) (generateContextId ambient), completed context ambient).
Proof.
  split; [reflexivity|]. split; [eexists; reflexivity|].
  eexists. split; [reflexivity|apply importance_or_calculated_nonzero].
Qed.

Lemma store_delete_keys key store :
  sublist (store_keys (store_delete key store)) (store_keys store).
Proof.
  unfold store_keys. induction store as [|[k v] rest IH]; cbn; [constructor|].
  destruct (String.eqb key k); cbn.
  - now apply sublist_cons.
  - now apply sublist_skip.
Qed.

Lemma store_delete_sublist key store : sublist (store_delete key store) store.
Proof.
  induction store as [|[k v] rest IH]; cbn; [constructor|].
  destruct (String.eqb key k); cbn.
  - now apply sublist_cons.
  - now apply sublist_skip.
Qed.

Lemma storeContext_well_kept self context ambient :
  well_kept self -> well_kept (storeContext self context ambient).2.
Proof.
  intros (Hnd & Hfiled & Hlen & Hactive). unfold storeContext, well_kept. cbn.
  split; [now apply store_set_NoDup|].
  split; [apply store_set_Forall; [apply completed_filed|exact Hfiled]|].
  split; [|exact Hactive].
  pose proof (store_set_length (JS.or_else (id context) (generateContextId ambient))
                (completed context ambient) (memoryStore self)). lia.
Qed.

Lemma archive_step_well_kept self memory :
  well_kept self -> well_kept (archive_step self memory).
Proof.
  intros Hkept. unfold archive_step. destruct (low_importance memory); [|exact Hkept].
  destruct (id memory) as [contextId|]; [|exact Hkept].
  destruct Hkept as (Hnd & Hfiled & Hlen & Hactive). unfold archiveContext, well_kept. cbn.
  split; [eapply sublist_NoDup; [exact Hnd|apply store_delete_keys]|].
  split.
  { apply Forall_forall. intros entry Hin. rewrite Forall_forall in Hfiled.
    apply Hfiled. eapply elem_of_sublist; [exact Hin|apply store_delete_sublist]. }
  split; [|exact Hactive].
  pose proof (sublist_length _ _ (store_delete_sublist contextId (memoryStore self))). lia.
Qed.

Lemma consolidate_fold_well_kept memories :
  forall self, well_kept self -> well_kept (fold_left archive_step memories self).
Proof.
  induction memories as [|memory rest IH]; intros self Hkept; [exact Hkept|].
  cbn [fold_left]. apply IH. now apply archive_step_well_kept.
Qed.

Lemma archive_step_stats self memory : stats (archive_step self memory) = stats self.
Proof.
  unfold archive_step.
  destruct (low_importance memory); [destruct (id memory)|]; reflexivity.
Qed.

Lemma archive_fold_stats memories :
  forall self, stats (fold_left archive_step memories self) = stats self.
Proof.
  induction memories as [|memory rest IH]; intros self; [reflexivity|].
  cbn [fold_left]. now rewrite IH, archive_step_stats.
Qed.
End MemoryProperties.

Lemma reachable_invariant (self : Memory.MemorySystem) :
  reachable self -> well_kept self.
Proof.
  induction 1 as [|self context ambient _ IH|self userId a1 a2 _ IH
                  |self conversationId a _ IH|self now _ IH].
  - repeat split; cbn; [constructor|constructor|lia|lia].
  - now apply storeContext_well_kept.
  - unfold Memory.startConversation.
    pose proof (storeContext_well_kept self
                  (Memory.conversation_event "conversation_started"
                     (Memory.generateConversationId a1) [("user_id", userId)]
                     "conversation_start" 0.8%Q) a2 IH) as Hstored.
    destruct (Memory.storeContext _ _ _) as [stored self']. cbn in Hstored |- *.
    destruct Hstored as (Hnd & Hfiled & Hlen & Hactive).
    repeat split; cbn; try assumption. lia.
  - unfold Memory.endConversation.
    pose proof (storeContext_well_kept self
                  (Memory.conversation_event "conversation_ended" conversationId []
                     "conversation_end" 0.7%Q) a IH) as Hstored.
    destruct (Memory.storeContext _ _ _) as [stored self']. cbn in Hstored |- *.
    destruct Hstored as (Hnd & Hfiled & Hlen & Hactive).
    repeat split; cbn; try assumption. lia.
  - unfold Memory.consolidateMemory. now apply consolidate_fold_well_kept.
Qed.

(** X1. Whatever sequence of stores, conversation starts and ends and
    consolidations the memory system goes through from a new one, its map has
    no key twice, every entry is filed under its own id with a timestamp and
    an importance that is not 0, the map never holds more entries than were
    stored, and the count of active conversations is not negative. *)
Theorem reachable_well_kept (self : Memory.MemorySystem) :
  reachable self -> well_kept self.
Proof. exact (reachable_invariant self). Qed.

(** X2. [storeContext] followed by [retrieveContext] on the id it returned
    gives back the stored context: the given one with its id, timestamp and
    importance filled in.  The lookup of every other id is unchanged and the
    counter of stored contexts grows by one. *)
Theorem storeContext_round_trip (self : Memory.MemorySystem)
    (context : Memory.MemoryContext) (ambient : Memory.Ambient) :
  let '(contextId, stored) := Memory.storeContext self context ambient in
  Memory.retrieveContext stored contextId = Some (Memory.completed context ambient)
  /\ Memory.id (Memory.completed context ambient) = Some contextId
  /\ (forall given, Memory.id context = Some given -> JS.is_empty given = false ->
        contextId = given)
  /\ (forall other, other <> contextId ->
        Memory.retrieveContext stored other = Memory.retrieveContext self other)
  /\ Memory.total_contexts (Memory.stats stored)
     = S (Memory.total_contexts (Memory.stats self)).
Proof.
  unfold Memory.storeContext, Memory.retrieveContext. cbn.
  split; [apply store_get_set_eq|]. split; [reflexivity|]. split.
  - intros given -> Hfull. cbn. now rewrite Hfull.
  - split; [intros other Hne; now apply store_get_set_ne|lia].
Qed.

(** X3. The importance [storeContext] files is never 0: a given importance
    other than 0 is kept as it is, and a missing one or the value 0 is
    replaced by the calculated importance, which lies between 0.3 and 1. *)
Theorem stored_importance (context : Memory.MemoryContext) (ambient : Memory.Ambient) :
  exists weight,
    Memory.importance (Memory.completed context ambient) = Some weight
    /\ ~ (weight == 0)%Q
    /\ (forall given, Memory.importance context = Some given -> ~ (given == 0)%Q ->
          weight = given)
    /\ ((Memory.importance context = None
         \/ exists given, Memory.importance context = Some given /\ (given == 0)%Q) ->
        weight = Memory.calculateImportance context
        /\ (0.3 <= weight)%Q /\ (weight <= 1)%Q).
Proof.
  exists (Memory.importance_or_calculated context).
  split; [reflexivity|]. split; [apply importance_or_calculated_nonzero|]. split.
  - intros given Hgiven Hnz. unfold Memory.importance_or_calculated. rewrite Hgiven.
    destruct (Qeq_bool given 0) eqn:Hzero; [|reflexivity].
    apply Qeq_bool_iff in Hzero. contradiction.
  - intros Hmissing.
    assert (Heq : Memory.importance_or_calculated context
                  = Memory.calculateImportance context).
    { unfold Memory.importance_or_calculated.
      destruct Hmissing as [->|(given & -> & Hzero)]; [reflexivity|].
      apply Qeq_bool_iff in Hzero. now rewrite Hzero. }
    rewrite Heq. split; [reflexivity|apply calculateImportance_bounds].
Qed.

Section MemoryQueries.
Import Memory.


Lemma retrieve_entries self (entries : list (string * MemoryContext)) :
  NoDup (store_keys (memoryStore self)) ->
  (forall entry, entry ∈ entries -> entry ∈ memoryStore self) ->
  omap (retrieveContext self) (map fst entries) = map snd entries.
Proof.
  intros Hnd. induction entries as [|[k v] rest IH]; intros Hsub; [reflexivity|].
  cbn. unfold retrieveContext at 1.
  rewrite (store_get_NoDup k v _ Hnd) by (apply Hsub, list_elem_of_here).
  cbn. f_equal. apply IH. intros entry Hin. now apply Hsub, list_elem_of_further.
Qed.

Lemma slice_to_sublist {A} finish (ids : list A) : sublist (slice_to finish ids) ids.
Proof.
  destruct finish as [q| |[|]]; cbn [slice_to].
  - destruct (truncate q <? 0)%Z; apply sublist_take.
  - apply sublist_nil_l.
  - apply sublist_nil_l.
  - reflexivity.
Qed.

Lemma slice_to_map {A B} (f : A -> B) finish (ids : list A) :
  slice_to finish (map f ids) = map f (slice_to finish ids).
Proof.
  destruct finish as [q| |[|]]; cbn [slice_to]; try reflexivity.
  rewrite length_map. change (map f) with (fmap (M := list) f).
  destruct (truncate q <? 0)%Z; now rewrite fmap_take.
Qed.


Lemma truncate_at_least_one (q : Q) : (1 <=? truncate q)%Z = Qle_bool 1 q.
Proof.
  apply eq_true_iff_eq. rewrite Z.leb_le, Qle_bool_iff.
  unfold Qle, truncate. cbn [Qnum Qden]. rewrite Z.mul_1_l, Z.mul_1_r.
  destruct q as [n d]. cbn [Qnum Qden]. split; intros H.
  - destruct (Z.lt_ge_cases n (Zpos d)) as [Hlt|Hge]; [|exact Hge].
    destruct (Z.lt_ge_cases n 0) as [Hn|Hn].
    + assert (n ÷ Zpos d <= 0)%Z by (apply Z.quot_le_upper_bound; lia). lia.
    + rewrite Z.quot_small in H by lia. lia.
  - apply Z.quot_le_lower_bound; lia.
Qed.

Lemma slice_to_single {A} (q : Q) (x : A) :
  slice_to (Finite q) [x] = if Qle_bool 1 q then [x] else [].
Proof.
  rewrite <- truncate_at_least_one. cbn [slice_to length].
  destruct (Z.ltb_spec (truncate q) 0) as [Hneg|Hpos].
  - destruct (Z.leb_spec 1 (truncate q)); [lia|].
    replace (Z.to_nat (Z.max (Z.of_nat 1 + truncate q) 0)) with 0%nat by lia. reflexivity.
  - destruct (Z.leb_spec 1 (truncate q)) as [Hone|Hzero].
    + destruct (Z.to_nat (truncate q)) eqn:Hk; [lia|]. cbn. now rewrite take_nil.
    + replace (truncate q) with 0%Z by lia. reflexivity.
Qed.

Lemma unfiltered_query self query :
  NoDup (store_keys (memoryStore self)) ->
  query_type query = None -> query_tags query = None ->
  queryMemory self query = map snd (slice_to (limit_or_ten query) (memoryStore self)).
Proof.
  intros Hnd Htype Htags. unfold queryMemory. rewrite Htype, Htags.
  unfold store_keys. rewrite slice_to_map. apply (retrieve_entries self _ Hnd).
  intros entry Hin. eapply elem_of_sublist; [exact Hin|apply slice_to_sublist].
Qed.

End MemoryQueries.


Section Conversations.
Import Memory.

Lemma filter_single_key (f : string -> bool) (keys : list string) (key : string) :
  NoDup keys -> key ∈ keys -> f key = true ->
  (forall other, other ∈ keys -> other <> key -> f other = false) ->
  List.filter f keys = [key].
Proof.
  induction keys as [|k rest IH]; intros Hnd Hin Hkey Hothers; [inversion Hin|].
  apply NoDup_cons in Hnd as [Hk Hnd]. cbn [List.filter].
  destruct (decide (k = key)) as [->|Hne].
  - rewrite Hkey. f_equal. apply filter_none, Forall_forall.
    intros other Hother. apply Hothers; [now apply list_elem_of_further|].
    intros ->. contradiction.
  - rewrite (Hothers k (list_elem_of_here _ _) Hne). apply IH; try assumption.
    + apply elem_of_cons in Hin as [?|?]; [congruence|assumption].
    + intros other Hother. apply Hothers. now apply list_elem_of_further.
Qed.
End Conversations.

(** X5. On a state the operations can reach, when no context held so far
    carries the tag of the conversation that [startConversation] opens, the
    history of that conversation right after the start is the start event
    alone for every limit that lets a context through: a limit left out, 0
    or [NaN] (read as 10), a limit of at least 1, or plus infinity.  For any
    other limit (a negative one, a fraction below 1, minus infinity) the
    history is empty.  The start counts one more active conversation and one
    more stored context. *)
Theorem history_after_start (self : Memory.MemorySystem) (userId : option string)
    (forConversation forContext : Memory.Ambient) (limit : option Memory.Number) :
  let conversationId := Memory.generateConversationId forConversation in
  let started :=
    (Memory.startConversation self userId forConversation forContext).2 in
  reachable self ->
  (forall key context, Memory.retrieveContext self key = Some context ->
     in_conversation conversationId context = false) ->
  (Memory.startConversation self userId forConversation forContext).1 = conversationId
  /\ Memory.getConversationHistory started conversationId limit
     = (if at_least_one limit
        then [Memory.completed
                (Memory.conversation_event "conversation_started" conversationId
                   [("user_id", userId)] "conversation_start" 0.8%Q) forContext]
        else [])
  /\ Memory.active_conversations (Memory.stats started)
     = (Memory.active_conversations (Memory.stats self) + 1)%Z
  /\ Memory.total_contexts (Memory.stats started)
     = S (Memory.total_contexts (Memory.stats self)).
Proof.
  intros conversationId started Hreach Hfresh. split; [reflexivity|].
  unfold started, Memory.startConversation, Memory.storeContext. cbn.
  fold conversationId.
  set (event := Memory.conversation_event "conversation_started" conversationId
                  [("user_id", userId)] "conversation_start" 0.8%Q).
  set (key := Memory.generateContextId forContext).
  split; [|split; [reflexivity|lia]].
  pose proof (reachable_invariant self Hreach) as (Hnd & _).
  unfold Memory.getConversationHistory, Memory.queryMemory.
  cbn [Memory.query_type Memory.query_tags Memory.memoryStore Memory.with_active].
  set (store := Memory.store_set key (Memory.completed event forContext)
                  (Memory.memoryStore self)).
  rewrite (filter_single_key _ (Memory.store_keys store) key).
  - assert (Hget : Memory.retrieveContext
                     (Memory.with_active
                        {| Memory.memoryStore := store;
                           Memory.stats :=
                             {| Memory.total_contexts :=
                                  Memory.total_contexts (Memory.stats self) + 1;
                                Memory.active_conversations :=
                                  Memory.active_conversations (Memory.stats self);
                                Memory.cache_hit_rate :=
                                  Memory.cache_hit_rate (Memory.stats self);
                                Memory.memory_usage_mb :=
                                  Memory.memory_usage_mb (Memory.stats self) |} |}
                        (Memory.active_conversations (Memory.stats self) + 1)) key
                   = Some (Memory.completed event forContext)).
    { unfold Memory.retrieveContext, Memory.with_active. cbn [Memory.memoryStore].
      unfold store. apply store_get_set_eq. }
    assert (Hkept : forall self', Memory.retrieveContext self' key
                       = Some (Memory.completed event forContext) ->
                     omap (Memory.retrieveContext self') [key]
                     = [Memory.completed event forContext]).
    { intros self' Hself. cbn. now rewrite Hself. }
    unfold Memory.limit_or_ten. cbn [Memory.limit].
    destruct limit as [[q| |[|]]|]; cbn [at_least_one negb].
    + destruct (Qeq_bool q 0) eqn:Hzero; cbn [orb].
      * now apply Hkept.
      * rewrite slice_to_single. destruct (Qle_bool 1 q); [now apply Hkept|reflexivity].
    + now apply Hkept.
    + reflexivity.
    + now apply Hkept.
    + now apply Hkept.
  - now apply store_set_NoDup.
  - unfold store. rewrite store_keys_set. case_bool_decide as Hin; [exact Hin|].
    apply elem_of_app. right. apply list_elem_of_here.
  - unfold Memory.matches_tags, Memory.with_active. cbn [Memory.memoryStore]. unfold store.
    rewrite store_get_set_eq. cbn.
    unfold Memory.has_tag. cbn. now rewrite String.eqb_refl.
  - intros other Hother Hne. unfold Memory.matches_tags, Memory.with_active.
    cbn [Memory.memoryStore].
    unfold store. rewrite store_get_set_ne by exact Hne.
    destruct (Memory.store_get other (Memory.memoryStore self)) as [context|] eqn:Hget;
      [|reflexivity].
    specialize (Hfresh other context Hget). unfold in_conversation in Hfresh.
    destruct (Memory.tags context) as [own|]; [|reflexivity].
    apply not_true_iff_false. intros Hsome. apply not_true_iff_false in Hfresh.
    apply Hfresh. apply existsb_exists in Hsome as (tag & Htag & Hwanted).
    unfold Memory.has_tag in Hwanted |- *. cbn in Hwanted.
    rewrite orb_false_r in Hwanted. apply String.eqb_eq in Hwanted. subst tag.
    apply existsb_exists. exists (Memory.conversation_tag conversationId).
    split; [exact Htag|apply String.eqb_refl].
Qed.

(** X6. On a state the operations can reach, starting a conversation and then
    ending it leaves the count of active conversations as it was and files
    two more contexts; ending a conversation never takes the count below 0,
    whether or not that conversation was ever started. *)
Theorem conversation_start_then_end (self : Memory.MemorySystem)
    (userId : option string) (a1 a2 a3 : Memory.Ambient) :
  reachable self ->
  let run := Memory.startConversation self userId a1 a2 in
  let ended := Memory.endConversation run.2 run.1 a3 in
  Memory.active_conversations (Memory.stats ended)
    = Memory.active_conversations (Memory.stats self)
  /\ Memory.total_contexts (Memory.stats ended)
     = S (S (Memory.total_contexts (Memory.stats self)))
  /\ forall other ambient,
       (0 <= Memory.active_conversations
               (Memory.stats (Memory.endConversation self other ambient)))%Z.
Proof.
  intros Hreach run ended.
  pose proof (reachable_invariant self Hreach) as (_ & _ & _ & Hactive).
  unfold ended, run, Memory.startConversation, Memory.endConversation, Memory.storeContext. cbn.
  split; [lia|]. split; [lia|]. intros other ambient. lia.
Qed.

Section Consolidation.
Import Memory.

Lemma filter_twice {A} (f g : A -> bool) (l : list A) :
  List.filter f (List.filter g l) = List.filter (fun x => g x && f x) l.
Proof.
  induction l as [|x l IH]; [reflexivity|]. cbn.
  destruct (g x); cbn; [destruct (f x)|]; now rewrite IH.
Qed.

Lemma filter_all_kept {A} (f : A -> bool) (l : list A) :
  (forall x, x ∈ l -> f x = true) -> List.filter f l = l.
Proof.
  induction l as [|x l IH]; intros Hall; [reflexivity|]. cbn.
  rewrite (Hall x (list_elem_of_here _ _)). f_equal.
  apply IH. intros y Hy. now apply Hall, list_elem_of_further.
Qed.

Lemma archive_fold_store memories :
  forall self, NoDup (store_keys (memoryStore self)) ->
  memoryStore (fold_left archive_step memories self)
  = List.filter (fun entry => negb (archived_by memories entry)) (memoryStore self).
Proof.
  induction memories as [|memory rest IH]; intros self Hnd.
  - cbn. symmetry. now apply filter_all_kept.
  - cbn [fold_left]. unfold archive_step at 2.
    destruct (low_importance memory) eqn:Hlow;
      [destruct (id memory) as [contextId|] eqn:Hid|].
    + rewrite IH by (cbn; eapply sublist_NoDup; [exact Hnd|apply store_delete_keys]).
      cbn [archiveContext with_store memoryStore].
      rewrite (store_delete_filter _ _ Hnd), filter_twice.
      apply List.filter_ext. intros entry. unfold archived_by. cbn [existsb].
      rewrite Hlow, Hid. cbn. now rewrite negb_orb.
    + rewrite IH by exact Hnd. apply List.filter_ext. intros entry.
      unfold archived_by. cbn [existsb]. now rewrite Hlow, Hid.
    + rewrite IH by exact Hnd. apply List.filter_ext. intros entry.
      unfold archived_by. cbn [existsb]. now rewrite Hlow.
Qed.

Lemma unique_key store (entry other : string * MemoryContext) :
  NoDup (store_keys store) -> entry ∈ store -> other ∈ store ->
  other.1 = entry.1 -> other = entry.
Proof.
  intros Hnd Hentry Hother Hkey. destruct entry as [k v], other as [k' v'].
  cbn in Hkey. subst k'. f_equal.
  pose proof (store_get_NoDup k v store Hnd Hentry) as H1.
  pose proof (store_get_NoDup k v' store Hnd Hother) as H2. congruence.
Qed.
End Consolidation.

(** X7. In fallback mode [consolidateMemory] looks at the first 1000 entries of
    the map, in insertion order, and removes exactly those whose importance is
    below 0.3; it keeps every other entry unchanged and in order.  Neither
    the current time nor the timestamps of the entries play a part: the time
    range of the query is not applied in this mode. *)
Theorem consolidateMemory_removes_low (self : Memory.MemorySystem) (now : Z) :
  reachable self ->
  Memory.memoryStore (Memory.consolidateMemory self now)
  = (List.filter (fun entry => negb (Memory.low_importance entry.2))
       (take 1000 (Memory.memoryStore self))
     ++ drop 1000 (Memory.memoryStore self))%list
  /\ Memory.stats (Memory.consolidateMemory self now) = Memory.stats self.
Proof.
  intros Hreach.
  pose proof (reachable_invariant self Hreach) as (Hnd & Hfiled & _).
  unfold Memory.consolidateMemory.
  rewrite unfiltered_query; [|exact Hnd|reflexivity|reflexivity].
  change (Memory.slice_to (Memory.limit_or_ten _) (Memory.memoryStore self))
    with (take 1000 (Memory.memoryStore self)).
  set (store := Memory.memoryStore self) in *.
  set (head := take 1000 store). set (tail := drop 1000 store).
  assert (Hsplit : store = (head ++ tail)%list) by (symmetry; apply take_drop).
  split.
  - rewrite (archive_fold_store _ self Hnd). fold store.
    rewrite Hsplit at 1. rewrite List.filter_app. f_equal.
    + apply List.filter_ext_in. intros entry Hin%list_elem_of_In. f_equal.
      assert (Hstore : entry ∈ store) by (rewrite Hsplit; apply elem_of_app; now left).
      rewrite Forall_forall in Hfiled.
      destruct (Memory.low_importance entry.2) eqn:Hlow.
      * apply existsb_exists. exists entry.2. split.
        -- apply in_map, list_elem_of_In, Hin.
        -- rewrite Hlow. destruct (Hfiled entry Hstore) as (-> & _).
           cbn. apply String.eqb_refl.
      * apply not_true_iff_false. intros (memory & Hmem & Htest)%existsb_exists.
        apply in_map_iff in Hmem as (other & <- & Hother%list_elem_of_In).
        apply andb_prop in Htest as [Hlow' Hkey].
        assert (Hother' : other ∈ store) by (rewrite Hsplit; apply elem_of_app; now left).
        destruct (Hfiled other Hother') as (Hid & _). rewrite Hid in Hkey.
        apply String.eqb_eq in Hkey.
        rewrite (unique_key store entry other Hnd Hstore Hother' Hkey) in Hlow'.
        congruence.
    + apply filter_all_kept. intros entry Hin. apply negb_true_iff, not_true_iff_false.
      intros (memory & Hmem & Htest)%existsb_exists.
      apply in_map_iff in Hmem as (other & <- & Hother%list_elem_of_In).
      apply andb_prop in Htest as [_ Hkey].
      assert (Hother' : other ∈ store) by (rewrite Hsplit; apply elem_of_app; now left).
      rewrite Forall_forall in Hfiled.
      destruct (Hfiled other Hother') as (Hid & _). rewrite Hid in Hkey.
      apply String.eqb_eq in Hkey.
      unfold Memory.store_keys in Hnd. fold store in Hnd. rewrite Hsplit in Hnd.
      change (map fst (head ++ tail)) with (fst <$> (head ++ tail)%list) in Hnd.
      rewrite fmap_app in Hnd. apply NoDup_app in Hnd as (_ & Hdisjoint & _).
      apply (Hdisjoint other.1).
      * now apply list_elem_of_fmap_2.
      * rewrite Hkey. now apply list_elem_of_fmap_2.
  - apply archive_fold_stats.
Qed.

(** ** The memory system on a concrete run *)

Lemma untagged_check (self : Memory.MemorySystem) (conversationId : string) :
  forallb (fun entry => negb (in_conversation conversationId entry.2))
    (Memory.memoryStore self) = true ->
  forall key context, Memory.retrieveContext self key = Some context ->
    in_conversation conversationId context = false.
Proof.
  intros Hall key context Hget. unfold Memory.retrieveContext in Hget.
  induction (Memory.memoryStore self) as [|[k v] store IH]; [discriminate|].
  cbn [forallb] in Hall. apply andb_prop in Hall as [Hhere Hrest].
  cbn [Memory.store_get] in Hget. destruct (String.eqb key k).
  - injection Hget as <-. now apply negb_true_iff in Hhere.
  - exact (IH Hrest Hget).
Qed.

Lemma diary_reachable : reachable Episode.diary.
Proof. unfold Episode.diary. do 2 apply reach_store. apply reach_created. Qed.


(** The invariant on the diary of two notes. *)
Lemma reachable_well_kept_witness :
  well_kept Episode.diary
  /\ Memory.store_keys (Memory.memoryStore Episode.diary)
     = ["ctx_1000_k3x9q2m1a"; "ctx_2000_z8w7v6u5t"].
Proof.
  split; [|reflexivity].
  apply reachable_well_kept. unfold Episode.diary.
  do 2 apply reach_store. apply reach_created.
Defined.

(** A conversation started on the diary: its history is the start event,
    and it is empty when the limit -1 is passed. *)
Lemma history_after_start_witness :
  let run :=
    Memory.startConversation Episode.diary (Some "ada")
      (Episode.at_time 3000 "c0nv3rs4t") (Episode.at_time 3001 "st4rt3v3n") in
  run.1 = "conv_3000_c0nv3rs4t"
  /\ length (Memory.getConversationHistory run.2 run.1 None) = 1%nat
  /\ Memory.getConversationHistory run.2 run.1 (Some (Memory.Finite (-1))) = []
  /\ Memory.getConversationHistory run.2 run.1 (Some (Memory.Finite 0.5)) = []
  /\ Memory.active_conversations (Memory.stats run.2) = 1%Z.
Proof.
  intros run.
  assert (Hfresh : forall key context,
             Memory.retrieveContext Episode.diary key = Some context ->
             in_conversation
               (Memory.generateConversationId (Episode.at_time 3000 "c0nv3rs4t"))
               context = false)
    by (apply untagged_check; vm_compute; reflexivity).
  pose proof (fun limit =>
                history_after_start Episode.diary (Some "ada")
                  (Episode.at_time 3000 "c0nv3rs4t") (Episode.at_time 3001 "st4rt3v3n")
                  limit diary_reachable Hfresh) as Hhistory.
  cbv zeta in Hhistory.
  change run.1 with (Memory.generateConversationId (Episode.at_time 3000 "c0nv3rs4t")).
  unfold run.
  split; [reflexivity|]. split; [|split; [|split]].
  - rewrite (proj1 (proj2 (Hhistory None))). reflexivity.
  - rewrite (proj1 (proj2 (Hhistory (Some (Memory.Finite (-1)))))). reflexivity.
  - rewrite (proj1 (proj2 (Hhistory (Some (Memory.Finite 0.5))))). reflexivity.
  - exact (proj1 (proj2 (proj2 (Hhistory None)))).
Defined.

(** Starting and ending a conversation on the diary. *)
Lemma conversation_start_then_end_witness :
  let run :=
    Memory.startConversation Episode.diary None
      (Episode.at_time 3000 "c0nv3rs4t") (Episode.at_time 3001 "st4rt3v3n") in
  let ended := Memory.endConversation run.2 run.1 (Episode.at_time 4000 "3nd3v3nt0") in
  Memory.active_conversations (Memory.stats ended) = 0%Z
  /\ Memory.total_contexts (Memory.stats ended) = 4%nat.
Proof.
  intros run ended.
  pose proof (conversation_start_then_end Episode.diary None
                (Episode.at_time 3000 "c0nv3rs4t") (Episode.at_time 3001 "st4rt3v3n")
                (Episode.at_time 4000 "3nd3v3nt0") diary_reachable) as (Hactive & Htotal & _).
  split; [exact Hactive|exact Htotal].
Defined.

(** Consolidation of the diary removes the note of importance 0.2, though it
    was stored a second ago, and keeps the other. *)
Lemma consolidateMemory_removes_low_witness :
  Memory.store_keys (Memory.memoryStore (Memory.consolidateMemory Episode.diary 3000))
  = ["ctx_1000_k3x9q2m1a"].
Proof.
  rewrite (proj1 (consolidateMemory_removes_low Episode.diary 3000 diary_reachable)).
  reflexivity.
Defined.

(** ** The direct strategy, further *)

Section RegexGroups.
Import Regex.
Context {A : Type}.

Lemma star_greedy_result cls s (k : string -> option A) x :
  star_greedy cls s k = Some x -> exists s', k s' = Some x.
Proof.
  induction s as [|c s IH]; cbn; [eauto|].
  destruct (cls c); [|eauto].
  unfold orelse. destruct (star_greedy cls s k) eqn:Hrest; [|eauto].
  intros [= ->]. now apply IH.
Qed.

Lemma star_lazy_result cls s (k : string -> option A) x :
  star_lazy cls s k = Some x -> exists s', k s' = Some x.
Proof.
  induction s as [|c s IH]; cbn; [eauto|].
  destruct (cls c); [|eauto].
  unfold orelse. destruct (k (String c s)) eqn:Hhere; [intros [= ->]; eauto|].
  apply IH.
Qed.

Lemma group_free_keeps r :
  group_free r = true ->
  forall s cap (k : string -> option string -> option A) x,
  rmatch r s cap k = Some x -> exists s', k s' cap = Some x.
Proof.
  induction r as [w|cls|cls|cls| |r1 IH1 r2 IH2|r1 IH1 r2 IH2|r1 IH1];
    cbn [group_free rmatch]; intros Hfree s cap k x Hrun.
  - destruct (lit_prefix w s); [eauto|discriminate].
  - destruct s as [|c s]; [discriminate|]. destruct (cls c); [eauto|discriminate].
  - now apply star_greedy_result in Hrun.
  - now apply star_lazy_result in Hrun.
  - destruct (JS.is_empty s); [eauto|discriminate].
  - apply andb_prop in Hfree as [H1 H2]. unfold orelse in Hrun.
    destruct (rmatch r1 s cap k) eqn:Hleft.
    + injection Hrun as ->. now apply (IH1 H1 s cap k).
    + now apply (IH2 H2 s cap k).
  - apply andb_prop in Hfree as [H1 H2].
    apply (IH1 H1) in Hrun as (s1 & Hrun). now apply (IH2 H2) in Hrun.
  - discriminate.
Qed.

Lemma sets_group_captures r :
  sets_group r = true ->
  forall s cap (k : string -> option string -> option A) x,
  rmatch r s cap k = Some x -> exists s' captured, k s' (Some captured) = Some x.
Proof.
  induction r as [w|cls|cls|cls| |r1 IH1 r2 IH2|r1 IH1 r2 IH2|r1 IH1];
    cbn [sets_group rmatch]; intros Hsets s cap k x Hrun; try discriminate.
  - apply andb_prop in Hsets as [H1 H2]. unfold orelse in Hrun.
    destruct (rmatch r1 s cap k) eqn:Hleft.
    + injection Hrun as ->. now apply (IH1 H1 s cap k).
    + now apply (IH2 H2 s cap k).
  - apply orb_prop in Hsets as [[H1 H2]%andb_prop|[H1 H2]%andb_prop].
    + apply (group_free_keeps r1 H1) in Hrun as (s1 & Hrun).
      now apply (IH2 H2) in Hrun.
    + apply (IH1 H1) in Hrun as (s1 & captured & Hrun).
      apply (group_free_keeps r2 H2) in Hrun as (s2 & Hrun). eauto.
  - apply (group_free_keeps r1 Hsets) in Hrun as (s1 & Hrun). eauto.
Qed.
End RegexGroups.

Lemma exec_captures (r : Regex.regex) (s : string) (result : option string) :
  sets_group r = true -> Regex.exec r s = Some result -> is_Some result.
Proof.
  intros Hsets. induction s as [|c s IH]; cbn [Regex.exec]; unfold Regex.match_here.
  - destruct (Regex.rmatch r EmptyString None _) eqn:Hrun; [|discriminate].
    intros [= ->]. apply (sets_group_captures r Hsets) in Hrun as (s' & g & [= <-]). eauto.
  - destruct (Regex.rmatch r (String c s) None _) eqn:Hrun; [|exact IH].
    intros [= ->]. apply (sets_group_captures r Hsets) in Hrun as (s' & g & [= <-]). eauto.
Qed.

Lemma extractFinalAnswer_total (response : string) :
  exists answer,
    Reasoning.extractFinalAnswer response = Gen.Returned answer
    /\ (Forall (fun pattern => Regex.exec pattern response = None) Reasoning.patterns ->
        exists sentence, answer = sentence ++ ".").
Proof.
  unfold Reasoning.extractFinalAnswer.
  assert (Hall : Forall (fun pattern => sets_group pattern = true) Reasoning.patterns)
    by (repeat constructor).
  set (otherwise := Gen.Returned _).
  assert (Hother : exists sentence, otherwise = Gen.Returned (sentence ++ ".")).
  { unfold otherwise.
    match goal with |- context [JS.is_empty (?text ++ ".")] =>
      replace (JS.is_empty (text ++ ".")) with false by (destruct text; reflexivity)
    end.
    eexists. reflexivity. }
  clearbody otherwise. induction Hall as [|pattern rest Hsets _ IH].
  - destruct Hother as (sentence & ->). exists (sentence ++ "."). split; [reflexivity|eauto].
  - cbn [Reasoning.first_pattern].
    destruct (Regex.exec pattern response) as [[g|]|] eqn:Hexec.
    + eexists. split; [reflexivity|]. intros Hnone. inversion Hnone; congruence.
    + apply exec_captures in Hexec as [g [=]]. exact Hsets.
    + destruct IH as (answer & -> & Hrest). exists answer. split; [reflexivity|].
      intros Hnone. apply Hrest. now inversion Hnone.
Qed.

(** X8. [extractFinalAnswer] never throws: whenever one of its two patterns
    matches, the capture group took part in the match, so [match[1].trim()]
    is always defined; without a match the answer ends in a full stop. *)
Theorem extractFinalAnswer_returns (response : string) :
  exists answer,
    Reasoning.extractFinalAnswer response = Gen.Returned answer
    /\ (Forall (fun pattern => Regex.exec pattern response = None) Reasoning.patterns ->
        exists sentence, answer = sentence ++ ".").
Proof. exact (extractFinalAnswer_total response). Qed.

Section DirectParsing.
Import Reasoning.
Local Open Scope Q_scope.

Lemma parse_lines_shape lines :
  forall stepNumber,
  map thought (parse_lines lines stepNumber) = List.filter is_step_line lines
  /\ fixed_confidence (parse_lines lines stepNumber)
  /\ forall k step, parse_lines lines stepNumber !! k = Some step ->
       step_number step = (stepNumber + k)%nat.
Proof.
  induction lines as [|line rest IH]; intros stepNumber; cbn [parse_lines List.filter].
  - repeat split; [constructor|]. intros k step Hk. destruct k; discriminate.
  - destruct (is_step_line line).
    + destruct (IH (S stepNumber)) as (Hthoughts & Hfixed & Hnumbers).
      split; [cbn; now rewrite Hthoughts|]. split; [constructor; [reflexivity|exact Hfixed]|].
      intros [|k] step Hk.
      * injection Hk as <-. cbn. lia.
      * rewrite (Hnumbers k step Hk). lia.
    + apply IH.
Qed.

Lemma sum_nonnegative reasoning init :
  Forall (fun step => 0 <= confidence step) reasoning ->
  init <= fold_left (fun sum step => sum + confidence step) reasoning init.
Proof.
  intros Hall. revert init. induction Hall as [|step rest Hstep _ IH]; intros init.
  - cbn. apply Qle_refl.
  - cbn [fold_left]. eapply Qle_trans; [|apply IH].
    rewrite <- (Qplus_0_r init) at 1. now apply Qplus_le_r.
Qed.
End DirectParsing.

Lemma parse_shape (response : string) :
  let steps := Reasoning.parseChainOfThoughtReasoning response in
  steps <> []
  /\ (forall k step, steps !! k = Some step -> Reasoning.step_number step = (k + 1)%nat)
  /\ (step_lines response <> [] ->
      map Reasoning.thought steps = step_lines response /\ fixed_confidence steps)
  /\ (step_lines response = [] ->
      exists only,
        steps = [only] /\ Reasoning.thought only = response
        /\ Reasoning.confidence only = 0.7%Q).
Proof.
  unfold Reasoning.parseChainOfThoughtReasoning, step_lines.
  destruct (parse_lines_shape (JS.split JS.nl response) 1) as (Hthoughts & Hfixed & Hnumbers).
  destruct (Reasoning.parse_lines (JS.split JS.nl response) 1) as [|first rest] eqn:Hparse;
    cbn [length Nat.ltb Nat.leb].
  - cbn in Hthoughts. rewrite <- Hthoughts.
    split; [discriminate|]. split.
    + intros [|k] step Hk; [injection Hk as <-; reflexivity|destruct k; discriminate].
    + split; [congruence|]. intros _. eexists. repeat split.
  - split; [discriminate|]. split.
    + intros k step Hk. rewrite (Hnumbers k step Hk). lia.
    + rewrite <- Hthoughts. split; [intros _; now split|discriminate].
Qed.


(** X9. [parseChainOfThoughtReasoning] never returns an empty list and numbers
    its steps 1, 2, 3, ... in order.  When some line of the reply starts with
    digits and a full stop or contains "step" and a number, the steps are
    exactly these lines, each with confidence 0.8; otherwise the only step
    holds the whole reply with confidence 0.7. *)
Theorem parseChainOfThoughtReasoning_shape (response : string) :
  let steps := Reasoning.parseChainOfThoughtReasoning response in
  steps <> []
  /\ (forall k step, steps !! k = Some step -> Reasoning.step_number step = (k + 1)%nat)
  /\ (step_lines response <> [] ->
      map Reasoning.thought steps = step_lines response /\ fixed_confidence steps)
  /\ (step_lines response = [] ->
      exists only,
        steps = [only] /\ Reasoning.thought only = response
        /\ Reasoning.confidence only = 0.7%Q).
Proof. exact (parse_shape response). Qed.

(** X10. [calculateConfidence] never exceeds 1, gives 0.5 for no step at all,
    and is at least 0.05 for steps whose own confidences are not negative. *)
Theorem calculateConfidence_range (reasoning : list Reasoning.ReasoningStep) :
  (Reasoning.calculateConfidence reasoning <= 1)%Q
  /\ (reasoning = [] -> Reasoning.calculateConfidence reasoning = 0.5%Q)
  /\ (Forall (fun step => 0 <= Reasoning.confidence step)%Q reasoning ->
      (0.05 <= Reasoning.calculateConfidence reasoning)%Q).
Proof.
  split; [|split].
  - unfold Reasoning.calculateConfidence.
    destruct (length reasoning =? 0)%nat; [discriminate|].
    eapply Qle_trans; [apply Q.le_min_r|discriminate].
  - now intros ->.
  - intros Hall. unfold Reasoning.calculateConfidence.
    destruct reasoning as [|step rest]; [cbn; discriminate|].
    replace (length (step :: rest) =? 0)%nat with false by reflexivity.
    cbv zeta. set (n := inject_Z (Z.of_nat (length (step :: rest)))).
    assert (Hn : (1 <= n)%Q).
    { unfold n. change 1%Q with (inject_Z 1). rewrite <- Zle_Qle. cbn [length]. lia. }
    apply Q.min_glb; [|discriminate].
    assert (Hsum := sum_nonnegative _ 0%Q Hall).
    assert (Havg : (0 <= fold_left (fun sum step0 => sum + Reasoning.confidence step0)
                          (step :: rest) 0 / n)%Q).
    { apply Qle_shift_div_l; [eapply Qlt_le_trans; [|exact Hn]; reflexivity|].
      now rewrite Qmult_0_l. }
    assert (Hbonus : (0.05 <= Qmin (n * 0.05) 0.2)%Q).
    { apply Q.min_glb; [|discriminate].
      rewrite <- (Qmult_1_l 0.05) at 1. apply Qmult_le_compat_r; [exact Hn|discriminate]. }
    rewrite <- (Qplus_0_l 0.05). now apply Qplus_le_compat.
Qed.

(** ** The strategies as runs of generator calls *)

Section StrategyRuns.
Import Gen Reasoning.
Variable gen : Generator.

Lemma create_run call log :
  create gen call log
  = (match gen log call with Rejects e => Threw e | Resolves c => Returned c end,
     (log ++ [call])%list).
Proof. reflexivity. Qed.

Lemma rejected_here log call error :
  gen log call = Rejects error -> rejected_last gen log (log ++ [call])%list error.
Proof. intros H. exists [], call. cbn. now rewrite app_nil_r. Qed.

Lemma rejected_later log call log' error :
  rejected_last gen (log ++ [call])%list log' error -> rejected_last gen log log' error.
Proof.
  intros (before & last & -> & Hrej). exists (call :: before), last.
  rewrite <- !app_assoc in *. cbn in *. now split.
Qed.

Lemma chainOfThought_run request log :
  exists call,
    user call = buildChainOfThoughtPrompt (input request) (context request)
    /\ max_tokens call
       = match req_max_tokens request with
         | Some n => if (n =? 0)%nat then 2000%nat else n
         | None => 2000%nat
         end
    /\ temperature call
       = match req_temperature request with
         | Some t => if Qeq_bool t 0 then 0.7%Q else t
         | None => 0.7%Q
         end
    /\ match gen log call with
       | Rejects error =>
           chainOfThought gen request log = (Threw error, (log ++ [call])%list)
       | Resolves completion =>
           exists answer,
             extractFinalAnswer (completion_text completion) = Returned answer
             /\ chainOfThought gen request log
                = (Returned
                     {| response := answer;
                        reasoning := parseChainOfThoughtReasoning (completion_text completion);
                        result_confidence :=
                          calculateConfidence
                            (parseChainOfThoughtReasoning (completion_text completion));
                        processing_time := 0;
                        tokens_used := completion_tokens completion |},
                   (log ++ [call])%list)
       end.
Proof.
  unfold chainOfThought, bind.
  match goal with |- context [create gen ?issued] => exists issued end.
  split; [reflexivity|]. split; [reflexivity|]. split; [reflexivity|].
  rewrite create_run. destruct (gen log _) as [error|completion]; [reflexivity|].
  destruct (extractFinalAnswer_total (completion_text completion)) as (answer & Hanswer & _).
  exists answer. split; [exact Hanswer|]. unfold lift. now rewrite Hanswer.
Qed.

Lemma react_loop_log remaining :
  forall iteration currentInput reasoning totalTokens log outcome log',
  react_loop gen remaining iteration currentInput reasoning totalTokens log
    = (outcome, log') ->
  (length log' <= length log + 2 * remaining)%nat
  /\ forall error, outcome = Threw error -> rejected_last gen log log' error.
Proof.
  induction remaining as [|remaining IH];
    intros iteration currentInput reasoning totalTokens log outcome log' Hrun.
  - cbn in Hrun. injection Hrun as <- <-. split; [lia|discriminate].
  - cbn [react_loop] in Hrun. unfold bind in Hrun. rewrite create_run in Hrun.
    destruct (gen log _) as [e1|thoughtCompletion] eqn:Hthought.
    { injection Hrun as <- <-. split; [rewrite length_app; cbn; lia|].
      intros error [= <-]. now apply rejected_here. }
    cbv zeta in Hrun. rewrite create_run in Hrun.
    destruct (gen (log ++ _)%list _) as [e2|actionCompletion] eqn:Haction.
    { injection Hrun as <- <-. split; [rewrite !length_app; cbn; lia|].
      intros error [= <-]. now eapply rejected_later, rejected_here. }
    destruct (JS.includes "ANSWER" _).
    + injection Hrun as <- <-. split; [rewrite !length_app; cbn; lia|discriminate].
    + apply IH in Hrun as [Hlen Hrej]. split; [rewrite !length_app in Hlen; cbn in Hlen; lia|].
      intros error Hout. now eapply rejected_later, rejected_later, Hrej.
Qed.

Lemma reactMethodology_log request log outcome log' :
  reactMethodology gen request log = (outcome, log') ->
  (length log' <= length log + 10)%nat
  /\ forall error, outcome = Threw error -> rejected_last gen log log' error.
Proof.
  unfold reactMethodology, bind.
  destruct (react_loop gen _ _ _ _ _ log) as [[[steps tokens]|e] log1] eqn:Hloop;
    intros [= <- <-]; apply react_loop_log in Hloop as [Hlen Hrej];
    change (maxIterations - 0)%nat with 5%nat in Hlen; (split; [lia|]).
  - discriminate.
  - intros error [= <-]. now apply Hrej.
Qed.

Lemma treeOfThoughts_log request log outcome log' :
  treeOfThoughts gen request log = (outcome, log') ->
  (length log' <= length log + 3)%nat
  /\ (forall result, outcome = Returned result -> length log' = (length log + 3)%nat)
  /\ forall error, outcome = Threw error -> rejected_last gen log log' error.
Proof.
  unfold treeOfThoughts, generateThoughtBranches, evaluateThoughts, bind.
  rewrite create_run. destruct (gen log _) as [e1|c1] eqn:H1.
  { intros [= <- <-]. rewrite length_app. cbn. split; [lia|]. split; [discriminate|].
    intros error [= <-]. now apply rejected_here. }
  cbn [ret fst snd]. rewrite create_run.
  destruct (gen (log ++ _)%list _) as [e2|c2] eqn:H2.
  { intros [= <- <-]. rewrite !length_app. cbn. split; [lia|]. split; [discriminate|].
    intros error [= <-]. now eapply rejected_later, rejected_here. }
  cbn [ret fst snd]. rewrite create_run.
  destruct (gen ((log ++ _) ++ _)%list _) as [e3|c3] eqn:H3.
  { intros [= <- <-]. rewrite !length_app. cbn. split; [lia|]. split; [discriminate|].
    intros error [= <-]. now eapply rejected_later, rejected_later, rejected_here. }
  intros [= <- <-]. rewrite !length_app. cbn. split; [lia|]. split; [intros; lia|discriminate].
Qed.

Lemma selfReflection_log request log outcome log' :
  selfReflection gen request log = (outcome, log') ->
  (length log' <= length log + 3)%nat
  /\ (forall result, outcome = Returned result -> length log' = (length log + 3)%nat)
  /\ forall error, outcome = Threw error -> rejected_last gen log log' error.
Proof.
  unfold selfReflection, bind.
  rewrite create_run. destruct (gen log _) as [e1|c1] eqn:H1.
  { intros [= <- <-]. rewrite length_app. cbn. split; [lia|]. split; [discriminate|].
    intros error [= <-]. now apply rejected_here. }
  cbv zeta. rewrite create_run.
  destruct (gen (log ++ _)%list _) as [e2|c2] eqn:H2.
  { intros [= <- <-]. rewrite !length_app. cbn. split; [lia|]. split; [discriminate|].
    intros error [= <-]. now eapply rejected_later, rejected_here. }
  rewrite create_run.
  destruct (gen ((log ++ _) ++ _)%list _) as [e3|c3] eqn:H3.
  { intros [= <- <-]. rewrite !length_app. cbn. split; [lia|]. split; [discriminate|].
    intros error [= <-]. now eapply rejected_later, rejected_later, rejected_here. }
  intros [= <- <-]. rewrite !length_app. cbn. split; [lia|]. split; [intros; lia|discriminate].
Qed.

Lemma chainOfThought_log request log outcome log' :
  chainOfThought gen request log = (outcome, log') ->
  length log' = (length log + 1)%nat
  /\ forall error, outcome = Threw error -> rejected_last gen log log' error.
Proof.
  destruct (chainOfThought_run request log) as (call & _ & _ & _ & Hrun).
  destruct (gen log call) as [e|c] eqn:Hreply.
  - rewrite Hrun. intros [= <- <-]. rewrite length_app. cbn. split; [lia|].
    intros error [= <-]. now apply rejected_here.
  - destruct Hrun as (answer & _ & ->). intros [= <- <-]. rewrite length_app. cbn.
    split; [lia|discriminate].
Qed.
End StrategyRuns.



(** X13. One [process] request issues at most ten generator calls.  When it
    returns it has issued exactly one call for the direct strategy, three for
    branch-and-select, three for draft/critique/revise, and two for each step
    of the thought/action/observation loop. *)
Theorem process_call_budget (gen : Gen.Generator) (stats stats' : Reasoning.Stats)
    (request : Reasoning.ReasoningRequest) (elapsed : Q) (log log' : list Gen.Call)
    (outcome : Gen.Outcome Reasoning.ReasoningResult) :
  Reasoning.process gen stats request elapsed log = (outcome, stats', log') ->
  (length log' <= length log + 10)%nat
  /\ forall result, outcome = Gen.Returned result ->
       length log' = (length log + calls_of (Reasoning.type_ request) result)%nat.
Proof.
  unfold Reasoning.process.
  destruct (Reasoning.type_ request) as [| | | |name] eqn:Htype.
  - destruct (Reasoning.chainOfThought gen request log) as [[result|e] log1] eqn:Hrun;
      intros [= <- <- <-];
      destruct (chainOfThought_log gen request log _ _ Hrun) as [Hlen _];
      (split; [lia|]); [intros r [= <-]; cbn; lia|discriminate].
  - destruct (Reasoning.reactMethodology gen request log) as [[result|e] log1] eqn:Hrun;
      intros [= <- <- <-];
      destruct (reactMethodology_log gen request log _ _ Hrun) as [Hlen _];
      (split; [lia|]); [|discriminate].
    intros r [= <-]. cbn [calls_of Reasoning.reasoning].
    unfold Reasoning.reactMethodology, Gen.bind in Hrun.
    destruct (Reasoning.react_loop gen _ _ _ _ _ log) as [[[steps tokens]|e] log2] eqn:Hloop;
      [|discriminate].
    injection Hrun as <- <-. cbn [Reasoning.reasoning].
    apply react_loop_run in Hloop as (new & -> & _ & _ & Hlog & _). cbn [app]. lia.
  - destruct (Reasoning.treeOfThoughts gen request log) as [[result|e] log1] eqn:Hrun;
      intros [= <- <- <-];
      destruct (treeOfThoughts_log gen request log _ _ Hrun) as (Hlen & Hexact & _);
      (split; [lia|]); [|discriminate].
    intros r [= <-]. cbn. now rewrite (Hexact result eq_refl).
  - destruct (Reasoning.selfReflection gen request log) as [[result|e] log1] eqn:Hrun;
      intros [= <- <- <-];
      destruct (selfReflection_log gen request log _ _ Hrun) as (Hlen & Hexact & _);
      (split; [lia|]); [|discriminate].
    intros r [= <-]. cbn. now rewrite (Hexact result eq_refl).
  - cbn. intros [= <- <- <-]. split; [lia|discriminate].
Qed.

(** X14. The simulated executor looks for SEARCH before ANSWER.  So when the
    first action names both, the loop stops after one step, as it does for
    any action that names ANSWER, but the response is the simulated search
    text and not the final-answer text. *)
Theorem react_search_wins_over_answer (gen : Gen.Generator)
    (request : Reasoning.ReasoningRequest) (log : list Gen.Call) :
  (forall call, exists completion, gen log call = Gen.Resolves completion) ->
  (forall thoughtCall call, exists completion,
     gen (log ++ [thoughtCall])%list call = Gen.Resolves completion
     /\ JS.includes "SEARCH" (JS.toUpperCase (Reasoning.completion_text completion)) = true
     /\ JS.includes "ANSWER" (JS.toUpperCase (Reasoning.completion_text completion)) = true) ->
  exists result log',
    Reasoning.reactMethodology gen request log = (Gen.Returned result, log')
    /\ length (Reasoning.reasoning result) = 1%nat
    /\ length log' = (length log + 2)%nat
    /\ Reasoning.response result
       = "Search results: [Simulated search results related to the query]".
Proof.
  intros Hthought Haction.
  unfold Reasoning.reactMethodology, Gen.bind.
  change (Reasoning.maxIterations - 0)%nat with 5%nat.
  cbn [Reasoning.react_loop]. unfold Gen.bind. rewrite create_run.
  match goal with |- context [gen log ?call] =>
    destruct (Hthought call) as (thoughtCompletion & ->) end.
  cbv zeta. rewrite create_run.
  match goal with |- context [gen (log ++ [?first])%list ?call] =>
    destruct (Haction first call) as (actionCompletion & -> & Hsearch & Hanswer) end.
  rewrite Hanswer. eexists _, _. split; [reflexivity|].
  split; [reflexivity|]. split; [rewrite !length_app; cbn; lia|].
  cbn. unfold Reasoning.executeAction. now rewrite Hsearch.
Qed.

(** X15. Branch-and-select does not apply the ranking it asks for: when its
    three calls resolve, the recorded steps are the first three non-blank
    lines of the first reply in their original order, numbered from 1 with
    confidence 0.7, whatever the ranking reply says; the response is the text
    of the third reply and the confidence is the constant 0.85. *)
Theorem treeOfThoughts_ignores_ranking (gen : Gen.Generator)
    (request : Reasoning.ReasoningRequest) (log : list Gen.Call)
    (branches ranking final : Gen.Completion) :
  (forall call, gen log call = Gen.Resolves branches) ->
  (forall first call, gen (log ++ [first])%list call = Gen.Resolves ranking) ->
  (forall first second call,
     gen (log ++ [first; second])%list call = Gen.Resolves final) ->
  exists result log',
    Reasoning.treeOfThoughts gen request log = (Gen.Returned result, log')
    /\ map Reasoning.thought (Reasoning.reasoning result)
       = take 3 (nonblank_lines (Reasoning.completion_text branches))
    /\ (forall k step, Reasoning.reasoning result !! k = Some step ->
          Reasoning.step_number step = (k + 1)%nat
          /\ Reasoning.confidence step = 0.7%Q)
    /\ Reasoning.response result = Reasoning.completion_text final
    /\ Reasoning.result_confidence result = 0.85%Q
    /\ Reasoning.tokens_used result
       = (Reasoning.completion_tokens branches + Reasoning.completion_tokens ranking
          + Reasoning.completion_tokens final)%nat.
Proof.
  intros Hbranches Hranking Hfinal.
  unfold Reasoning.treeOfThoughts, Reasoning.generateThoughtBranches,
    Reasoning.evaluateThoughts, Gen.bind.
  rewrite create_run, Hbranches. cbn [Gen.ret fst snd].
  rewrite create_run, Hranking. cbn [Gen.ret fst snd].
  rewrite create_run. rewrite <- app_assoc. cbn [app]. rewrite Hfinal.
  eexists _, _. split; [reflexivity|].
  cbn [Reasoning.reasoning Reasoning.response Reasoning.result_confidence
       Reasoning.tokens_used].
  fold (nonblank_lines (Reasoning.completion_text branches)).
  generalize (take 3 (nonblank_lines (Reasoning.completion_text branches))).
  intros thoughts. split; [|split; [|repeat split]].
  - apply list_eq. intros i.
    change (map Reasoning.thought ?l) with (Reasoning.thought <$> l).
    rewrite list_lookup_fmap, list_lookup_imap.
    now destruct (thoughts !! i).
  - intros k step Hk. rewrite list_lookup_imap in Hk.
    destruct (thoughts !! k); [|discriminate]. injection Hk as <-. now split.
Qed.

Section ConfidenceRange.
Import Gen Reasoning.
Variable gen : Generator.

Lemma confidence_of_count_range n :
  (1 <= n)%nat -> (0.85 <= confidence_of_count n)%Q /\ (confidence_of_count n <= 1)%Q.
Proof.
  intros Hn. split.
  - apply (Qle_trans _ (confidence_of_count 1)); [vm_compute; discriminate|].
    now apply confidence_of_count_mono.
  - unfold confidence_of_count. eapply Qle_trans; [apply Q.le_min_r|discriminate].
Qed.

Lemma react_loop_fixed remaining :
  forall iteration currentInput reasoning totalTokens log new tokens log',
  react_loop gen remaining iteration currentInput reasoning totalTokens log
    = (Returned (new, tokens), log') ->
  fixed_confidence reasoning ->
  fixed_confidence new
  /\ ((0 < remaining)%nat \/ reasoning <> [] -> new <> []).
Proof.
  induction remaining as [|remaining IH];
    intros iteration currentInput reasoning totalTokens log new tokens log' Hrun Hfixed.
  - cbn in Hrun. injection Hrun as <- <- <-. split; [exact Hfixed|].
    intros [Hpos|Hne]; [lia|exact Hne].
  - cbn [react_loop] in Hrun. unfold bind in Hrun. rewrite create_run in Hrun.
    destruct (gen log _) as [e1|thoughtCompletion]; [discriminate|].
    cbv zeta in Hrun. rewrite create_run in Hrun.
    destruct (gen (log ++ _)%list _) as [e2|actionCompletion]; [discriminate|].
    assert (Hmore : forall step, (confidence step == 0.8)%Q ->
                      fixed_confidence (reasoning ++ [step])%list).
    { intros step Hstep. apply Forall_app. split; [exact Hfixed|]. now constructor. }
    destruct (JS.includes "ANSWER" _).
    + injection Hrun as <- <- <-. split; [apply Hmore; reflexivity|].
      intros _ Hnil. now apply app_eq_nil in Hnil as [_ Hnil].
    + apply IH in Hrun as [Hall Hne]; [|apply Hmore; reflexivity].
      split; [exact Hall|]. intros _. apply Hne. right.
      intros Hnil. now apply app_eq_nil in Hnil as [_ Hnil].
Qed.

Lemma strategy_confidence request log result log' :
  match type_ request with
  | chain_of_thought => chainOfThought gen request
  | react => reactMethodology gen request
  | tree_of_thoughts => treeOfThoughts gen request
  | self_reflection => selfReflection gen request
  | other_type name => throw (ErrorObject ("Unknown reasoning type: " ++ name))
  end log = (Returned result, log') ->
  (0.75 <= result_confidence result)%Q /\ (result_confidence result <= 1)%Q.
Proof.
  destruct (type_ request) as [| | | |name].
  - destruct (chainOfThought_run gen request log) as (call & _ & _ & _ & Hrun).
    destruct (gen log call) as [error|completion]; [congruence|].
    destruct Hrun as (answer & _ & ->). intros [= <- _].
    cbn [result_confidence]. set (text := completion_text completion).
    destruct (parse_shape text) as (Hne & _ & Hsome & Hnone).
    destruct (step_lines text) as [|line lines] eqn:Hlines.
    + destruct (Hnone eq_refl) as (only & -> & _ & Hconf).
      unfold calculateConfidence. cbn. rewrite Hconf. split; discriminate.
    + destruct (Hsome ltac:(discriminate)) as (_ & Hfixed).
      rewrite (calculateConfidence_fixed _ Hne Hfixed).
      destruct (confidence_of_count_range
                  (length (parseChainOfThoughtReasoning text))) as [Hlow Hhigh].
      { destruct (parseChainOfThoughtReasoning text); [congruence|cbn; lia]. }
      split; [|exact Hhigh]. eapply Qle_trans; [|exact Hlow]. discriminate.
  - unfold reactMethodology, bind.
    destruct (react_loop gen (maxIterations - 0) 0 (input request) [] 0 log)
      as [[[new tokens]|error] log''] eqn:Hloop; [|discriminate].
    intros [= <- _]. cbn [result_confidence].
    destruct (react_loop_fixed _ _ _ _ _ _ _ _ _ Hloop ltac:(constructor)) as [Hfixed Hne].
    assert (Hnew : new <> []) by (apply Hne; left; cbn; lia).
    rewrite (calculateConfidence_fixed _ Hnew Hfixed).
    destruct (confidence_of_count_range (length new)) as [Hlow Hhigh].
    { destruct new; [congruence|cbn; lia]. }
    split; [|exact Hhigh]. eapply Qle_trans; [|exact Hlow]. discriminate.
  - unfold treeOfThoughts, generateThoughtBranches, evaluateThoughts, bind.
    rewrite create_run. destruct (gen log _) as [e|c1]; [discriminate|].
    cbv zeta. unfold ret at 1. rewrite create_run.
    destruct (gen (log ++ _)%list _) as [e|c2]; [discriminate|].
    unfold ret at 1. cbv zeta. rewrite create_run.
    destruct (gen ((log ++ _) ++ _)%list _) as [e|c3]; [discriminate|].
    intros [= <- _]. split; discriminate.
  - unfold selfReflection, bind.
    rewrite create_run. destruct (gen log _) as [e|c1]; [discriminate|].
    cbv zeta. rewrite create_run.
    destruct (gen (log ++ _)%list _) as [e|c2]; [discriminate|].
    rewrite create_run.
    destruct (gen ((log ++ _) ++ _)%list _) as [e|c3]; [discriminate|].
    intros [= <- _]. split; discriminate.
  - discriminate.
Qed.
End ConfidenceRange.

(** X16. Every result that [process] returns carries the elapsed time as its
    processing time and a confidence between 0.75 and 1, whatever the
    strategy and whatever the generator replies; the request is recorded as
    one successful request with the result's token count. *)
Theorem process_result_range (gen : Gen.Generator) (stats stats' : Reasoning.Stats)
    (request : Reasoning.ReasoningRequest) (elapsed : Q) (log log' : list Gen.Call)
    (result : Reasoning.ReasoningResult) :
  Reasoning.process gen stats request elapsed log = (Gen.Returned result, stats', log') ->
  Reasoning.processing_time result = elapsed
  /\ (0.75 <= Reasoning.result_confidence result)%Q
  /\ (Reasoning.result_confidence result <= 1)%Q
  /\ stats' = Reasoning.record stats (elapsed, Reasoning.tokens_used result, true).
Proof.
  unfold Reasoning.process.
  match goal with
  | |- context [match ?run log with _ => _ end] =>
      destruct (run log) as [[inner|error] log''] eqn:Hrun
  end; [|discriminate].
  intros [= <- <- _]. cbn.
  destruct (strategy_confidence gen request log inner log'' Hrun) as [Hlow Hhigh].
  split; [reflexivity|]. split; [exact Hlow|]. split; [exact Hhigh|reflexivity].
Qed.

(** ** The strategies on concrete runs *)


(** A react request that answers at its second step: four calls. *)
Lemma process_call_budget_witness :
  exists result stats' log',
    Reasoning.process (Scenario.answers_after 3) Reasoning.initial_stats
      Scenario.question 5 [] = (Gen.Returned result, stats', log')
    /\ length (Reasoning.reasoning result) = 2%nat
    /\ length log' = 4%nat.
Proof.
  destruct (Reasoning.process (Scenario.answers_after 3) Reasoning.initial_stats
              Scenario.question 5 []) as [[[result|error] stats'] log'] eqn:Hrun.
  - exists result, stats', log'. split; [reflexivity|].
    destruct (process_call_budget _ _ _ _ _ _ _ _ Hrun) as [_ Hcalls].
    specialize (Hcalls result eq_refl).
    assert (Hsteps : length (Reasoning.reasoning result) = 2%nat).
    { vm_compute in Hrun. injection Hrun as <- _ _. reflexivity. }
    split; [exact Hsteps|]. rewrite Hcalls.
    change (calls_of (Reasoning.type_ Scenario.question) result)
      with (2 * length (Reasoning.reasoning result))%nat.
    rewrite Hsteps. reflexivity.
  - vm_compute in Hrun. discriminate Hrun.
Defined.

(** An action that names both SEARCH and ANSWER. *)
Lemma react_search_wins_over_answer_witness :
  exists result log',
    Reasoning.reactMethodology (Episode.always "SEARCH first, then ANSWER")
      Scenario.question [] = (Gen.Returned result, log')
    /\ length (Reasoning.reasoning result) = 1%nat
    /\ Reasoning.response result
       = "Search results: [Simulated search results related to the query]".
Proof.
  destruct (react_search_wins_over_answer (Episode.always "SEARCH first, then ANSWER")
              Scenario.question [])
    as (result & log' & Hrun & Hsteps & _ & Hresponse).
  - intros call. eexists. reflexivity.
  - intros thoughtCall call. eexists. split; [reflexivity|]. split; reflexivity.
  - exists result, log'. split; [exact Hrun|]. split; [exact Hsteps|exact Hresponse].
Defined.

(** Three approaches, a ranking that reverses them, and a final answer: the
    steps keep the order of the first reply. *)
Lemma treeOfThoughts_ignores_ranking_witness :
  let gen :=
    Episode.three_replies
      ("count up" ++ JS.nl ++ JS.nl ++ "use a table" ++ JS.nl ++ "guess" ++ JS.nl ++ "ask")
      "3, 2, 1" "42" in
  exists result log',
    Reasoning.treeOfThoughts gen Episode.branching_question [] = (Gen.Returned result, log')
    /\ map Reasoning.thought (Reasoning.reasoning result)
       = ["count up"; "use a table"; "guess"]
    /\ Reasoning.response result = "42".
Proof.
  intros gen.
  destruct (treeOfThoughts_ignores_ranking gen Episode.branching_question []
              {| Gen.content := Some ("count up" ++ JS.nl ++ JS.nl ++ "use a table" ++ JS.nl
                                        ++ "guess" ++ JS.nl ++ "ask");
                 Gen.total_tokens := Some 10%nat |}
              {| Gen.content := Some "3, 2, 1"; Gen.total_tokens := Some 10%nat |}
              {| Gen.content := Some "42"; Gen.total_tokens := Some 10%nat |})
    as (result & log' & Hrun & Hthoughts & _ & Hresponse & _).
  - intros call. reflexivity.
  - intros first call. reflexivity.
  - intros first second call. reflexivity.
  - exists result, log'. split; [exact Hrun|]. split; [|exact Hresponse].
    rewrite Hthoughts. vm_compute. reflexivity.
Defined.

(** The react request that answers at its second step: two steps of
    confidence 0.8 give the confidence 0.9. *)
Lemma process_result_range_witness :
  exists result stats' log',
    Reasoning.process (Scenario.answers_after 3) Reasoning.initial_stats
      Scenario.question 5 [] = (Gen.Returned result, stats', log')
    /\ Reasoning.processing_time result = 5%Q
    /\ (Reasoning.result_confidence result == 0.9)%Q.
Proof.
  destruct (Reasoning.process (Scenario.answers_after 3) Reasoning.initial_stats
              Scenario.question 5 []) as [[[result|error] stats'] log'] eqn:Hrun.
  - exists result, stats', log'. split; [reflexivity|].
    destruct (process_result_range _ _ _ _ _ _ _ _ Hrun) as [Htime _].
    split; [exact Htime|].
    vm_compute in Hrun. injection Hrun as <- _ _. reflexivity.
  - vm_compute in Hrun. discriminate Hrun.
Defined.

(** ** The topologies, further *)

Section SequentialShape.
Import Gen Orchestrator.
Variable gen : Generator.

Lemma sequential_loop_shape rest :
  forall totalSteps i currentInput steps log,
  exists new ok issued,
    sequential_loop gen totalSteps i rest currentInput steps log
      = (Returned ((steps ++ new)%list, ok), (log ++ issued)%list)
    /\ (length new <= length rest)%nat
    /\ length issued = length new
    /\ (forall k step, new !! k = Some step ->
          CollaborationStep.step_number step = (i + k + 1)%nat
          /\ rest !! k = Some (CollaborationStep.agent step)
          /\ (CollaborationStep.success step = false ->
              S k = length new
              /\ exists error, CollaborationStep.output step = error_output error))
    /\ ok = forallb CollaborationStep.success new
    /\ (ok = true -> length new = length rest)
    /\ (rest <> [] -> new <> []).
Proof.
  induction rest as [|agent rest IH]; intros totalSteps i currentInput steps log.
  - exists [], true, []. cbn. rewrite !app_nil_r. split; [reflexivity|].
    split; [lia|]. split; [lia|]. split; [intros k step Hk; destruct k; discriminate|].
    split; [reflexivity|]. split; [reflexivity|congruence].
  - cbn [sequential_loop]. unfold bind, attempt. rewrite executeAgentTask_run.
    destruct (gen log _) as [e|c].
    + eexists [_], false, [_]. split; [reflexivity|]. cbn.
      split; [lia|]. split; [reflexivity|]. split.
      * intros [|k] step Hk; [|destruct k; discriminate]. injection Hk as <-. cbn.
        split; [lia|]. split; [reflexivity|]. intros _. split; [reflexivity|eauto].
      * split; [reflexivity|]. split; discriminate.
    + edestruct IH as (new & ok & issued & Hrun & Hlen & Hlog & Hsteps & Hok & Hall & _).
      rewrite Hrun. eexists (_ :: new), ok, (_ :: issued).
      rewrite <- !app_assoc. split; [reflexivity|]. cbn [length].
      split; [lia|]. split; [now rewrite Hlog|]. split.
      * intros [|k] step Hk.
        -- injection Hk as <-. cbn. split; [lia|]. split; [reflexivity|discriminate].
        -- destruct (Hsteps k step Hk) as (Hn & Ha & Hfail).
           split; [lia|]. split; [exact Ha|]. intros Hf. destruct (Hfail Hf) as [Hlast He].
           split; [lia|exact He].
      * split; [cbn; exact Hok|]. split; [intros Htrue; rewrite (Hall Htrue); reflexivity|].
        discriminate.
Qed.

Lemma sequential_run request agents log :
  exists new ok issued,
    sequential_loop gen (length agents) 0 agents (CollaborationRequest.task request) [] log
      = (Returned (new, ok), (log ++ issued)%list)
    /\ sequentialCollaboration gen request agents log
       = (Returned
            {| CollaborationResult.task := CollaborationRequest.task request;
               CollaborationResult.type_ := "sequential";
               CollaborationResult.agents_used := agents;
               CollaborationResult.steps := new;
               CollaborationResult.final_result :=
                 JS.or_else (CollaborationStep.output <$> JS.last_elem new) "No result";
               CollaborationResult.execution_time := 0;
               CollaborationResult.success := ok |}, (log ++ issued)%list).
Proof.
  unfold sequentialCollaboration, bind.
  destruct (sequential_loop_shape agents (length agents) 0
              (CollaborationRequest.task request) [] log)
    as (new & ok & issued & Hrun & _).
  cbn [app] in Hrun. rewrite Hrun. now exists new, ok, issued.
Qed.
End SequentialShape.

(** X17. A sequential collaboration always returns.  It issues one call per
    recorded step and records at most one step per agent, numbered from 1 and
    carrying the agents in the order given.  Only the last recorded step can
    be a failed one; the overall [success] is the conjunction of the steps'
    flags, and when it is true every agent has a step. *)
Theorem sequential_shape (gen : Gen.Generator)
    (request : Orchestrator.CollaborationRequest.t) (agents : list Orchestrator.Agent)
    (log : list Gen.Call) :
  exists result log',
    Orchestrator.sequentialCollaboration gen request agents log = (Gen.Returned result, log')
    /\ let steps := Orchestrator.CollaborationResult.steps result in
       (length steps <= length agents)%nat
       /\ length log' = (length log + length steps)%nat
       /\ (forall k step, steps !! k = Some step ->
             Orchestrator.CollaborationStep.step_number step = (k + 1)%nat
             /\ agents !! k = Some (Orchestrator.CollaborationStep.agent step)
             /\ (Orchestrator.CollaborationStep.success step = false ->
                 S k = length steps))
       /\ Orchestrator.CollaborationResult.success result
          = forallb Orchestrator.CollaborationStep.success steps
       /\ (Orchestrator.CollaborationResult.success result = true ->
           length steps = length agents).
Proof.
  destruct (sequential_run gen request agents log) as (new & ok & issued & Hloop & Hrun).
  destruct (sequential_loop_shape gen agents (length agents) 0
              (Orchestrator.CollaborationRequest.task request) [] log)
    as (new' & ok' & issued' & Hloop' & Hlen & Hlog & Hsteps & Hok & Hall & _).
  cbn [app] in Hloop'. rewrite Hloop in Hloop'. injection Hloop' as <- <- Hsame.
  apply app_inv_head in Hsame. subst issued'.
  eexists _, _. split; [exact Hrun|]. cbn.
  split; [exact Hlen|]. split; [rewrite length_app; lia|]. split.
  - intros k step Hk. destruct (Hsteps k step Hk) as (Hn & Ha & Hfail).
    split; [exact Hn|]. split; [exact Ha|]. intros Hf. exact (proj1 (Hfail Hf)).
  - split; [exact Hok|exact Hall].
Qed.

(** X18. For a non-empty list of agents the [final_result] of a sequential
    collaboration is the output of the last recorded step, or the text
    ["No result"] when that output is empty (a completion without content),
    even though [success] may be true.  After a failure it is the error text
    ["Error: " + message] of the failed step. *)
Theorem sequential_final_result (gen : Gen.Generator)
    (request : Orchestrator.CollaborationRequest.t) (agents : list Orchestrator.Agent)
    (log : list Gen.Call) :
  agents <> [] ->
  exists result log' final,
    Orchestrator.sequentialCollaboration gen request agents log = (Gen.Returned result, log')
    /\ last (Orchestrator.CollaborationResult.steps result) = Some final
    /\ Orchestrator.CollaborationResult.final_result result
       = (if JS.is_empty (Orchestrator.CollaborationStep.output final) then "No result"
          else Orchestrator.CollaborationStep.output final)
    /\ (Orchestrator.CollaborationResult.success result = false ->
        Orchestrator.CollaborationStep.success final = false
        /\ exists error,
             Orchestrator.CollaborationResult.final_result result
             = "Error: " ++ Gen.message_of error).
Proof.
  intros Hne.
  destruct (sequential_run gen request agents log) as (new & ok & issued & Hloop & Hrun).
  destruct (sequential_loop_shape gen agents (length agents) 0
              (Orchestrator.CollaborationRequest.task request) [] log)
    as (new' & ok' & issued' & Hloop' & Hlen & Hlog & Hsteps & Hok & Hall & Hsome).
  cbn [app] in Hloop'. rewrite Hloop in Hloop'. injection Hloop' as <- <- _.
  destruct (last new) as [final|] eqn:Hlast;
    [|apply last_None in Hlast; now apply Hsome in Hne].
  eexists _, _, final. split; [exact Hrun|]. cbn.
  split; [exact Hlast|]. unfold JS.last_elem. rewrite Hlast. cbn. split; [reflexivity|].
  intros Hfalse. rewrite Hok in Hfalse.
  assert (Hfailed : exists k step, new !! k = Some step
                      /\ Orchestrator.CollaborationStep.success step = false).
  { clear -Hfalse. induction new as [|s new IH]; [discriminate|].
    cbn in Hfalse. apply andb_false_iff in Hfalse as [Hs|Hrest].
    - now exists 0%nat, s.
    - destruct (IH Hrest) as (k & step & Hk & Hf). now exists (S k), step. }
  destruct Hfailed as (k & step & Hk & Hf).
  destruct (Hsteps k step Hk) as (_ & _ & Hfail). destruct (Hfail Hf) as (Hpos & error & Hout).
  assert (step = final).
  { rewrite last_lookup in Hlast. rewrite <- Hpos in Hlast. cbn in Hlast. congruence. }
  subst step. split; [exact Hf|]. exists error. rewrite Hout. reflexivity.
Qed.

Section HierarchicalShape.
Import Gen Orchestrator.
Variable gen : Generator.

Lemma worker_branches_run task assignments :
  forall i log,
  exists results calls,
    map_indexed (worker_branch gen task) i assignments log
      = (Returned results, (log ++ calls)%list)
    /\ length results = length assignments
    /\ length calls = length assignments
    /\ forall k step, results !! k = Some step ->
         CollaborationStep.step_number step = (i + k + 2)%nat
         /\ assignments !! k
            = Some (CollaborationStep.input step, CollaborationStep.agent step).
Proof.
  induction assignments as [|[subtask worker] rest IH]; intros i log.
  - exists [], []. cbn. rewrite app_nil_r. split; [reflexivity|].
    split; [reflexivity|]. split; [reflexivity|].
    intros k step Hk. destruct k; discriminate.
  - cbn [map_indexed]. unfold bind.
    destruct (worker_branch_run gen task i subtask worker log)
      as (first & Hfirst & Hnum & Hagent & Hinput & _).
    rewrite Hfirst.
    destruct (IH (S i) (log ++ [agentCall worker (buildWorkerPrompt worker subtask task)])%list)
      as (results & calls & Hrest & Hlen & Hcalls & Hsteps).
    rewrite Hrest.
    exists (first :: results),
      (agentCall worker (buildWorkerPrompt worker subtask task) :: calls). unfold ret.
    rewrite <- app_assoc. split; [reflexivity|].
    split; [cbn [length]; now rewrite Hlen|]. split; [cbn [length]; now rewrite Hcalls|].
    intros [|k] step Hk.
    + injection Hk as <-. rewrite Hnum, Hagent, Hinput. split; [lia|reflexivity].
    + destruct (Hsteps k step Hk) as (Hn & Ha). split; [lia|exact Ha].
Qed.

Lemma hierarchical_resolved request leader workers log completion :
  let task := CollaborationRequest.task request in
  let leaderCall := agentCall leader (buildLeaderPrompt leader task workers) in
  let breakdown := JS.or_else (content completion) EmptyString in
  let subtasks := parseSubtasks breakdown in
  gen log leaderCall = Resolves completion ->
  exists workerSteps calls,
    length workerSteps = Nat.min (length subtasks) (length workers)
    /\ length calls = length workerSteps
    /\ (forall k step, workerSteps !! k = Some step ->
          CollaborationStep.step_number step = (k + 2)%nat
          /\ workers !! k = Some (CollaborationStep.agent step)
          /\ subtasks !! k = Some (CollaborationStep.input step))
    /\ let synthesisCall := hierarchicalSynthesisCall task breakdown workerSteps in
       let before := (log ++ leaderCall :: calls)%list in
       hierarchicalCollaboration gen request (leader :: workers) log
       = (match gen before synthesisCall with
          | Rejects error => Threw error
          | Resolves final =>
              let finalSynthesis :=
                JS.or_else (content final) "Failed to synthesize final result" in
              Returned
                {| CollaborationResult.task := task;
                   CollaborationResult.type_ := "hierarchical";
                   CollaborationResult.agents_used := leader :: workers;
                   CollaborationResult.steps :=
                     ({| CollaborationStep.step_number := 1;
                         CollaborationStep.agent := leader;
                         CollaborationStep.input := task;
                         CollaborationStep.output := breakdown;
                         CollaborationStep.success := true |}
                      :: workerSteps
                      ++ [{| CollaborationStep.step_number := length workerSteps + 2;
                             CollaborationStep.agent := leader;
                             CollaborationStep.input := "Synthesis of worker results";
                             CollaborationStep.output := finalSynthesis;
                             CollaborationStep.success := true |}])%list;
                   CollaborationResult.final_result := finalSynthesis;
                   CollaborationResult.execution_time := 0;
                   CollaborationResult.success :=
                     forallb CollaborationStep.success workerSteps |}
          end, (before ++ [synthesisCall])%list).
Proof.
  intros task leaderCall breakdown subtasks Hleader.
  unfold hierarchicalCollaboration, bind.
  rewrite executeAgentTask_run. fold task leaderCall. rewrite Hleader.
  fold breakdown subtasks.
  destruct (worker_branches_run task (zip (take (length workers) subtasks) workers) 0
              (log ++ [leaderCall])%list)
    as (workerSteps & calls & Hrun & Hlen & Hcalls & Hsteps).
  rewrite Hrun. exists workerSteps, calls.
  assert (Hcount : length workerSteps = Nat.min (length subtasks) (length workers)).
  { rewrite Hlen, length_zip, length_take. lia. }
  split; [exact Hcount|]. split; [congruence|]. split.
  - intros k step Hk. destruct (Hsteps k step Hk) as (Hn & Ha).
    split; [exact Hn|].
    apply lookup_zip_with_Some in Ha as (subtask & worker & Heq & Hs & Hw).
    injection Heq as -> ->. split; [exact Hw|].
    apply lookup_take_Some in Hs as [Hs _]. exact Hs.
  - cbv zeta. unfold synthesizeHierarchicalResults, bind, create, ret.
    rewrite <- !app_assoc. cbn [app].
    destruct (gen (log ++ leaderCall :: calls)%list _) as [e|final]; [reflexivity|].
    cbn [app length].
    replace (S (length workerSteps) + 1)%nat with (length workerSteps + 2)%nat by lia.
    reflexivity.
Qed.
End HierarchicalShape.

(** X19. When the leader's breakdown call resolves, a hierarchical collaboration
    runs one worker step for each of the first [min(#subtasks, #workers)]
    parsed subtasks: the [k]-th step is numbered [k + 2] and gives the [k]-th
    subtask to the [k]-th worker, so further subtasks and further workers are
    left out.  It then issues the synthesis call.  The returned trace is the
    leader's step, the worker steps and the leader's synthesis step, all
    numbered in sequence; both leader steps are marked successful and the
    overall [success] is the conjunction of the worker steps' flags alone. *)
Theorem hierarchical_shape (gen : Gen.Generator)
    (request : Orchestrator.CollaborationRequest.t)
    (leader : Orchestrator.Agent) (workers : list Orchestrator.Agent)
    (log : list Gen.Call) (completion : Gen.Completion) :
  let task := Orchestrator.CollaborationRequest.task request in
  let leaderCall :=
    Orchestrator.agentCall leader (Orchestrator.buildLeaderPrompt leader task workers) in
  let breakdown := JS.or_else (Gen.content completion) EmptyString in
  let subtasks := Orchestrator.parseSubtasks breakdown in
  gen log leaderCall = Gen.Resolves completion ->
  exists outcome workerSteps log',
    Orchestrator.hierarchicalCollaboration gen request (leader :: workers) log
      = (outcome, log')
    /\ length workerSteps = Nat.min (length subtasks) (length workers)
    /\ length log' = (length log + length workerSteps + 2)%nat
    /\ last log' = Some (Orchestrator.hierarchicalSynthesisCall task breakdown workerSteps)
    /\ (forall k step, workerSteps !! k = Some step ->
          Orchestrator.CollaborationStep.step_number step = (k + 2)%nat
          /\ workers !! k = Some (Orchestrator.CollaborationStep.agent step)
          /\ subtasks !! k = Some (Orchestrator.CollaborationStep.input step))
    /\ forall result, outcome = Gen.Returned result ->
         exists first final,
           Orchestrator.CollaborationResult.steps result
             = (first :: workerSteps ++ [final])%list
           /\ Orchestrator.CollaborationStep.step_number first = 1%nat
           /\ Orchestrator.CollaborationStep.agent first = leader
           /\ Orchestrator.CollaborationStep.output first = breakdown
           /\ Orchestrator.CollaborationStep.success first = true
           /\ Orchestrator.CollaborationStep.step_number final
              = (length workerSteps + 2)%nat
           /\ Orchestrator.CollaborationStep.agent final = leader
           /\ Orchestrator.CollaborationStep.success final = true
           /\ Orchestrator.CollaborationResult.final_result result
              = Orchestrator.CollaborationStep.output final
           /\ Orchestrator.CollaborationResult.success result
              = forallb Orchestrator.CollaborationStep.success workerSteps.
Proof.
  intros task leaderCall breakdown subtasks Hleader.
  destruct (hierarchical_resolved gen request leader workers log completion Hleader)
    as (workerSteps & calls & Hcount & Hcalls & Hsteps & Hrun).
  cbv zeta in Hrun. fold task leaderCall breakdown in Hrun.
  eexists _, workerSteps, _. split; [exact Hrun|].
  split; [exact Hcount|]. split.
  { rewrite !length_app. cbn [length]. lia. }
  split; [apply last_snoc|]. split; [exact Hsteps|].
  intros result Hout.
  destruct (gen (log ++ leaderCall :: calls)%list _) as [e|final]; [discriminate|].
  injection Hout as <-. eexists _, _. cbn. repeat split.
Qed.

(** X20. A hierarchical collaboration throws only when the generator rejects a
    call of the leader, and then with that rejection: either the breakdown
    call, after which no further call is issued, or the closing synthesis
    call, in which case the workers' steps are lost.  A rejected worker call
    never makes it throw. *)
Theorem hierarchical_throws_on_leader_calls (gen : Gen.Generator)
    (request : Orchestrator.CollaborationRequest.t)
    (leader : Orchestrator.Agent) (workers : list Orchestrator.Agent)
    (log log' : list Gen.Call) (error : Gen.Thrown) :
  let task := Orchestrator.CollaborationRequest.task request in
  let leaderCall :=
    Orchestrator.agentCall leader (Orchestrator.buildLeaderPrompt leader task workers) in
  Orchestrator.hierarchicalCollaboration gen request (leader :: workers) log
    = (Gen.Threw error, log') ->
  (gen log leaderCall = Gen.Rejects error /\ log' = (log ++ [leaderCall])%list)
  \/ exists completion workerSteps calls,
       gen log leaderCall = Gen.Resolves completion
       /\ length calls = length workerSteps
       /\ let synthesisCall :=
            Orchestrator.hierarchicalSynthesisCall task
              (JS.or_else (Gen.content completion) EmptyString) workerSteps in
          log' = (log ++ leaderCall :: calls ++ [synthesisCall])%list
          /\ gen (log ++ leaderCall :: calls)%list synthesisCall = Gen.Rejects error.
Proof.
  intros task leaderCall Hrun.
  destruct (gen log leaderCall) as [e|completion] eqn:Hleader.
  - left. unfold Orchestrator.hierarchicalCollaboration, Gen.bind in Hrun.
    rewrite executeAgentTask_run in Hrun. fold task leaderCall in Hrun.
    rewrite Hleader in Hrun. now injection Hrun as <- <-.
  - right.
    destruct (hierarchical_resolved gen request leader workers log completion Hleader)
      as (workerSteps & calls & _ & Hcalls & _ & Hshape).
    cbv zeta in Hshape. fold task leaderCall in Hshape. rewrite Hshape in Hrun.
    exists completion, workerSteps, calls. split; [reflexivity|]. split; [exact Hcalls|].
    cbv zeta.
    destruct (gen (log ++ leaderCall :: calls)%list _) as [e|final] eqn:Hsynthesis;
      [|discriminate].
    injection Hrun as <- <-. rewrite <- app_assoc. split; reflexivity.
Qed.

(** ** Parsing the breakdown *)

Section Trim.
Import JS.

Lemma trimStart_clean s : starts_clean (trimStart s).
Proof.
  induction s as [|c s IH]; [exact I|].
  cbn [trimStart]. destruct (is_space c) eqn:Hc; [exact IH|exact Hc].
Qed.

Lemma trimStart_of_clean s : starts_clean s -> trimStart s = s.
Proof. destruct s as [|c s]; [reflexivity|]. cbn. now intros ->. Qed.

Lemma trimEnd_clean s : starts_clean s -> starts_clean (trimEnd s).
Proof.
  destruct s as [|c s]; [trivial|]. cbn. intros Hc. rewrite Hc. exact Hc.
Qed.

Lemma trimEnd_trimEnd s : trimEnd (trimEnd s) = trimEnd s.
Proof.
  induction s as [|c s IH]; [reflexivity|].
  cbn [trimEnd]. destruct (is_space c && is_empty (trimEnd s)) eqn:Hcond; [reflexivity|].
  cbn [trimEnd]. now rewrite IH, Hcond.
Qed.

Lemma trim_trim s : trim (trim s) = trim s.
Proof.
  unfold trim.
  rewrite (trimStart_of_clean (trimEnd (trimStart s)))
    by apply trimEnd_clean, trimStart_clean.
  apply trimEnd_trimEnd.
Qed.
End Trim.

Lemma subtask_lines_omap lines :
  Orchestrator.subtask_lines lines = omap after_first_colon lines.
Proof.
  induction lines as [|line lines IH]; [reflexivity|].
  change (omap after_first_colon (line :: lines))
    with (match after_first_colon line with
          | Some subtask => subtask :: omap after_first_colon lines
          | None => omap after_first_colon lines
          end).
  cbn [Orchestrator.subtask_lines]. unfold after_first_colon at 1.
  destruct (JS.includes "SUBTASK" (JS.toUpperCase line)); [|exact IH].
  destruct (JS.indexOf ":" line); now rewrite IH.
Qed.

(** X21. [parseSubtasks] keeps, in the order of the lines, the text after the
    first colon of every line that names SUBTASK in any case and has a colon;
    however many there are, it returns them all, each one trimmed on both
    sides.  Only when no line qualifies (marked lines without a colon count
    for nothing) does it fall back on the first three long paragraphs. *)
Theorem parseSubtasks_marked (breakdown : string) :
  let found := omap after_first_colon (JS.split JS.nl breakdown) in
  (found <> [] ->
   Orchestrator.parseSubtasks breakdown = found
   /\ Forall (fun subtask => JS.trim subtask = subtask)
        (Orchestrator.parseSubtasks breakdown))
  /\ (found = [] ->
      Orchestrator.parseSubtasks breakdown = take 3 (long_paragraphs breakdown)).
Proof.
  intros found. unfold Orchestrator.parseSubtasks. rewrite subtask_lines_omap. fold found.
  split.
  - intros Hne. destruct found as [|subtask rest] eqn:Hfound; [congruence|].
    cbn [length Nat.eqb]. split; [reflexivity|].
    rewrite <- Hfound. unfold found. clear.
    induction (JS.split JS.nl breakdown) as [|line lines IH]; [constructor|].
    change (omap after_first_colon (line :: lines))
      with (match after_first_colon line with
            | Some subtask => subtask :: omap after_first_colon lines
            | None => omap after_first_colon lines
            end).
    destruct (after_first_colon line) as [subtask|] eqn:Hline; [|exact IH].
    constructor; [|exact IH].
    unfold after_first_colon in Hline.
    destruct (JS.includes "SUBTASK" (JS.toUpperCase line)); [|discriminate].
    destruct (JS.indexOf ":" line); [|discriminate].
    injection Hline as <-. apply trim_trim.
  - intros ->. reflexivity.
Qed.

(** ** The registry *)

Lemma resolved_unique (registry : gmap string Orchestrator.Agent) (ids : list string) :
  forall found found',
  Forall2 (fun id agent => registry !! id = Some agent) ids found ->
  Forall2 (fun id agent => registry !! id = Some agent) ids found' ->
  found = found'.
Proof.
  induction ids as [|id ids IH]; intros found found' H H'.
  - inversion H. inversion H'. reflexivity.
  - inversion H as [|? a ? l Ha Hl]. inversion H' as [|? a' ? l' Ha' Hl']. subst.
    f_equal; [congruence|]. now apply IH.
Qed.

Lemma validateAndGetAgents_iff (registry : gmap string Orchestrator.Agent)
    (agentIds : list string) (agents : list Orchestrator.Agent) :
  Orchestrator.validateAndGetAgents registry agentIds = Gen.Returned agents
  <-> agentIds <> []
      /\ Forall2 (fun id agent => registry !! id = Some agent) agentIds agents.
Proof.
  split.
  - intros Hrun. destruct (validateAndGetAgents_found _ _ _ Hrun) as [Hne Hall].
    split; [|exact Hall]. intros ->. inversion Hall. congruence.
  - intros [Hne Hall].
    assert (Hreg : Forall (fun id => is_Some (registry !! id)) agentIds).
    { clear Hne. induction Hall; constructor; eauto. }
    destruct (validateAndGetAgents_registered _ _ Hne Hreg) as (found & Hrun).
    rewrite Hrun. f_equal.
    destruct (validateAndGetAgents_found _ _ _ Hrun) as [_ Hfound].
    exact (resolved_unique _ _ _ _ Hfound Hall).
Qed.

(** X22. [validateAndGetAgents] returns a list exactly when the id list is
    not empty and every id is registered; the list then holds, position by
    position, the agent registered under each id, so it is as long as the id
    list and repeats an agent whose id is repeated. *)
Theorem validateAndGetAgents_resolves (registry : gmap string Orchestrator.Agent)
    (agentIds : list string) (agents : list Orchestrator.Agent) :
  Orchestrator.validateAndGetAgents registry agentIds = Gen.Returned agents
  <-> agentIds <> []
      /\ Forall2 (fun id agent => registry !! id = Some agent) agentIds agents.
Proof. exact (validateAndGetAgents_iff registry agentIds agents). Qed.

(** X23. After [registerAgent] the agent is what its own id resolves to,
    replacing any agent filed under that id before; every other id resolves
    as it did, and the statistics are untouched. *)
Theorem registerAgent_then_resolve (self : Orchestrator.Orchestrator)
    (agent : Orchestrator.Agent) :
  let self' := Orchestrator.registerAgent self agent in
  Orchestrator.validateAndGetAgents (Orchestrator.agents self') [Orchestrator.id agent]
    = Gen.Returned [agent]
  /\ (forall other, other <> Orchestrator.id agent ->
        Orchestrator.agents self' !! other = Orchestrator.agents self !! other)
  /\ (forall ids agents,
        Orchestrator.id agent ∉ ids ->
        Orchestrator.validateAndGetAgents (Orchestrator.agents self) ids = Gen.Returned agents ->
        Orchestrator.validateAndGetAgents (Orchestrator.agents self') ids = Gen.Returned agents)
  /\ Orchestrator.stats self' = Orchestrator.stats self.
Proof.
  intros self'. split; [|split; [|split]].
  - apply validateAndGetAgents_iff. split; [discriminate|].
    constructor; [|constructor]. cbn. apply lookup_insert_eq.
  - intros other Hother. cbn. now apply lookup_insert_ne.
  - intros ids agents Hfresh Hrun.
    apply validateAndGetAgents_iff in Hrun as [Hne Hall].
    apply validateAndGetAgents_iff. split; [exact Hne|].
    clear Hne. induction Hall as [|id a ids agents Hid _ IH]; constructor.
    + cbn. rewrite lookup_insert_ne; [exact Hid|]. intros <-. apply Hfresh. left.
    + apply IH. intros Hin. apply Hfresh. now right.
  - reflexivity.
Qed.

(** ** [collaborate] as a whole *)

Section CollaborateRun.
Import Gen Orchestrator.
Variable gen : Generator.

Lemma parallel_calls_length task totalSteps agents :
  forall i, length (parallel_calls task totalSteps i agents) = length agents.
Proof.
  induction agents as [|agent rest IH]; intros i; [reflexivity|].
  cbn [parallel_calls length]. now rewrite IH.
Qed.

Lemma sequential_bound request agents log :
  exists outcome issued,
    sequentialCollaboration gen request agents log = (outcome, (log ++ issued)%list)
    /\ (length issued <= length agents + 1)%nat
    /\ forall result, outcome = Returned result ->
         CollaborationResult.agents_used result = agents.
Proof.
  unfold sequentialCollaboration, bind.
  destruct (sequential_loop_shape gen agents (length agents) 0
              (CollaborationRequest.task request) [] log)
    as (new & ok & issued & Hrun & Hlen & Hlog & _).
  cbn [app] in Hrun. rewrite Hrun. eexists _, issued. split; [reflexivity|].
  split; [lia|]. now intros result [= <-].
Qed.

Lemma parallel_bound request agents log :
  exists outcome issued,
    parallelCollaboration gen request agents log = (outcome, (log ++ issued)%list)
    /\ (length issued <= length agents + 1)%nat
    /\ forall result, outcome = Returned result ->
         CollaborationResult.agents_used result = agents.
Proof.
  unfold parallelCollaboration, bind.
  destruct (parallel_branches_run gen (CollaborationRequest.task request)
              (length agents) agents 0 log) as (results & Hrun & _).
  rewrite Hrun, synthesizeParallelResults_run.
  pose proof (parallel_calls_length (CollaborationRequest.task request)
                (length agents) agents 0) as Hcalls.
  destruct (List.filter CollaborationStep.success results) as [|winner winners].
  - eexists _, _. split; [reflexivity|]. split; [lia|]. now intros result [= <-].
  - rewrite <- app_assoc.
    destruct (gen _ (parallelSynthesisCall _ _)) as [e|c];
      eexists _, _; (split; [reflexivity|]);
      (split; [rewrite length_app; cbn [length]; lia|]).
    + discriminate.
    + now intros result [= <-].
Qed.

Lemma hierarchical_bound request agents log :
  exists outcome issued,
    hierarchicalCollaboration gen request agents log = (outcome, (log ++ issued)%list)
    /\ (length issued <= length agents + 1)%nat
    /\ forall result, outcome = Returned result ->
         CollaborationResult.agents_used result = agents.
Proof.
  destruct agents as [|leader workers].
  - exists (Threw (type_error "Cannot read properties of undefined (reading 'model')")), [].
    rewrite app_nil_r. split; [reflexivity|]. split; [cbn; lia|discriminate].
  - destruct (gen log (agentCall leader
                (buildLeaderPrompt leader (CollaborationRequest.task request) workers)))
      as [e|completion] eqn:Hleader.
    + unfold hierarchicalCollaboration, bind. rewrite executeAgentTask_run, Hleader.
      eexists _, [_]. split; [reflexivity|]. split; [cbn; lia|discriminate].
    + destruct (hierarchical_resolved gen request leader workers log completion Hleader)
        as (workerSteps & calls & Hcount & Hcalls & _ & Hrun).
      cbv zeta in Hrun. rewrite Hrun.
      eexists _, (_ :: calls ++ [_])%list. rewrite <- app_assoc. cbn [app].
      split; [reflexivity|].
      split; [cbn [length]; rewrite length_app; cbn [length]; lia|].
      intros result Hout.
      destruct (gen (log ++ _ :: calls)%list _) as [e|final]; [discriminate|].
      now injection Hout as <-.
Qed.

Lemma collaborate_run self request elapsed log :
  let agentIds := CollaborationRequest.agents request in
  exists outcome issued,
    collaborate gen self request elapsed log
      = (outcome,
         with_stats self
           (record (stats self) (elapsed, length agentIds, recorded_flag outcome)),
         (log ++ issued)%list)
    /\ (length issued <= length agentIds + 1)%nat
    /\ forall result, outcome = Returned result ->
         CollaborationResult.execution_time result = elapsed
         /\ Forall2 (fun id agent => agents self !! id = Some agent) agentIds
              (CollaborationResult.agents_used result).
Proof.
  intros agentIds. unfold collaborate, bind, lift.
  cbn [agents stats with_stats]. fold agentIds.
  destruct (validateAndGetAgents (agents self) agentIds) as [selected|e] eqn:Hvalid.
  - destruct (validateAndGetAgents_found _ _ _ Hvalid) as [_ Hresolved].
    pose proof (Forall2_length _ _ _ Hresolved) as Hlen.
    assert (Hrun : exists outcome issued,
               match CollaborationRequest.type_ request with
               | sequential => sequentialCollaboration gen request selected
               | parallel => parallelCollaboration gen request selected
               | hierarchical => hierarchicalCollaboration gen request selected
               | other_type name => throw (ErrorObject ("Unknown collaboration type: " ++ name))
               end log = (outcome, (log ++ issued)%list)
               /\ (length issued <= length selected + 1)%nat
               /\ forall result, outcome = Returned result ->
                    CollaborationResult.agents_used result = selected).
    { destruct (CollaborationRequest.type_ request).
      - apply sequential_bound.
      - apply parallel_bound.
      - apply hierarchical_bound.
      - eexists _, []. rewrite app_nil_r. split; [reflexivity|].
        split; [cbn; lia|discriminate]. }
    destruct Hrun as (outcome & issued & -> & Hbound & Hused).
    destruct outcome as [result|error].
    + exists (Returned
                {| CollaborationResult.task := CollaborationResult.task result;
                   CollaborationResult.type_ := CollaborationResult.type_ result;
                   CollaborationResult.agents_used := CollaborationResult.agents_used result;
                   CollaborationResult.steps := CollaborationResult.steps result;
                   CollaborationResult.final_result :=
                     CollaborationResult.final_result result;
                   CollaborationResult.execution_time := elapsed;
                   CollaborationResult.success := CollaborationResult.success result |}),
        issued. unfold ret. cbn [recorded_flag CollaborationResult.success].
      rewrite Hlen. split; [reflexivity|]. split; [lia|].
      intros result' [= <-]. cbn. split; [reflexivity|].
      now rewrite (Hused result eq_refl).
    + exists (Threw error), issued. split; [reflexivity|]. split; [lia|discriminate].
  - exists (Threw e), []. rewrite app_nil_r. split; [reflexivity|].
    split; [cbn; lia|discriminate].
Qed.
End CollaborateRun.

(** X24. Whatever the outcome, [collaborate] leaves the registry as it was and
    records exactly one sample: the elapsed time, the number of requested ids
    and the result's [success] flag, or [false] when it throws (also when the
    ids did not resolve to any agent).  A returned result carries the elapsed
    time and, position by position, the agents registered under the
    requested ids. *)
Theorem collaborate_bookkeeping (gen : Gen.Generator) (self : Orchestrator.Orchestrator)
    (request : Orchestrator.CollaborationRequest.t) (elapsed : Q) (log : list Gen.Call) :
  let agentIds := Orchestrator.CollaborationRequest.agents request in
  exists outcome self' log',
    Orchestrator.collaborate gen self request elapsed log = (outcome, self', log')
    /\ Orchestrator.agents self' = Orchestrator.agents self
    /\ Orchestrator.stats self'
       = Orchestrator.record (Orchestrator.stats self)
           (elapsed, length agentIds, recorded_flag outcome)
    /\ Orchestrator.total_collaborations (Orchestrator.stats self')
       = (Orchestrator.total_collaborations (Orchestrator.stats self) + 1)%Z
    /\ forall result, outcome = Gen.Returned result ->
         Orchestrator.CollaborationResult.execution_time result = elapsed
         /\ Forall2 (fun id agent => Orchestrator.agents self !! id = Some agent) agentIds
              (Orchestrator.CollaborationResult.agents_used result).
Proof.
  intros agentIds.
  destruct (collaborate_run gen self request elapsed log)
    as (outcome & issued & Hrun & _ & Hresult).
  eexists _, _, _. split; [exact Hrun|]. split; [reflexivity|].
  split; [reflexivity|]. split; [reflexivity|exact Hresult].
Qed.

(** X25. [collaborate] only appends to the call log, and it issues at most one
    call more than there are requested ids, whatever the topology and whatever
    the generator answers. *)
Theorem collaborate_call_budget (gen : Gen.Generator) (self : Orchestrator.Orchestrator)
    (request : Orchestrator.CollaborationRequest.t) (elapsed : Q) (log : list Gen.Call) :
  exists issued,
    (Orchestrator.collaborate gen self request elapsed log).2 = (log ++ issued)%list
    /\ (length issued
        <= length (Orchestrator.CollaborationRequest.agents request) + 1)%nat.
Proof.
  destruct (collaborate_run gen self request elapsed log)
    as (outcome & issued & Hrun & Hbound & _).
  exists issued. rewrite Hrun. split; [reflexivity|exact Hbound].
Qed.

(** X26. The agents are validated before the topology is looked at: for a type
    other than the three known ones and ids that all resolve, [collaborate]
    throws ["Unknown collaboration type: " + type] without a generator call
    and records a failed sample. *)
Theorem collaborate_unknown_type (gen : Gen.Generator) (self : Orchestrator.Orchestrator)
    (request : Orchestrator.CollaborationRequest.t) (elapsed : Q) (log : list Gen.Call)
    (name : string) :
  let agentIds := Orchestrator.CollaborationRequest.agents request in
  Orchestrator.CollaborationRequest.type_ request = Orchestrator.other_type name ->
  agentIds <> [] ->
  Forall (fun id => is_Some (Orchestrator.agents self !! id)) agentIds ->
  Orchestrator.collaborate gen self request elapsed log
  = (Gen.Threw (Gen.ErrorObject ("Unknown collaboration type: " ++ name)),
     Orchestrator.with_stats self
       (Orchestrator.record (Orchestrator.stats self) (elapsed, length agentIds, false)),
     log).
Proof.
  intros agentIds Htype Hne Hall.
  unfold Orchestrator.collaborate, Gen.bind, Gen.lift.
  cbn [Orchestrator.agents Orchestrator.stats Orchestrator.with_stats].
  fold agentIds. rewrite Htype.
  destruct (validateAndGetAgents_registered _ _ Hne Hall) as (agents & ->).
  reflexivity.
Qed.

(** ** The running statistics, further *)

Lemma fraction_bounds (a b : nat) :
  (a <= b)%nat -> (0 < b)%nat ->
  (0 <= inject_Z (Z.of_nat a) / inject_Z (Z.of_nat b)
   /\ inject_Z (Z.of_nat a) / inject_Z (Z.of_nat b) <= 1)%Q.
Proof.
  intros Hab Hb.
  assert (Hpos : (0 < inject_Z (Z.of_nat b))%Q).
  { change 0%Q with (inject_Z 0). rewrite <- Zlt_Qlt. lia. }
  split.
  - apply Qle_shift_div_l; [exact Hpos|]. rewrite Qmult_0_l.
    change 0%Q with (inject_Z 0). rewrite <- Zle_Qle. lia.
  - apply Qle_shift_div_r; [exact Hpos|]. rewrite Qmult_1_l.
    rewrite <- Zle_Qle. lia.
Qed.

Lemma successes_le (samples : list (Q * nat * bool)) :
  (successes samples <= length samples)%nat.
Proof. unfold successes. apply List.filter_length_le. Qed.

(** X27. After [n >= 1] requests that do not overlap, counted from zero, the
    orchestrator's [avg_execution_time] and [avg_agents_per_task] and the
    reasoning engine's [avg_processing_time] and [avg_tokens_used] are the
    arithmetic means of the recorded values, in exact arithmetic, and both
    success rates lie between 0 and 1, whatever the statistics held before. *)
Theorem running_means_are_averages (samples : list (Q * nat * bool))
    (collaborations : Orchestrator.Stats) (processes : Reasoning.Stats) :
  Orchestrator.total_collaborations collaborations = 0%Z ->
  Reasoning.total_processes processes = 0%Z ->
  samples <> [] ->
  let n := inject_Z (Z.of_nat (length samples)) in
  let after := Orchestrator.record_all samples collaborations in
  let after' := Reasoning.record_all samples processes in
  (Orchestrator.avg_execution_time after == Qsum (map elapsed_of samples) / n)%Q
  /\ (Orchestrator.avg_agents_per_task after == Qsum (map count_of samples) / n)%Q
  /\ (Reasoning.avg_processing_time after' == Qsum (map elapsed_of samples) / n)%Q
  /\ (Reasoning.avg_tokens_used after' == Qsum (map count_of samples) / n)%Q
  /\ (0 <= Orchestrator.success_rate after <= 1)%Q
  /\ (0 <= Reasoning.success_rate after' <= 1)%Q.
Proof.
  intros Hc Hp Hne n after after'.
  assert (Hlen : (0 < length samples)%nat) by (destruct samples; [congruence|cbn; lia]).
  split; [|split; [|split; [|split; [|split]]]].
  - unfold after, Orchestrator.record_all.
    apply (running_mean_from_zero Orchestrator.total_collaborations
             Orchestrator.avg_execution_time elapsed_of Orchestrator.record);
      [| |exact Hc|exact Hne].
    + now intros s [[elapsed count] ok].
    + intros s [[elapsed count] ok]. reflexivity.
  - unfold after, Orchestrator.record_all.
    apply (running_mean_from_zero Orchestrator.total_collaborations
             Orchestrator.avg_agents_per_task count_of Orchestrator.record);
      [| |exact Hc|exact Hne].
    + now intros s [[elapsed count] ok].
    + intros s [[elapsed count] ok]. reflexivity.
  - unfold after', Reasoning.record_all.
    apply (running_mean_from_zero Reasoning.total_processes
             Reasoning.avg_processing_time elapsed_of Reasoning.record);
      [| |exact Hp|exact Hne].
    + now intros s [[elapsed count] ok].
    + intros s [[elapsed count] ok]. reflexivity.
  - unfold after', Reasoning.record_all.
    apply (running_mean_from_zero Reasoning.total_processes
             Reasoning.avg_tokens_used count_of Reasoning.record);
      [| |exact Hp|exact Hne].
    + now intros s [[elapsed count] ok].
    + intros s [[elapsed count] ok]. reflexivity.
  - unfold after. rewrite (orchestrator_rate samples collaborations Hc Hne).
    exact (fraction_bounds _ _ (successes_le samples) Hlen).
  - unfold after'. rewrite (reasoning_rate samples processes Hp Hne).
    exact (fraction_bounds _ _ (successes_le samples) Hlen).
Qed.

(** ** The orchestrator on concrete runs *)

(** Three agents whose completions have no content: every step succeeds with
    an empty output and the final result is the text ["No result"]. *)
Lemma sequential_final_result_witness :
  exists result log',
    Orchestrator.sequentialCollaboration Episode.silent
      (Scenario.launch Orchestrator.sequential)
      [Scenario.analyst; Scenario.creative; Scenario.technical] []
      = (Gen.Returned result, log')
    /\ length (Orchestrator.CollaborationResult.steps result) = 3%nat
    /\ Orchestrator.CollaborationResult.success result = true
    /\ Orchestrator.CollaborationResult.final_result result = "No result".
Proof.
  destruct (sequential_final_result Episode.silent (Scenario.launch Orchestrator.sequential)
              [Scenario.analyst; Scenario.creative; Scenario.technical] []
              ltac:(discriminate))
    as (result & log' & final & Hrun & Hlast & Hfinal & _).
  exists result, log'. split; [exact Hrun|].
  rewrite Hfinal. vm_compute in Hrun. injection Hrun as <- <-.
  cbn in Hlast. injection Hlast as <-. repeat split.
Defined.

(** A breakdown in the requested format, a leader and two workers: the third
    subtask is left out, and the INSTRUCTIONS line counts as a subtask because
    it names one. *)
Lemma hierarchical_shape_witness :
  exists result log',
    Orchestrator.hierarchicalCollaboration
      (Scenario.leader_writes Episode.formatted_breakdown)
      (Scenario.launch Orchestrator.hierarchical)
      [Scenario.analyst; Scenario.creative; Scenario.technical] []
      = (Gen.Returned result, log')
    /\ map Orchestrator.CollaborationStep.input (Orchestrator.CollaborationResult.steps result)
       = ["Plan a launch"; "Survey the market"; "Finish this subtask: use public data";
          "Synthesis of worker results"]
    /\ length log' = 4%nat.
Proof.
  destruct (hierarchical_shape (Scenario.leader_writes Episode.formatted_breakdown)
              (Scenario.launch Orchestrator.hierarchical)
              Scenario.analyst [Scenario.creative; Scenario.technical] []
              {| Gen.content := Some Episode.formatted_breakdown;
                 Gen.total_tokens := Some 10%nat |} eq_refl)
    as (outcome & workerSteps & log' & Hrun & Hcount & Hlog & _).
  assert (Hworkers : length workerSteps = 2%nat) by (rewrite Hcount; vm_compute; reflexivity).
  destruct outcome as [result|error].
  - exists result, log'. split; [exact Hrun|].
    split; [|rewrite Hlog, Hworkers; reflexivity].
    vm_compute in Hrun. injection Hrun as <- _. reflexivity.
  - vm_compute in Hrun. discriminate Hrun.
Defined.

(** A generator that rejects every call: the leader's breakdown call is the
    only one issued. *)
Lemma hierarchical_throws_on_leader_calls_witness :
  exists error log',
    Orchestrator.hierarchicalCollaboration Scenario.every_call_fails
      (Scenario.launch Orchestrator.hierarchical)
      [Scenario.analyst; Scenario.creative; Scenario.technical] []
      = (Gen.Threw error, log')
    /\ length log' = 1%nat.
Proof.
  destruct (Orchestrator.hierarchicalCollaboration Scenario.every_call_fails
              (Scenario.launch Orchestrator.hierarchical)
              [Scenario.analyst; Scenario.creative; Scenario.technical] [])
    as [[result|error] log'] eqn:Hrun.
  - vm_compute in Hrun. discriminate Hrun.
  - exists error, log'. split; [reflexivity|].
    destruct (hierarchical_throws_on_leader_calls _ _ _ _ _ _ _ Hrun)
      as [[_ ->]|(completion & _ & _ & Hleader & _)].
    + reflexivity.
    + discriminate Hleader.
Defined.

(** The leader's own format, parsed. *)
Lemma parseSubtasks_marked_witness :
  Orchestrator.parseSubtasks Episode.formatted_breakdown
  = ["Survey the market"; "Finish this subtask: use public data"; "Draft the announcement"].
Proof.
  pose proof (parseSubtasks_marked Episode.formatted_breakdown) as Hparse.
  cbv zeta in Hparse. destruct Hparse as [Hmarked _].
  destruct Hmarked as [-> _]; [vm_compute; discriminate|].
  vm_compute. reflexivity.
Defined.

(** A request for a topology the orchestrator does not know. *)
Lemma collaborate_unknown_type_witness :
  let run :=
    Orchestrator.collaborate (Episode.always "ready") Orchestrator.initialized
      Episode.round_robin 12 [] in
  run.1.1 = Gen.Threw (Gen.ErrorObject "Unknown collaboration type: round-robin")
  /\ run.2 = [].
Proof.
  intros run. unfold run.
  rewrite (collaborate_unknown_type (Episode.always "ready") Orchestrator.initialized
             Episode.round_robin 12 [] "round-robin" eq_refl ltac:(discriminate)
             ltac:(repeat constructor; eexists; vm_compute; reflexivity)).
  split; reflexivity.
Defined.

(** Three requests recorded from the constructors' statistics. *)
Lemma running_means_are_averages_witness :
  let samples := [(12, 3%nat, true); (7, 2%nat, false); (9, 1%nat, true)]%Q in
  (Orchestrator.avg_execution_time
     (Orchestrator.record_all samples Orchestrator.initial_stats) == 28 # 3)%Q
  /\ (Orchestrator.avg_agents_per_task
        (Orchestrator.record_all samples Orchestrator.initial_stats) == 2)%Q
  /\ (Reasoning.avg_tokens_used
        (Reasoning.record_all samples Reasoning.initial_stats) == 2)%Q.
Proof.
  intros samples.
  pose proof (running_means_are_averages samples Orchestrator.initial_stats
                Reasoning.initial_stats eq_refl eq_refl ltac:(discriminate)) as H.
  cbv zeta in H. destruct H as (Htime & Hagents & _ & Htokens & _).
  split; [rewrite Htime; reflexivity|].
  split; [rewrite Hagents; reflexivity|rewrite Htokens; reflexivity].
Defined.
